(** * PC Build Assistant backend: session orchestration layer

    A shallow embedding of the Python sources
    ([exceptions.py], [models.py], [config.py], [agent_service.py],
    [callback_handler.py], [connection_manager.py], [search_tool.py],
    [main.py]) together with the properties stated about them.

    Conventions of the embedding:
    - Python [str] is Rocq's [string]; a character is an 8-bit [ascii]
      read as one of the code points U+0000 .. U+00FF, so [len] is
      [String.length].  String literals of the source that contain
      characters outside that range appear in their UTF-8 encoding;
      no property depends on them.
    - Python [int] is [Z].
    - A [dict] keyed by session id is a [gmap string _], a [set] of
      session ids is a [gset string].
    - A call that may raise returns a [result]: [Ok v] or [Raise e].
    - [datetime] values are clock readings in microseconds ([Z]); the
      readings of [datetime.now()] are inputs of the operations, except
      in the search tool, whose state carries the clock.
    - Code that suspends ([await]) is modelled between suspension
      points; collaborators (engine, search provider, transport peer)
      are inputs describing what they did during the call. *)

From Stdlib Require Import ZArith List Ascii String Lia Bool.
From stdpp Require Import base option list gmap strings pretty fin_maps fin_sets.

Local Open Scope string_scope.
Local Open Scope Z_scope.

(** ** Results of calls that may raise *)

Module Py.

(** The exception classes that occur in the modelled code.  The first
    seven are the classes of [exceptions.py]; the others come from the
    libraries the code catches exceptions of. *)
Inductive exn_class : Type :=
  | PCBuildAssistantError
  | SearchError
  | AgentError
  | ConnectionError
  | RateLimitError
  | TimeoutError
  | ValidationError
  | OutputParserException      (* langchain.schema *)
  | AsyncioTimeoutError        (* asyncio.TimeoutError *)
  | WebSocketDisconnect        (* fastapi *)
  | PydanticValidationError    (* pydantic.ValidationError *)
  | JSONDecodeError            (* json *)
  | RetryError                 (* tenacity *)
  | RuntimeError
  | OtherException (name : string).

Record exn : Type := Exn { exn_cls : exn_class; exn_msg : string }.

(** [str(e)] *)
Definition str (e : exn) : string := exn_msg e.

Definition exn_class_eqb (a b : exn_class) : bool :=
  match a, b with
  | PCBuildAssistantError, PCBuildAssistantError
  | SearchError, SearchError
  | AgentError, AgentError
  | ConnectionError, ConnectionError
  | RateLimitError, RateLimitError
  | TimeoutError, TimeoutError
  | ValidationError, ValidationError
  | OutputParserException, OutputParserException
  | AsyncioTimeoutError, AsyncioTimeoutError
  | WebSocketDisconnect, WebSocketDisconnect
  | PydanticValidationError, PydanticValidationError
  | JSONDecodeError, JSONDecodeError
  | RetryError, RetryError
  | RuntimeError, RuntimeError => true
  | OtherException n, OtherException m => String.eqb n m
  | _, _ => false
  end.

(** The direct base class inside the modelled hierarchy
    ([exceptions.py]); [None] stands for a base outside of it. *)
Definition base_class (c : exn_class) : option exn_class :=
  match c with
  | SearchError | AgentError | ConnectionError
  | TimeoutError | ValidationError => Some PCBuildAssistantError
  | RateLimitError => Some SearchError
  | _ => None
  end.

(** [issubclass c d] for the classes above (the hierarchy has depth 2). *)
Definition issubclass (c d : exn_class) : bool :=
  exn_class_eqb c d
  || match base_class c with
     | Some b =>
         exn_class_eqb b d
         || match base_class b with
            | Some b' => exn_class_eqb b' d
            | None => false
            end
     | None => false
     end.

(** [isinstance(e, (c1, ..., cn))] *)
Definition isinstance (e : exn) (cs : list exn_class) : bool :=
  existsb (issubclass (exn_cls e)) cs.

Inductive result (A : Type) : Type :=
  | Ok (a : A)
  | Raise (e : exn).
Arguments Ok {A} a.
Arguments Raise {A} e.

Definition is_ok {A} (r : result A) : bool :=
  match r with Ok _ => true | Raise _ => false end.

(** Values stored in the dictionaries the code exchanges with its
    collaborators. *)
Inductive value : Type :=
  | VStr (s : string)
  | VInt (n : Z)
  | VNone.

End Py.
Import Py.

(** ** Text operations used by the validation *)

Module Text.

Definition code (c : ascii) : N := N_of_ascii c.

(** [c.isspace()] on U+0000 .. U+00FF: the characters [str.strip()]
    removes. *)
Definition isspace (c : ascii) : bool :=
  let n := code c in
  ((9 <=? n) && (n <=? 13) || (28 <=? n) && (n <=? 32)
   || (n =? 133) || (n =? 160))%N.

(** [c.lower()] on U+0000 .. U+00FF: [A-Z] and the accented capitals
    U+00C0 .. U+00DE (without the multiplication sign U+00D7) move up
    by 32; every other character is unchanged. *)
Definition lower_char (c : ascii) : ascii :=
  let n := code c in
  if ((65 <=? n) && (n <=? 90)
      || (192 <=? n) && (n <=? 222) && negb (n =? 215))%N
  then ascii_of_N (n + 32) else c.

Fixpoint lower (s : string) : string :=
  match s with
  | EmptyString => EmptyString
  | String c s' => String (lower_char c) (lower s')
  end.

Fixpoint lstrip (s : string) : string :=
  match s with
  | EmptyString => EmptyString
  | String c s' => if isspace c then lstrip s' else s
  end.

Fixpoint rev (s : string) : string :=
  match s with
  | EmptyString => EmptyString
  | String c s' => rev s' ++ String c EmptyString
  end.

Definition rstrip (s : string) : string := rev (lstrip (rev s)).

(** [s.strip()] *)
Definition strip (s : string) : string := rstrip (lstrip s).

(** [s.startswith(p)] *)
Fixpoint startswith (p s : string) : bool :=
  match p, s with
  | EmptyString, _ => true
  | String a p', String b s' => Ascii.eqb a b && startswith p' s'
  | String _ _, EmptyString => false
  end.

(** [t in s]: [t] occurs in [s] as a contiguous substring. *)
Fixpoint contains (t s : string) : bool :=
  startswith t s
  || match s with
     | EmptyString => false
     | String _ s' => contains t s'
     end.

(** [len(s)] as a Python [int]. *)
Definition len (s : string) : Z := Z.of_nat (String.length s).

End Text.

(** ** [models.py] *)

Module Models.

Inductive MessageType : Type :=
  | QUERY
  | LOG
  | TOKEN
  | FINAL_OUTPUT
  | ERROR
  | HEARTBEAT
  | CONNECTION_STATUS.

Definition MessageType_eqb (a b : MessageType) : bool :=
  match a, b with
  | QUERY, QUERY | LOG, LOG | TOKEN, TOKEN | FINAL_OUTPUT, FINAL_OUTPUT
  | ERROR, ERROR | HEARTBEAT, HEARTBEAT
  | CONNECTION_STATUS, CONNECTION_STATUS => true
  | _, _ => false
  end.

(** A metadata value: what the handlers put into the metadata
    dictionaries.  [MSeconds] is a duration in seconds, held in
    microseconds. *)
Inductive meta : Type :=
  | MStr (s : string)
  | MInt (n : Z)
  | MSeconds (us : Z).

Record UserQuery : Type := {
  query : string;
  uq_session_id : option string
}.

Record WebSocketMessage : Type := {
  type : MessageType;
  content : string;
  timestamp : Z;
  metadata : option (list (string * meta))
}.

Record SearchResult : Type := {
  title : string;
  body : string;
  url : string;
  relevance_score : option Z
}.

Record AgentResponse : Type := {
  output : string;
  tokens_used : option Z;
  processing_time : option Z;
  search_results_count : option Z
}.


(** The validator [validate_query] of the field [query]. *)
Definition validate_query (v : string) : result string :=
  if String.eqb v "" || String.eqb (Text.strip v) ""
  then Raise (Exn (OtherException "ValueError") "Query cannot be empty")
  else Ok (Text.strip v).

(** [UserQuery(query=raw, session_id=sid)]: the constraints of the
    field ([min_length=1], [max_length=1000]) are checked on the text
    as it comes, then the validator runs; a failure of either is a
    [ValidationError] of pydantic. *)
Definition new_UserQuery (raw : string) (sid : option string)
  : result UserQuery :=
  if Text.len raw <? 1
  then Raise (Exn PydanticValidationError
                "String should have at least 1 character")
  else if 1000 <? Text.len raw
  then Raise (Exn PydanticValidationError
                "String should have at most 1000 characters")
  else match validate_query raw with
       | Ok v => Ok {| query := v; uq_session_id := sid |}
       | Raise e => Raise (Exn PydanticValidationError (str e))
       end.

End Models.
Import Models.

(** ** [config.py] *)

Module Config.

Record Settings : Type := {
  search_rate_limit_delay : Z;      (* microseconds *)
  max_search_results : Z;
  search_timeout : Z;               (* seconds *)
  agent_max_iterations : Z;
  websocket_timeout : Z;            (* seconds *)
  max_concurrent_connections : Z
}.

(** The defaults of the class [Settings]. *)
Definition default_settings : Settings := {|
  search_rate_limit_delay := 1000000;
  max_search_results := 5;
  search_timeout := 30;
  agent_max_iterations := 10;
  websocket_timeout := 300;
  max_concurrent_connections := 100
|}.

(** [timedelta(seconds=n)] *)
Definition timedelta_seconds (n : Z) : Z := n * 1000000.

End Config.
Import Config.

(** ** The transport: one [WebSocket] object per connection

    The class [WebSocket] belongs to the web framework; what follows
    is the behaviour of it the code relies on.  The objects live in a
    store and are referred to by reference: the registry, the dispatch
    loop and the callback handler of a session all hold the same
    object.  What the peer does is part of the object: [peer_takes]
    says how long it stays. *)

Module Transport.

Inductive ws_state : Type := CONNECTING | CONNECTED | DISCONNECTED.

Record WebSocket : Type := {
  application_state : ws_state;
  (** how many more frames the peer takes before it goes away;
      [None] when it stays *)
  peer_takes : option nat;
  (** frames passed to [send_text], delivered or not, oldest first *)
  offered : list WebSocketMessage;
  (** frames delivered to the peer, oldest first *)
  sent : list WebSocketMessage;
  (** the close code sent by this side, if any *)
  close_code : option Z;
  (** [websocket.client] *)
  client : option string
}.

Definition with_state (st : ws_state) (ws : WebSocket) : WebSocket :=
  {| application_state := st; peer_takes := peer_takes ws;
     offered := offered ws; sent := sent ws;
     close_code := close_code ws; client := client ws |}.

(** A frame is passed to [send_text]. *)
Definition offer (frame : WebSocketMessage) (ws : WebSocket) : WebSocket :=
  {| application_state := application_state ws; peer_takes := peer_takes ws;
     offered := offered ws ++ [frame]; sent := sent ws;
     close_code := close_code ws; client := client ws |}.

(** The peer takes a frame. *)
Definition deliver (frame : WebSocketMessage) (left : option nat)
  (ws : WebSocket) : WebSocket :=
  {| application_state := application_state ws; peer_takes := left;
     offered := offered ws ++ [frame]; sent := sent ws ++ [frame];
     close_code := close_code ws; client := client ws |}.

Definition is_connected (ws : WebSocket) : bool :=
  match application_state ws with CONNECTED => true | _ => false end.

(** The peer has gone away. *)
Definition peer_gone (ws : WebSocket) : bool :=
  match peer_takes ws with Some O => true | _ => false end.

(** A socket that accepts every write: it is connected and its peer
    stays. *)
Definition writable (ws : WebSocket) : bool :=
  is_connected ws
  && match peer_takes ws with None => true | Some _ => false end.

(** The socket takes the next frame: it is connected and its peer is
    still there. *)
Definition takes_next (ws : WebSocket) : bool :=
  is_connected ws && negb (peer_gone ws).

(** The double quote, for the texts of the transport's errors. *)
Definition dq : string := String (ascii_of_nat 34) EmptyString.

(** The [RuntimeError] of [send] on a socket in the state
    [DISCONNECTED], and the one on a socket in another state that
    does not admit the message of type [got]. *)
Definition closed_error (method : string) : exn :=
  Exn RuntimeError
    ("Cannot call " ++ dq ++ method ++ dq
     ++ " once a close message has been sent.").

Definition unexpected_error (expected got : string) : exn :=
  Exn RuntimeError
    ("Expected ASGI message " ++ expected ++ ", but got '" ++ got ++ "'").

Definition expected_connecting : string :=
  dq ++ "websocket.accept" ++ dq ++ ", " ++ dq ++ "websocket.close" ++ dq
  ++ " or " ++ dq ++ "websocket.http.response.start" ++ dq.

Definition expected_connected : string :=
  dq ++ "websocket.send" ++ dq ++ " or " ++ dq ++ "websocket.close" ++ dq.

(** [WebSocketDisconnect(code=1006)]: the exception carries a code and
    no text. *)
Definition peer_lost : exn := Exn WebSocketDisconnect "".

(** [await websocket.accept()] *)
Definition accept (ws : WebSocket) : result unit * WebSocket :=
  match application_state ws with
  | CONNECTING => (Ok tt, with_state CONNECTED ws)
  | CONNECTED =>
      (Raise (unexpected_error expected_connected "websocket.accept"), ws)
  | DISCONNECTED => (Raise (closed_error "send"), ws)
  end.

(** [await websocket.send_text(frame)].  A write that fails because
    the peer is gone leaves the socket in the state [DISCONNECTED] and
    raises [WebSocketDisconnect]; on a socket that is not connected
    the call raises [RuntimeError] before anything is written. *)
Definition send_text (frame : WebSocketMessage) (ws : WebSocket)
  : result unit * WebSocket :=
  match application_state ws with
  | CONNECTED =>
      match peer_takes ws with
      | Some O => (Raise peer_lost, with_state DISCONNECTED (offer frame ws))
      | Some (S k) => (Ok tt, deliver frame (Some k) ws)
      | None => (Ok tt, deliver frame None ws)
      end
  | CONNECTING =>
      (Raise (unexpected_error expected_connecting "websocket.send"),
       offer frame ws)
  | DISCONNECTED => (Raise (closed_error "send"), offer frame ws)
  end.

(** [await websocket.close(code)]; the default code is 1000.  The
    socket is [DISCONNECTED] afterwards whatever happens.  Before the
    handshake the peer is still there and gets the close message; on a
    connected socket whose peer is gone the write fails, no close
    message goes out and [WebSocketDisconnect] is raised. *)
Definition close (code : Z) (ws : WebSocket) : result unit * WebSocket :=
  let closed (sent_code : option Z) :=
    {| application_state := DISCONNECTED;
       peer_takes := peer_takes ws; offered := offered ws;
       sent := sent ws;
       close_code := sent_code; client := client ws |} in
  match application_state ws with
  | DISCONNECTED => (Raise (closed_error "send"), ws)
  | CONNECTING => (Ok tt, closed (Some code))
  | CONNECTED =>
      if peer_gone ws
      then (Raise peer_lost, closed (close_code ws))
      else (Ok tt, closed (Some code))
  end.

(** The store of [WebSocket] objects. *)
Abbreviation ref := positive (only parsing).
Abbreviation sockets := (gmap positive WebSocket) (only parsing).

(** Run an operation on the object behind a reference.  A dangling
    reference does not occur in the code (objects are never freed);
    it is reported as a [RuntimeError]. *)
Definition on_socket (op : WebSocket -> result unit * WebSocket)
  (r : ref) (ss : sockets) : result unit * sockets :=
  match ss !! r with
  | Some ws => let '(res, ws') := op ws in (res, <[r := ws']> ss)
  | None => (Raise (Exn RuntimeError "no such socket"), ss)
  end.

(** The frames delivered over a socket so far, and the frames passed
    to it. *)
Definition delivered (r : ref) (ss : sockets) : list WebSocketMessage :=
  match ss !! r with Some ws => sent ws | None => [] end.

Definition produced (r : ref) (ss : sockets) : list WebSocketMessage :=
  match ss !! r with Some ws => offered ws | None => [] end.

Definition writable_at (r : ref) (ss : sockets) : bool :=
  match ss !! r with Some ws => writable ws | None => false end.

End Transport.
Import Transport.

(** ** [search_tool.py] *)

Module Search.

(** The dictionary [_search_stats]: its three keys are created by
    [__init__] and never added to or removed, so it is a record. *)
Record Stats : Type := {
  total_searches : Z;
  successful_searches : Z;
  failed_searches : Z
}.

(** Dictionary objects live in a heap, so that handing out the object
    itself and handing out a copy can be told apart. *)
Abbreviation loc := positive (only parsing).
Abbreviation heap := (gmap positive Stats) (only parsing).

Record RateLimiter : Type := {
  delay : Z;                    (* microseconds *)
  last_request : option Z
}.

Record DDGSearchTool : Type := {
  rate_limiter : RateLimiter;
  _search_stats : loc
}.

(** The state a search call works on: the tool, the heap holding its
    statistics, and the clock. *)
Record state : Type := {
  tool : DDGSearchTool;
  objects : heap;
  clock : Z
}.

Definition zero_stats : Stats :=
  {| total_searches := 0; successful_searches := 0; failed_searches := 0 |}.

(** [DDGSearchTool.__init__] *)
Definition init (cfg : Settings) (h : heap) (now : Z) : state :=
  let l := fresh (dom h) in
  {| tool := {| rate_limiter := {| delay := search_rate_limit_delay cfg;
                                   last_request := None |};
                _search_stats := l |};
     objects := <[l := zero_stats]> h;
     clock := now |}.

(** The statistics of the tool ([zero_stats] stands for a dangling
    reference, which [init] excludes). *)
Definition stats (s : state) : Stats :=
  default zero_stats (objects s !! _search_stats (tool s)).

Definition update_stats (f : Stats -> Stats) (s : state) : state :=
  {| tool := tool s;
     objects := alter f (_search_stats (tool s)) (objects s);
     clock := clock s |}.

Definition incr_total (st : Stats) : Stats :=
  {| total_searches := total_searches st + 1;
     successful_searches := successful_searches st;
     failed_searches := failed_searches st |}.

Definition incr_successful (st : Stats) : Stats :=
  {| total_searches := total_searches st;
     successful_searches := successful_searches st + 1;
     failed_searches := failed_searches st |}.

Definition incr_failed (st : Stats) : Stats :=
  {| total_searches := total_searches st;
     successful_searches := successful_searches st;
     failed_searches := failed_searches st + 1 |}.

(** [asyncio.sleep(d)] *)
Definition sleep (d : Z) (s : state) : state :=
  {| tool := tool s; objects := objects s; clock := clock s + Z.max 0 d |}.

(** [RateLimiter.wait_if_needed]: returns the time slept. *)
Definition wait_if_needed (s : state) : Z * state :=
  let rl := rate_limiter (tool s) in
  let wait_time :=
    match last_request rl with
    | Some last =>
        let elapsed := clock s - last in
        if elapsed <? delay rl then delay rl - elapsed else 0
    | None => 0
    end in
  let s1 := sleep wait_time s in
  (wait_time,
   {| tool := {| rate_limiter := {| delay := delay rl;
                                    last_request := Some (clock s1) |};
                 _search_stats := _search_stats (tool s) |};
      objects := objects s1;
      clock := clock s1 |}).

(** What the search provider does on one call of [ddgs.text]: it
    answers with raw records or it raises.  [took] is how long the
    call runs, in microseconds. *)
Inductive provider_answer : Type :=
  | Records (rs : list (gmap string string))
  | Fails (e : exn).

Record provider_call : Type := {
  answer : provider_answer;
  took : Z
}.

(** [_perform_search] *)
Definition _perform_search (a : provider_answer) : result (list SearchResult) :=
  match a with
  | Records rs =>
      Ok (map (fun r =>
                 {| title := default "No title" (r !! "title");
                    body := default "No description" (r !! "body");
                    url := default "#" (r !! "href");
                    relevance_score := None |}) rs)
  | Fails e => Raise (Exn SearchError ("DuckDuckGo search failed: " ++ str e))
  end.

(** [asyncio.wait_for(fut, timeout)]: the awaited call completes in
    time, or the wait raises [asyncio.TimeoutError] when the timeout
    has passed. *)
Definition wait_for {A} (r : result A) (took timeout_s : Z) (s : state)
  : result A * state :=
  if took <=? timedelta_seconds timeout_s
  then (r, sleep took s)
  else (Raise (Exn AsyncioTimeoutError ""),
        sleep (timedelta_seconds timeout_s) s).

(** The body of [search_async]: one attempt. *)
Definition search_attempt (cfg : Settings) (p : provider_call) (s : state)
  : result (list SearchResult) * state :=
  let '(_, s1) := wait_if_needed s in
  let s2 := update_stats incr_total s1 in
  let '(r, s3) :=
    wait_for (_perform_search (answer p)) (took p) (search_timeout cfg) s2 in
  match r with
  | Ok results => (Ok results, update_stats incr_successful s3)
  | Raise e =>
      if isinstance e [AsyncioTimeoutError]
      then (Raise (Exn TimeoutError
                     ("Search timed out after " ++ pretty (search_timeout cfg)
                      ++ " seconds")),
            update_stats incr_failed s3)
      else (Raise (Exn SearchError ("Search failed: " ++ str e)),
            update_stats incr_failed s3)
  end.

(** *** The [tenacity] decorator of [search_async] *)

(** [stop_after_attempt(n)] *)
Definition stop_after_attempt (max_attempt_number attempt_number : Z) : bool :=
  max_attempt_number <=? attempt_number.

(** [wait_exponential(multiplier, min, max)] with base 2, in seconds:
    the wait after attempt [attempt_number].  (Older releases of the
    library raise 2 to [attempt_number] instead; with [min=4] the
    waits after the first and the second attempt are the same in both.) *)
Definition wait_exponential (multiplier min_ max_ attempt_number : Z) : Z :=
  let exp := 2 ^ (attempt_number - 1) in
  let result := multiplier * exp in
  Z.max (Z.max 0 min_) (Z.min result max_).

(** [retry_if_exception_type(classes)] *)
Definition retry_if_exception_type (classes : list exn_class) (e : exn)
  : bool :=
  isinstance e classes.

(** What a decorated call did, oldest first: an attempt with the
    clock readings at which its search started (after the rate
    limiter let it through) and at which it ended, or a wait of the
    retry policy in seconds. *)
Inductive step : Type :=
  | Attempt (attempt_number : Z) (started finished : Z)
  | Backoff (seconds : Z).

Definition max_attempts : Z := 3.

(** The retry loop around [search_attempt].  [provider n] is what the
    provider does on attempt [n].  [fuel] bounds the recursion; the
    stop condition ends the loop before it is used up when the loop
    starts with [fuel >= max_attempts - attempt_number]. *)
Fixpoint retrying (fuel : nat) (cfg : Settings) (provider : Z -> provider_call)
  (attempt_number : Z) (s : state)
  : result (list SearchResult) * state * list step :=
  let started := clock (snd (wait_if_needed s)) in
  let '(r, s1) := search_attempt cfg (provider attempt_number) s in
  let this := Attempt attempt_number started (clock s1) in
  match r with
  | Ok results => (Ok results, s1, [this])
  | Raise e =>
      if retry_if_exception_type [SearchError; RateLimitError] e
      then
        if stop_after_attempt max_attempts attempt_number
        then (* [RetryError] wraps the last attempt; its message
                stands for it here *)
             (Raise (Exn RetryError (str e)), s1, [this])
        else
          match fuel with
          | O => (Raise (Exn RetryError (str e)), s1, [this])
          | S fuel' =>
              let w := wait_exponential 1 4 10 attempt_number in
              let s2 := sleep (timedelta_seconds w) s1 in
              let '(r', s3, steps) :=
                retrying fuel' cfg provider (attempt_number + 1) s2 in
              (r', s3, this :: Backoff w :: steps)
          end
      else (Raise e, s1, [this])
  end.

(** The decorated [search_async]. *)
Definition search_async (cfg : Settings) (provider : Z -> provider_call)
  (s : state) : result (list SearchResult) * state * list step :=
  retrying (Z.to_nat max_attempts) cfg provider 1 s.

(** [get_stats]: a new dictionary object holding a copy. *)
Definition get_stats (s : state) : loc * state :=
  let l := fresh (dom (objects s)) in
  (l, {| tool := tool s;
         objects := <[l := stats s]> (objects s);
         clock := clock s |}).


(** The attempts and the waits of a decorated call. *)
Definition attempts (steps : list step) : list Z :=
  flat_map (fun st => match st with
                      | Attempt n _ _ => [n]
                      | Backoff _ => []
                      end) steps.

Definition backoffs (steps : list step) : list Z :=
  flat_map (fun st => match st with
                      | Attempt _ _ _ => []
                      | Backoff w => [w]
                      end) steps.

(** The time between the end of an attempt and the start of the next. *)
Fixpoint gaps (steps : list step) : list Z :=
  match steps with
  | Attempt _ _ finished :: rest =>
      match rest with
      | Backoff _ :: Attempt _ started _ :: _ =>
          (started - finished) :: gaps rest
      | _ => gaps rest
      end
  | _ :: rest => gaps rest
  | [] => []
  end.

Fixpoint strictly_increasing (l : list Z) : bool :=
  match l with
  | a :: (b :: _) as rest => (a <? b) && strictly_increasing rest
  | _ => true
  end.

(** The statistics object of the tool exists in the heap. *)
Definition allocated (s : state) : Prop :=
  is_Some (objects s !! _search_stats (tool s)).

(** The errors the decorator retries. *)
Definition transient (e : exn) : bool :=
  retry_if_exception_type [SearchError; RateLimitError] e.

(** The invariant of the counters. *)
Definition stats_consistent (st : Stats) : Prop :=
  total_searches st = successful_searches st + failed_searches st
  /\ 0 <= total_searches st
  /\ 0 <= successful_searches st
  /\ 0 <= failed_searches st.

Definition stats_le (a b : Stats) : Prop :=
  total_searches a <= total_searches b
  /\ successful_searches a <= successful_searches b
  /\ failed_searches a <= failed_searches b.


(** The clock readings at which the attempts of a decorated call
    started their search. *)
Definition starts (steps : list step) : list Z :=
  flat_map (fun st => match st with
                      | Attempt _ started _ => [started]
                      | Backoff _ => []
                      end) steps.

(** Consecutive readings are at least [d] apart. *)
Fixpoint spaced (d : Z) (l : list Z) : Prop :=
  match l with
  | a :: (b :: _) as rest => a + d <= b /\ spaced d rest
  | _ => True
  end.

(** The reading the rate limiter holds, if any, before others. *)
Definition since_last (s : state) (l : list Z) : list Z :=
  match last_request (rate_limiter (tool s)) with
  | Some t0 => t0 :: l
  | None => l
  end.

(** *** [search_sync] *)

Definition newline : string := String (ascii_of_nat 10) EmptyString.

(** [sep.join(parts)] *)
Fixpoint join (sep : string) (parts : list string) : string :=
  match parts with
  | [] => ""
  | [part] => part
  | part :: rest => part ++ sep ++ join sep rest
  end.

(** The text [search_sync] builds for one result. *)
Definition format_result (r : SearchResult) : string :=
  "Title: " ++ title r ++ newline
  ++ "Description: " ++ body r ++ newline
  ++ "URL: " ++ url r.

(** [search_sync].  [loop_is_running] is what [loop.is_running()]
    answers: when it is true the search runs in a thread of its own
    and its result is awaited for at most [search_timeout] seconds (the
    thread is joined all the same, so the search runs to its end);
    otherwise the search is run to completion on the loop.  Every
    exception ends in the text of the failure. *)
Definition search_sync (cfg : Settings) (provider : Z -> provider_call)
  (loop_is_running : bool) (s : state) : string * state :=
  let '(r, s', _) := search_async cfg provider s in
  let awaited :=
    if loop_is_running
       && (timedelta_seconds (search_timeout cfg) <? clock s' - clock s)
    then Raise (Exn (OtherException "TimeoutError") "")
    else r in
  match awaited with
  | Ok [] => ("No search results found.", s')
  | Ok results => (join (newline ++ newline) (map format_result results), s')
  | Raise e => ("Search failed: " ++ str e, s')
  end.

End Search.

(** ** [callback_handler.py] *)

Module Callback.

Record WebSocketCallbackHandler : Type := {
  websocket : ref;
  session_id : string;
  message_count : Z;
  start_time : Z
}.

(** [WebSocketCallbackHandler(websocket, session_id)], created at
    clock reading [now].  ([main.py] always passes the session id;
    the fallback name built from the time stamp is kept abstract as
    ["session_"].) *)
Definition new (ws : ref) (sid : option string) (now : Z)
  : WebSocketCallbackHandler :=
  {| websocket := ws;
     session_id := match sid with
                   | Some s => if String.eqb s "" then "session_" else s
                   | None => "session_"
                   end;
     message_count := 0;
     start_time := now |}.

Definition count_message (h : WebSocketCallbackHandler)
  : WebSocketCallbackHandler :=
  {| websocket := websocket h; session_id := session_id h;
     message_count := message_count h + 1; start_time := start_time h |}.

(** [_send_message] *)
Definition _send_message (message_type : MessageType) (text : string)
  (md : option (list (string * meta))) (now : Z)
  (h : WebSocketCallbackHandler) (ss : sockets)
  : result unit * WebSocketCallbackHandler * sockets :=
  let message := {| type := message_type; content := text;
                    timestamp := now;
                    metadata := Some (default [] md) |} in
  match on_socket (send_text message) (websocket h) ss with
  | (Ok _, ss') => (Ok tt, count_message h, ss')
  | (Raise e, ss') =>
      if isinstance e [WebSocketDisconnect]
      then (Raise (Exn ConnectionError "WebSocket connection lost"), h, ss')
      else (Raise (Exn ConnectionError ("Failed to send message: " ++ str e)),
            h, ss')
  end.

(** The lifecycle events of the reasoning engine: one constructor per
    callback method of the handler, with the arguments the method
    reads.  Of the response of the language model [on_llm_end] reads
    [llm_output], which is [None] or a dictionary, and of the
    dictionary the entry ["token_usage"], itself a dictionary when it
    is there. *)
Inductive event : Type :=
  | LLMStart
  | LLMNewToken (token : string)
  | LLMEnd (llm_output : option (option (gmap string value)))
  | LLMError (error : exn)
  | ToolStart (name : option string) (input_str : string)
  | ToolEnd (output : string)
  | ToolError (error : exn)
  | AgentAction (tool : string) (tool_input : string)
  | AgentFinish (output : option string)
  | ChainStart
  | ChainEnd
  | ChainError (error : exn).

Definition handler_step : Type :=
  Z -> WebSocketCallbackHandler -> sockets ->
  result unit * WebSocketCallbackHandler * sockets.

Definition on_llm_start : handler_step :=
  _send_message LOG "🤖 AI is thinking about your PC build request..."
    (Some [("event", MStr "llm_start")]).

Definition on_llm_new_token (token : string) : handler_step :=
  _send_message TOKEN token None.

(** [on_llm_end], [on_chain_start] and [on_chain_end] only write to
    the log.  [on_llm_end] reads
    [response.llm_output.get('token_usage', {}).get('total_tokens')]
    for its log entry: [llm_output] is [None] by default, and then the
    first [get] raises [AttributeError]. *)
Definition none_has_no_get : exn :=
  Exn (OtherException "AttributeError")
    "'NoneType' object has no attribute 'get'".

Definition on_llm_end (llm_output : option (option (gmap string value)))
  : handler_step :=
  fun _ h ss =>
    match llm_output with
    | None => (Raise none_has_no_get, h, ss)
    | Some token_usage =>
        let token_count := default ∅ token_usage !! "total_tokens" in
        (Ok tt, h, ss)
    end.

Definition on_llm_error (error : exn) : handler_step :=
  _send_message ERROR ("AI processing error: " ++ str error)
    (Some [("event", MStr "llm_error")]).

Definition on_tool_start (name : option string) (input_str : string)
  : handler_step :=
  let tool_name := default "Unknown Tool" name in
  _send_message LOG ("🔍 Searching for: " ++ input_str)
    (Some [("event", MStr "tool_start"); ("tool", MStr tool_name)]).

Definition on_tool_end (output : string) : handler_step :=
  _send_message LOG "✅ Search completed, analyzing results..."
    (Some [("event", MStr "tool_end")]).

Definition on_tool_error (error : exn) : handler_step :=
  _send_message ERROR ("Search error: " ++ str error)
    (Some [("event", MStr "tool_error")]).

Definition on_agent_action (tool tool_input : string) : handler_step :=
  _send_message LOG ("🎯 Action: " ++ tool)
    (Some [("event", MStr "agent_action"); ("tool", MStr tool);
           ("input", MStr tool_input)]).

Definition on_agent_finish (output : option string) : handler_step :=
  fun now h =>
    let processing_time := now - start_time h in
    _send_message FINAL_OUTPUT (default "No output generated" output)
      (Some [("event", MStr "agent_finish");
             ("processing_time", MSeconds processing_time);
             ("messages_sent", MInt (message_count h))])
      now h.

Definition on_chain_start : handler_step :=
  fun _ h ss => (Ok tt, h, ss).

Definition on_chain_end : handler_step :=
  fun _ h ss => (Ok tt, h, ss).

Definition on_chain_error (error : exn) : handler_step :=
  _send_message ERROR ("Processing error: " ++ str error)
    (Some [("event", MStr "chain_error")]).

(** The callback the engine invokes for an event. *)
Definition dispatch (ev : event) : handler_step :=
  match ev with
  | LLMStart => on_llm_start
  | LLMNewToken token => on_llm_new_token token
  | LLMEnd llm_output => on_llm_end llm_output
  | LLMError error => on_llm_error error
  | ToolStart name input_str => on_tool_start name input_str
  | ToolEnd output => on_tool_end output
  | ToolError error => on_tool_error error
  | AgentAction tool tool_input => on_agent_action tool tool_input
  | AgentFinish output => on_agent_finish output
  | ChainStart => on_chain_start
  | ChainEnd => on_chain_end
  | ChainError error => on_chain_error error
  end.

(** The engine raises the events one after the other, each at its own
    clock reading.  An exception of a callback is logged by the
    engine's callback manager and not propagated (the handler leaves
    [raise_error] at its default), so the next event is raised all the
    same.  The results of the callbacks are returned, oldest first. *)
Fixpoint emit (evs : list (event * Z)) (h : WebSocketCallbackHandler)
  (ss : sockets)
  : list (result unit) * WebSocketCallbackHandler * sockets :=
  match evs with
  | [] => ([], h, ss)
  | (ev, now) :: rest =>
      let '(r, h1, ss1) := dispatch ev now h ss in
      let '(rs, h2, ss2) := emit rest h1 ss1 in
      (r :: rs, h2, ss2)
  end.




(** The callbacks that call [_send_message]: all but [on_llm_end],
    [on_chain_start] and [on_chain_end]. *)
Definition sends (ev : event) : bool :=
  match ev with
  | LLMEnd _ | ChainStart | ChainEnd => false
  | _ => true
  end.

(** The events whose callback raises before it returns: the end of a
    run of the language model whose response has no [llm_output]. *)
Definition crashes (ev : event) : bool :=
  match ev with
  | LLMEnd None => true
  | _ => false
  end.

(** The results that are a [ConnectionError]. *)
Definition connection_lost (r : result unit) : bool :=
  match r with
  | Raise e => exn_class_eqb (exn_cls e) ConnectionError
  | Ok _ => false
  end.

(** The results that are an [AttributeError]. *)
Definition attribute_error (r : result unit) : bool :=
  match r with
  | Raise e => exn_class_eqb (exn_cls e) (OtherException "AttributeError")
  | Ok _ => false
  end.

(** The two errors of [_send_message]: the one of the send on which
    the loss of the peer shows, and the one of every send after the
    socket has left the state [CONNECTED] for [DISCONNECTED]. *)
Definition connection_lost_error : exn :=
  Exn ConnectionError "WebSocket connection lost".

Definition send_after_close_error : exn :=
  Exn ConnectionError ("Failed to send message: " ++ str (closed_error "send")).

End Callback.

(** ** [agent_service.py] *)

Module Agent.
Import Callback.

(** What the reasoning engine does: the defects of building it, and
    for a query the run of [agent.invoke]. *)
Inductive invoke_outcome : Type :=
  | Returns (d : gmap string value)   (* [agent.invoke] returns a dict *)
  | Raises (e : exn)                  (* [agent.invoke] raises *)
  | Overruns.                         (* not finished after the timeout *)

Record engine_run : Type := {
  (** the lifecycle events raised, with the clock reading of each *)
  events : list (event * Z);
  (** the searches requested through the search tool *)
  searches : list (Z -> Search.provider_call);
  (** the turns the engine appends to the conversation memory *)
  remembered : list (string * string);
  outcome : invoke_outcome
}.

Record engine : Type := {
  (** [GoogleGenerativeAI(...)] raises *)
  llm_error : option exn;
  (** [initialize_agent(...)] raises *)
  init_error : option exn;
  run : string -> engine_run
}.

(** A call made to the engine. *)
Inductive engine_call : Type :=
  | Created (session : string)
  | Invoked (input : string).

Record PCBuildAgentService : Type := {
  search_tool : Search.state;
  _memory_cache : gmap string (list (string * string));
  (** the calls made to the engine so far, oldest first *)
  engine_calls : list engine_call
}.

Definition with_search (s : Search.state) (a : PCBuildAgentService)
  : PCBuildAgentService :=
  {| search_tool := s; _memory_cache := _memory_cache a;
     engine_calls := engine_calls a |}.

Definition with_memory (m : gmap string (list (string * string)))
  (a : PCBuildAgentService) : PCBuildAgentService :=
  {| search_tool := search_tool a; _memory_cache := m;
     engine_calls := engine_calls a |}.

Definition record_call (c : engine_call) (a : PCBuildAgentService)
  : PCBuildAgentService :=
  {| search_tool := search_tool a; _memory_cache := _memory_cache a;
     engine_calls := engine_calls a ++ [c] |}.

Definition forbidden_terms : list string :=
  ["hack"; "crack"; "piracy"; "illegal"].

(** [_validate_query] *)
Definition _validate_query (q : UserQuery) : result unit :=
  if String.eqb (query q) "" || (Text.len (Text.strip (query q)) <? 3)
  then Raise (Exn ValidationError "Query must be at least 3 characters long")
  else if 1000 <? Text.len (query q)
  then Raise (Exn ValidationError "Query cannot exceed 1000 characters")
  else
    let query_lower := Text.lower (query q) in
    if existsb (fun term => Text.contains term query_lower) forbidden_terms
    then Raise (Exn ValidationError "Query contains inappropriate content")
    else Ok tt.

(** [_get_or_create_memory] *)
Definition _get_or_create_memory (sid : string) (a : PCBuildAgentService)
  : PCBuildAgentService :=
  match _memory_cache a !! sid with
  | Some _ => a
  | None => with_memory (<[sid := []]> (_memory_cache a)) a
  end.

(** [_create_agent] *)
Definition _create_agent (eng : engine) (sid : string)
  (a : PCBuildAgentService) : result unit * PCBuildAgentService :=
  match llm_error eng with
  | Some e => (Raise (Exn AgentError ("Failed to create agent: " ++ str e)), a)
  | None =>
      let a1 := _get_or_create_memory sid a in
      match init_error eng with
      | Some e =>
          (Raise (Exn AgentError ("Failed to create agent: " ++ str e)), a1)
      | None => (Ok tt, record_call (Created sid) a1)
      end
  end.

Definition apology : string :=
  "I encountered an issue processing your request. Please try rephrasing your PC build question.".

(** [_execute_agent], applied to what [agent.invoke] does. *)
Definition _execute_agent (invoked : result (gmap string value))
  : result (gmap string value) :=
  match invoked with
  | Ok d => Ok d
  | Raise e =>
      if isinstance e [OutputParserException]
      then Ok {[ "output" := VStr apology ]}
      else Raise (Exn AgentError ("Agent execution failed: " ++ str e))
  end.

(** The searches of a run, one decorated call of [search_async] each. *)
Definition run_searches (cfg : Settings)
  (calls : list (Z -> Search.provider_call)) (s : Search.state)
  : Search.state :=
  fold_left (fun s p => snd (fst (Search.search_async cfg p s))) calls s.

(** The engine at work on a query in the worker thread: the events
    reach the handler, the searches reach the search tool, the memory
    of the session grows. *)
Definition engine_at_work (cfg : Settings) (r : engine_run) (sid text : string)
  (h : WebSocketCallbackHandler) (a : PCBuildAgentService) (ss : sockets)
  : WebSocketCallbackHandler * PCBuildAgentService * sockets :=
  let '(_, h1, ss1) := emit (events r) h ss in
  let a1 := with_search (run_searches cfg (searches r) (search_tool a)) a in
  let a2 := with_memory
              (alter (fun turns => (turns ++ remembered r)%list) sid
                 (_memory_cache a1))
              a1 in
  (h1, record_call (Invoked text) a2, ss1).

(** [asyncio.wait_for(loop.run_in_executor(None, self._execute_agent,
    agent, query.query), timeout=300)] *)
Definition await_engine (o : invoke_outcome) : result (gmap string value) :=
  match o with
  | Returns d => _execute_agent (Ok d)
  | Raises e => _execute_agent (Raise e)
  | Overruns => Raise (Exn AsyncioTimeoutError "")
  end.

(** [AgentResponse(output=..., processing_time=..., search_results_count=...)]:
    the model checks that [output] is a string. *)
Definition make_response (out : value) (elapsed : Z) (found : Z)
  : result AgentResponse :=
  match out with
  | VStr s => Ok {| output := s; tokens_used := None;
                    processing_time := Some elapsed;
                    search_results_count := Some found |}
  | _ => Raise (Exn PydanticValidationError
                  "output: Input should be a valid string")
  end.

Abbreviation state :=
  (WebSocketCallbackHandler * PCBuildAgentService * sockets)%type
  (only parsing).

(** The [try] block of [process_query]. *)
Definition process_query_try (cfg : Settings) (eng : engine)
  (q : UserQuery) (sid : string) (started finished : Z)
  (h : WebSocketCallbackHandler) (a : PCBuildAgentService) (ss : sockets)
  : result AgentResponse * state :=
  match _validate_query q with
  | Raise e => (Raise e, (h, a, ss))
  | Ok _ =>
      match _create_agent eng sid a with
      | (Raise e, a1) => (Raise e, (h, a1, ss))
      | (Ok _, a1) =>
          let r := run eng (query q) in
          let '(h2, a2, ss2) := engine_at_work cfg r sid (query q) h a1 ss in
          match await_engine (outcome r) with
          | Raise e =>
              if isinstance e [AsyncioTimeoutError]
              then (Raise (Exn TimeoutError
                             "Agent processing timed out after 5 minutes"),
                    (h2, a2, ss2))
              else (Raise e, (h2, a2, ss2))
          | Ok d =>
              let processing_time := finished - started in
              let '(l, s3) := Search.get_stats (search_tool a2) in
              let found := Search.successful_searches (Search.stats s3) in
              let a3 := with_search s3 a2 in
              (make_response (default (VStr "No response generated")
                                (d !! "output"))
                 processing_time found,
               (h2, a3, ss2))
          end
      end
  end.

(** [process_query]: the [try] block and its [except Exception]. *)
Definition process_query (cfg : Settings) (eng : engine)
  (q : UserQuery) (sid : string) (started finished : Z)
  (h : WebSocketCallbackHandler) (a : PCBuildAgentService) (ss : sockets)
  : result AgentResponse * state :=
  match process_query_try cfg eng q sid started finished h a ss with
  | (Ok response, st) => (Ok response, st)
  | (Raise e, st) =>
      if isinstance e [ValidationError; AgentError; TimeoutError]
      then (Raise e, st)
      else (Raise (Exn AgentError ("Query processing failed: " ++ str e)), st)
  end.

(** The classes of errors [process_query] hands to its caller. *)
Definition classified (e : exn) : bool :=
  match exn_cls e with
  | ValidationError | TimeoutError | AgentError => true
  | _ => false
  end.


(** [clear_memory] *)
Definition clear_memory (sid : string) (a : PCBuildAgentService)
  : PCBuildAgentService :=
  match _memory_cache a !! sid with
  | Some _ => with_memory (delete sid (_memory_cache a)) a
  | None => a
  end.

(** [get_memory_stats]: the values of ["active_sessions"] and of
    ["total_messages"]. *)
Definition get_memory_stats (a : PCBuildAgentService) : Z * Z :=
  (Z.of_nat (size (_memory_cache a)),
   Z.of_nat (sum_list_with (fun item => length (snd item))
               (map_to_list (_memory_cache a)))).

(** [cleanup_old_sessions].  [keys] is [list(self._memory_cache.keys())]:
    the keys in the order of the dictionary, which the map does not
    record.  The parameter [max_age_hours] is not used by the code. *)
Definition cleanup_old_sessions (keys : list string) (a : PCBuildAgentService)
  : PCBuildAgentService :=
  if 100 <? Z.of_nat (size (_memory_cache a))
  then
    let sessions_to_remove := take 50 keys in
    with_memory
      (fold_left (fun m sid => delete sid m) sessions_to_remove
         (_memory_cache a))
      a
  else a.

(** [keys] lists the keys of the cache, each once. *)
Definition lists_keys (keys : list string) (a : PCBuildAgentService) : Prop :=
  NoDup keys /\ forall sid, sid ∈ keys <-> is_Some (_memory_cache a !! sid).

End Agent.

(** ** [connection_manager.py] *)

Module Registry.

(** The value of [connection_info[session_id]]. *)
Record info : Type := {
  connected_at : Z;
  last_activity : Z;
  message_count : Z;
  client_info : option string
}.

(** A background task of the event loop. *)
Inductive task_state : Type := Scheduled | Cancelled.

Record ConnectionManager : Type := {
  active_connections : gmap string ref;
  connection_info : gmap string info;
  processing_connections : gset string;
  _heartbeat_task : option positive
}.

(** The registry together with the objects it refers to: the
    [WebSocket] objects and the tasks of the event loop. *)
Record world : Type := {
  manager : ConnectionManager;
  socks : sockets;
  tasks : gmap positive task_state
}.

Definition with_manager (m : ConnectionManager) (w : world) : world :=
  {| manager := m; socks := socks w; tasks := tasks w |}.

Definition with_socks (ss : sockets) (w : world) : world :=
  {| manager := manager w; socks := ss; tasks := tasks w |}.

(** [len(self.active_connections)] *)
Definition live_count (w : world) : Z :=
  Z.of_nat (size (active_connections (manager w))).

(** [ConnectionConfig] *)
Definition MAX_CONNECTIONS (cfg : Settings) : Z :=
  max_concurrent_connections cfg.
Definition CONNECTION_TIMEOUT (cfg : Settings) : Z := websocket_timeout cfg.
Definition HEARTBEAT_INTERVAL : Z := 30.

(** [is_processing] *)
Definition is_processing (sid : string) (w : world) : bool :=
  bool_decide (sid ∈ processing_connections (manager w)).

(** [set_processing] *)
Definition set_processing (sid : string) (processing : bool) (w : world)
  : world :=
  let m := manager w in
  with_manager
    {| active_connections := active_connections m;
       connection_info := connection_info m;
       processing_connections :=
         if processing
         then {[ sid ]} ∪ processing_connections m
         else processing_connections m ∖ {[ sid ]};
       _heartbeat_task := _heartbeat_task m |} w.

Definition without_heartbeat (m : ConnectionManager) : ConnectionManager :=
  {| active_connections := active_connections m;
     connection_info := connection_info m;
     processing_connections := processing_connections m;
     _heartbeat_task := None |}.

(** [disconnect].  The two [del] statements raise [KeyError] when the
    key is missing; for the first the test before it excludes that. *)
Definition disconnect (sid : string) (w : world) : result unit * world :=
  let m := manager w in
  match active_connections m !! sid with
  | None => (Ok tt, w)
  | Some ws =>
      (* try: await websocket.close()  except Exception: pass *)
      let ss := snd (on_socket (close 1000) ws (socks w)) in
      let active := delete sid (active_connections m) in
      match connection_info m !! sid with
      | None =>
          (Raise (Exn (OtherException "KeyError") sid),
           {| manager := {| active_connections := active;
                            connection_info := connection_info m;
                            processing_connections := processing_connections m;
                            _heartbeat_task := _heartbeat_task m |};
              socks := ss; tasks := tasks w |})
      | Some _ =>
          let m1 := {| active_connections := active;
                       connection_info := delete sid (connection_info m);
                       processing_connections :=
                         processing_connections m ∖ {[ sid ]};
                       _heartbeat_task := _heartbeat_task m |} in
          match _heartbeat_task m with
          | Some t =>
              if bool_decide (size active = 0%nat)
              then (Ok tt,
                    {| manager := without_heartbeat m1; socks := ss;
                       tasks := <[t := Cancelled]> (tasks w) |})
              else (Ok tt, {| manager := m1; socks := ss; tasks := tasks w |})
          | None => (Ok tt, {| manager := m1; socks := ss; tasks := tasks w |})
          end
      end
  end.

(** The update of [connection_info[session_id]] after a send. *)
Definition touch (now : Z) (i : info) : info :=
  {| connected_at := connected_at i; last_activity := now;
     message_count := message_count i + 1; client_info := client_info i |}.

(** [_send_to_connection]; [now] is the clock reading after the send. *)
Definition _send_to_connection (sid : string) (message : WebSocketMessage)
  (now : Z) (w : world) : result unit * world :=
  let m := manager w in
  match active_connections m !! sid with
  | None =>
      (Raise (Exn ConnectionError ("Connection " ++ sid ++ " not found")), w)
  | Some ws =>
      match on_socket (send_text message) ws (socks w) with
      | (Ok _, ss) =>
          (Ok tt,
           {| manager := {| active_connections := active_connections m;
                            connection_info :=
                              alter (touch now) sid (connection_info m);
                            processing_connections := processing_connections m;
                            _heartbeat_task := _heartbeat_task m |};
              socks := ss; tasks := tasks w |})
      | (Raise e, ss) =>
          match disconnect sid (with_socks ss w) with
          | (Raise e', w') => (Raise e', w')
          | (Ok _, w') =>
              if isinstance e [WebSocketDisconnect]
              then (Raise e, w')
              else (Raise (Exn ConnectionError
                             ("Failed to send message: " ++ str e)), w')
          end
      end
  end.

(** [send_error] *)
Definition send_error (sid error_message error_type : string) (now : Z)
  (w : world) : result unit * world :=
  _send_to_connection sid
    {| type := ERROR; content := error_message; timestamp := now;
       metadata := Some [("error_type", MStr error_type)] |}
    now w.

(** [connect].  [new_id] is the value of [str(uuid.uuid4())]. *)
Definition connect (cfg : Settings) (ws : ref) (new_id : string) (now : Z)
  (w : world) : result string * world :=
  match on_socket accept ws (socks w) with
  | (Raise e, ss) => (Raise e, with_socks ss w)
  | (Ok _, ss) =>
      let m := manager w in
      if MAX_CONNECTIONS cfg <=? Z.of_nat (size (active_connections m))
      then
        match on_socket (close 1013) ws ss with
        | (Raise e, ss') => (Raise e, with_socks ss' w)
        | (Ok _, ss') =>
            (Raise (Exn ConnectionError "Maximum connections exceeded"),
             with_socks ss' w)
        end
      else
        let active := <[new_id := ws]> (active_connections m) in
        let infos :=
          <[new_id := {| connected_at := now; last_activity := now;
                         message_count := 0;
                         client_info :=
                           match ss !! ws with
                           | Some s => client s
                           | None => None
                           end |}]> (connection_info m) in
        let first := bool_decide (size active = 1%nat) in
        let t := fresh (dom (tasks w)) in
        let w1 :=
          {| manager := {| active_connections := active;
                           connection_info := infos;
                           processing_connections := processing_connections m;
                           _heartbeat_task :=
                             if first then Some t else _heartbeat_task m |};
             socks := ss;
             tasks := if first then <[t := Scheduled]> (tasks w)
                      else tasks w |} in
        match _send_to_connection new_id
                {| type := CONNECTION_STATUS;
                   content := "Connected successfully. Session ID: " ++ new_id;
                   timestamp := now; metadata := None |}
                now w1 with
        | (Raise e, w2) => (Raise e, w2)
        | (Ok _, w2) => (Ok new_id, w2)
        end
  end.

(** [_send_heartbeat_to_connection] *)
Definition _send_heartbeat_to_connection (sid : string)
  (message : WebSocketMessage) (now : Z) (w : world) : result unit * world :=
  match _send_to_connection sid message now w with
  | (Ok _, w1) => (Ok tt, w1)
  | (Raise _, w1) => disconnect sid w1
  end.

(** [now - info["last_activity"] > timeout] *)
Definition is_stale (cfg : Settings) (now : Z) (i : info) : bool :=
  timedelta_seconds (CONNECTION_TIMEOUT cfg) <? now - last_activity i.

(** The list [stale_connections] built by the first loop of
    [_cleanup_stale_connections]. *)
Definition stale_connections (cfg : Settings) (now : Z) (w : world)
  : list string :=
  (List.filter (fun item => is_stale cfg now (snd item))
     (map_to_list (connection_info (manager w)))).*1.

(** A loop of [disconnect] calls; an exception ends it. *)
Fixpoint disconnect_all (sids : list string) (w : world)
  : result unit * world :=
  match sids with
  | [] => (Ok tt, w)
  | sid :: rest =>
      match disconnect sid w with
      | (Ok _, w1) => disconnect_all rest w1
      | (Raise e, w1) => (Raise e, w1)
      end
  end.

(** [_cleanup_stale_connections] *)
Definition _cleanup_stale_connections (cfg : Settings) (now : Z) (w : world)
  : result unit * world :=
  disconnect_all (stale_connections cfg now w) w.

(** The heartbeat tasks of one cycle, gathered with
    [return_exceptions=True]: every task runs, whatever the others
    raise.  The tasks are run one after the other in the order they
    are created. *)
Definition send_heartbeats (sids : list string) (sent_at : Z) (w : world)
  : world :=
  fold_left
    (fun w sid =>
       snd (_send_heartbeat_to_connection sid
              {| type := HEARTBEAT; content := "ping"; timestamp := sent_at;
                 metadata := None |}
              sent_at w))
    sids w.

(** One cycle of [_heartbeat_loop] after its sleep: the heartbeats are
    sent at clock reading [sent_at], the scan for stale connections
    runs at [scanned_at].  An exception of the scan is logged by the
    loop.  (When the last session goes, [disconnect] cancels the task
    that runs the loop; what is left of the cycle then finds no
    session to act on.) *)
Definition heartbeat_cycle (cfg : Settings) (sent_at scanned_at : Z)
  (w : world) : world :=
  let sids := (map_to_list (active_connections (manager w))).*1 in
  let w1 := send_heartbeats sids sent_at w in
  snd (_cleanup_stale_connections cfg scanned_at w1).

(** [_heartbeat_loop]: cycles as long as there are connections;
    [times] gives the two clock readings of each cycle. *)
Fixpoint _heartbeat_loop (cfg : Settings) (times : list (Z * Z)) (w : world)
  : world :=
  match times with
  | [] => w
  | (sent_at, scanned_at) :: rest =>
      if bool_decide (size (active_connections (manager w)) = 0%nat)
      then w
      else _heartbeat_loop cfg rest (heartbeat_cycle cfg sent_at scanned_at w)
  end.

(** The state [__init__] creates. *)
Definition empty_manager : ConnectionManager :=
  {| active_connections := ∅; connection_info := ∅;
     processing_connections := ∅; _heartbeat_task := None |}.

(** Well-formed registries: the two dictionaries have the same keys,
    and every connection refers to an object in the store. *)
Definition well_formed (w : world) : Prop :=
  dom (active_connections (manager w)) = dom (connection_info (manager w))
  /\ (forall sid r, active_connections (manager w) !! sid = Some r ->
        is_Some (socks w !! r)).

(** The session is live. *)
Definition live (sid : string) (w : world) : Prop :=
  is_Some (active_connections (manager w) !! sid).

(** The idle time of a session at clock reading [now]. *)
Definition idle_time (sid : string) (now : Z) (w : world) : option Z :=
  (fun i => now - last_activity i) <$> connection_info (manager w) !! sid.

(** The session is live on socket [r], which is its own, which accepts
    every write, and the session has its entry in [connection_info]. *)
Definition reachable_session (sid : string) (r : ref) (w : world) : Prop :=
  active_connections (manager w) !! sid = Some r
  /\ is_Some (connection_info (manager w) !! sid)
  /\ (exists sock, socks w !! r = Some sock /\ writable sock = true)
  /\ (forall other, active_connections (manager w) !! other = Some r ->
        other = sid).

(** Between [w] and [w'] nothing has happened to the session [sid] on
    socket [r], and no other session has come to use that socket. *)
Definition untouched (sid : string) (r : ref) (w w' : world) : Prop :=
  active_connections (manager w') !! sid = active_connections (manager w) !! sid
  /\ connection_info (manager w') !! sid = connection_info (manager w) !! sid
  /\ socks w' !! r = socks w !! r
  /\ (forall other, active_connections (manager w') !! other = Some r ->
        active_connections (manager w) !! other = Some r).


(** [get_connection_info]: [None] stands for the empty dictionary. *)
Definition get_connection_info (sid : string) (w : world) : option info :=
  connection_info (manager w) !! sid.

(** The heartbeat task and the live sessions agree: the registry
    holds a task, which is scheduled, exactly while a session is
    live. *)
Definition heartbeat_consistent (w : world) : Prop :=
  match _heartbeat_task (manager w) with
  | Some t => tasks w !! t = Some Scheduled /\ 0 < live_count w
  | None => live_count w = 0
  end.

End Registry.

(** ** [main.py] *)

Module Main.
Import Registry.

(** The two global objects [connection_manager] and [agent_service],
    with the objects they refer to. *)
Record system : Type := {
  registry : world;
  service : Agent.PCBuildAgentService
}.

Definition with_registry (w : world) (sys : system) : system :=
  {| registry := w; service := service sys |}.

(** The clock readings taken while one query is served. *)
Record readings : Type := {
  at_handler : Z;      (* the handler is created *)
  at_start : Z;        (* [process_query] starts *)
  at_end : Z;          (* [process_query] computes the processing time *)
  at_report : Z        (* an error message is sent *)
}.

(** [type(e).__name__] *)
Definition class_name (e : exn) : string :=
  match exn_cls e with
  | PCBuildAssistantError => "PCBuildAssistantError"
  | SearchError => "SearchError"
  | AgentError => "AgentError"
  | ConnectionError => "ConnectionError"
  | RateLimitError => "RateLimitError"
  | TimeoutError => "TimeoutError"
  | ValidationError => "ValidationError"
  | OutputParserException => "OutputParserException"
  | AsyncioTimeoutError => "TimeoutError"
  | WebSocketDisconnect => "WebSocketDisconnect"
  | PydanticValidationError => "ValidationError"
  | JSONDecodeError => "JSONDecodeError"
  | RetryError => "RetryError"
  | RuntimeError => "RuntimeError"
  | OtherException name => name
  end.

(** [_format_error_message] *)
Definition _format_error_message (error : exn) : string :=
  if isinstance error [ValidationError]
  then "Input validation error: " ++ str error
  else if isinstance error [TimeoutError]
  then "Request timed out. Please try again with a more specific query."
  else if isinstance error [AgentError]
  then "I encountered an issue processing your request. Please try rephrasing your question."
  else if isinstance error [ConnectionError]
  then "Connection issue occurred. Please refresh and try again."
  else "An unexpected error occurred. Please try again.".

(** [process_user_query] *)
Definition process_user_query (cfg : Settings) (eng : Agent.engine)
  (sid : string) (user_query : UserQuery) (ws : ref) (t : readings)
  (sys : system) : result unit * system :=
  let callback_handler := Callback.new ws (Some sid) (at_handler t) in
  let '(r, (_, a, ss)) :=
    Agent.process_query cfg eng user_query sid (at_start t) (at_end t)
      callback_handler (service sys) (socks (registry sys)) in
  (match r with Ok _ => Ok tt | Raise e => Raise e end,
   {| registry := with_socks ss (registry sys); service := a |}).

(** The flag is raised: the state in which [process_user_query] is
    entered. *)
Definition marked (sid : string) (sys : system) : system :=
  with_registry (set_processing sid true (registry sys)) sys.

(** The [try] ... [except Exception] around [process_user_query]: an
    error is reported to the client, which may itself fail. *)
Definition report (sid : string) (t : readings) (ran : result unit * system)
  : result unit * system :=
  match ran with
  | (Ok _, sys) => (Ok tt, sys)
  | (Raise e, sys) =>
      let '(r, w) := send_error sid (_format_error_message e) (class_name e)
                       (at_report t) (registry sys) in
      (r, with_registry w sys)
  end.

(** The [finally] clause. *)
Definition unmark (sid : string) (reported : result unit * system)
  : result unit * system :=
  let '(r, sys) := reported in
  (r, with_registry (set_processing sid false (registry sys)) sys).

(** Lines 166 to 197 of the message loop: a decoded query is served.
    [Ok] stands for going on with the loop, [Raise] for an exception
    that leaves the inner [try]. *)
Definition serve (cfg : Settings) (eng : Agent.engine) (sid : string)
  (user_query : UserQuery) (ws : ref) (t : readings) (sys : system)
  : result unit * system :=
  if is_processing sid (registry sys)
  then
    let '(r, w) :=
      send_error sid "Already processing a request. Please wait for completion."
        "rate_limit_error" (at_report t) (registry sys) in
    (r, with_registry w sys)
  else
    unmark sid
      (report sid t
         (process_user_query cfg eng sid user_query ws t (marked sid sys))).

(** What [websocket.receive_text()] and the decoding of the frame
    yield. *)
Inductive inbound : Type :=
  | Received (decoded : result UserQuery)
  | ReceiveFails (e : exn).

Inductive control : Type := Continue | Break.

(** The three [except] clauses of the message loop. *)
Definition on_failure (sid : string) (t : readings) (e : exn) (sys : system)
  : control * system :=
  if isinstance e [WebSocketDisconnect] then (Break, sys)
  else if isinstance e [ConnectionError] then (Break, sys)
  else
    let '(_, w) :=
      send_error sid "An unexpected error occurred. Please try again."
        "internal_error" (at_report t) (registry sys) in
    (Break, with_registry w sys).

Definition continue_or_fail (sid : string) (t : readings)
  (r : result unit * system) : control * system :=
  match r with
  | (Ok _, sys) => (Continue, sys)
  | (Raise e, sys) => on_failure sid t e sys
  end.

(** One turn of the message loop. *)
Definition turn (cfg : Settings) (eng : Agent.engine) (sid : string) (ws : ref)
  (msg : inbound * readings) (sys : system) : control * system :=
  let '(inb, t) := msg in
  match inb with
  | ReceiveFails e => on_failure sid t e sys
  | Received (Raise e) =>
      if isinstance e [JSONDecodeError; PydanticValidationError]
      then
        let '(r, w) :=
          send_error sid ("Invalid message format: " ++ str e)
            "validation_error" (at_report t) (registry sys) in
        continue_or_fail sid t (r, with_registry w sys)
      else on_failure sid t e sys
  | Received (Ok user_query) =>
      continue_or_fail sid t (serve cfg eng sid user_query ws t sys)
  end.

(** The message loop over the frames the client sends; it ends at the
    first [Break], or when the frames are used up. *)
Fixpoint message_loop (cfg : Settings) (eng : Agent.engine) (sid : string)
  (ws : ref) (msgs : list (inbound * readings)) (sys : system) : system :=
  match msgs with
  | [] => sys
  | msg :: rest =>
      match turn cfg eng sid ws msg sys with
      | (Continue, sys1) => message_loop cfg eng sid ws rest sys1
      | (Break, sys1) => sys1
      end
  end.

(** [websocket_endpoint]: the connection is admitted, the loop runs,
    and the [finally] clause disconnects the session. *)
Definition websocket_endpoint (cfg : Settings) (eng : Agent.engine) (ws : ref)
  (new_id : string) (now : Z) (msgs : list (inbound * readings))
  (sys : system) : system :=
  match connect cfg ws new_id now (registry sys) with
  | (Raise _, w) => with_registry w sys
  | (Ok sid, w) =>
      let sys1 := message_loop cfg eng sid ws msgs (with_registry w sys) in
      with_registry (snd (disconnect sid (registry sys1))) sys1
  end.

(** The flag of the session, as the dispatch loop reads it. *)
Definition flag (sid : string) (sys : system) : bool :=
  is_processing sid (registry sys).

End Main.

(** ** Concrete inputs used to exercise the model *)

Module Sample.
Import Callback Agent Registry Main.

Definition ask (text : string) : UserQuery :=
  {| query := text; uq_session_id := None |}.

(** An open socket whose peer is present, and one whose peer is gone. *)
Definition open_socket : WebSocket :=
  {| application_state := CONNECTED; peer_takes := None; offered := [];
     sent := []; close_code := None; client := Some "10.0.0.7" |}.

Definition dead_socket : WebSocket :=
  {| application_state := CONNECTED; peer_takes := Some 0%nat; offered := [];
     sent := []; close_code := None; client := Some "10.0.0.7" |}.

(** A socket on which the handshake is still to be done, and one
    whose peer goes away right after the handshake. *)
Definition new_socket : WebSocket :=
  {| application_state := CONNECTING; peer_takes := None; offered := [];
     sent := []; close_code := None; client := Some "10.0.0.8" |}.


Definition one_socket (ws : WebSocket) : sockets := {[ 1%positive := ws ]}.

Definition fresh_service : PCBuildAgentService :=
  {| search_tool := Search.init default_settings ∅ 0;
     _memory_cache := ∅;
     engine_calls := [] |}.

Definition handler1 : WebSocketCallbackHandler :=
  Callback.new 1%positive (Some "s1") 0.

(** A provider that is down, one that answers, one that hangs. *)
Definition provider_down (_ : Z) : Search.provider_call :=
  {| Search.answer := Search.Fails (Exn (OtherException "ConnectError") "down");
     Search.took := 500000 |}.

Definition provider_up (_ : Z) : Search.provider_call :=
  {| Search.answer :=
       Search.Records
         [ {[ "title" := "RTX 4060"; "href" := "https://example.org" ]} ];
     Search.took := 200000 |}.

Definition provider_hangs (_ : Z) : Search.provider_call :=
  {| Search.answer := Search.Records []; Search.took := 31000000 |}.

(** The engine of the scenario of the specification: it raises start,
    tool-start, tool-end and finish, searches once, and answers. *)
Definition answering_run : engine_run :=
  {| events := [ (LLMStart, 10); (ToolStart (Some "PC_Parts_Search") "gpu", 20);
                 (ToolEnd "found", 30); (AgentFinish (Some "Buy it."), 40) ];
     searches := [ provider_up ];
     remembered := [ ("human", "$800 gaming build"); ("ai", "Buy it.") ];
     outcome := Returns {[ "output" := VStr "Buy it." ]} |}.

Definition answering_engine : engine :=
  {| llm_error := None; init_error := None; run := fun _ => answering_run |}.

(** Engines whose invocation fails in the three other ways. *)
Definition failing_engine (e : exn) : engine :=
  {| llm_error := None; init_error := None;
     run := fun _ => {| events := [ (LLMStart, 10) ]; searches := [];
                        remembered := []; outcome := Raises e |} |}.

Definition hanging_engine : engine :=
  {| llm_error := None; init_error := None;
     run := fun _ => {| events := [ (LLMStart, 10) ]; searches := [];
                        remembered := []; outcome := Overruns |} |}.

Definition parse_failure : exn :=
  Exn OutputParserException "Could not parse LLM output".
Definition quota_failure : exn :=
  Exn (OtherException "ResourceExhausted") "quota".

(** A registry with the single session ["s1"] on socket 1, last active
    at clock reading [last]. *)
Definition one_session (ws : WebSocket) (last : Z) : world :=
  {| manager := {| active_connections := {[ "s1" := 1%positive ]};
                   connection_info :=
                     {[ "s1" := {| connected_at := 0; last_activity := last;
                                   message_count := 1;
                                   client_info := Some "10.0.0.7" |} ]};
                   processing_connections := ∅;
                   _heartbeat_task := Some 1%positive |};
     socks := one_socket ws;
     tasks := {[ 1%positive := Scheduled ]} |}.

(** An empty registry with a socket waiting for its handshake. *)
Definition empty_world (ws : WebSocket) : world :=
  {| manager := empty_manager; socks := one_socket ws; tasks := ∅ |}.

Definition system1 : system :=
  {| registry := one_session open_socket 0; service := fresh_service |}.

Definition readings1 : readings :=
  {| at_handler := 1; at_start := 2; at_end := 50; at_report := 60 |}.

Definition seconds (n : Z) : Z := n * 1000000.

(** [n] heartbeat cycles, 30 seconds apart, the first 1000 seconds
    after clock reading 0; in each the scan follows the heartbeats at
    once. *)
Definition schedule (n : nat) : list (Z * Z) :=
  map (fun k => (seconds (1000 + 30 * Z.of_nat k),
                 seconds (1000 + 30 * Z.of_nat k)))
    (seq 0 n).

(** [n] heartbeat cycles as the loop runs them after a connection at
    clock reading 0: one every 30 seconds, the scan following the
    heartbeats at once. *)
Definition beats (n : nat) : list (Z * Z) :=
  map (fun k => (seconds (30 * (Z.of_nat k + 1)),
                 seconds (30 * (Z.of_nat k + 1))))
    (seq 0 n).

(** The registry after a first client has connected at clock reading
    0 over a socket whose peer stays. *)
Definition just_connected : world :=
  snd (connect default_settings 1%positive "s1" 0 (empty_world new_socket)).

Definition info1 : info :=
  {| connected_at := 0; last_activity := 0; message_count := 1;
     client_info := Some "10.0.0.7" |}.

(** A connected socket whose peer goes away after [k] more frames. *)
Definition budget_socket (k : nat) : WebSocket :=
  {| application_state := CONNECTED; peer_takes := Some k; offered := [];
     sent := []; close_code := None; client := Some "10.0.0.7" |}.

(** The two global objects before any connection, with a socket
    waiting for its handshake. *)
Definition system0 : system :=
  {| registry := empty_world new_socket; service := fresh_service |}.

(** The registry of [one_session] when a second client arrives: its
    socket, number 2, waits for the handshake. *)
Definition second_arrives (ws : WebSocket) (last : Z) : world :=
  {| manager := manager (one_session ws last);
     socks := <[ 2%positive := new_socket ]> (one_socket ws);
     tasks := tasks (one_session ws last) |}.

(** A run in which the language model ends twice, once with a
    response that has no [llm_output]. *)
Definition run_without_usage : list (event * Z) :=
  [ (LLMStart, 10); (LLMEnd None, 15); (LLMStart, 20);
    (LLMEnd (Some None), 25); (AgentFinish (Some "Buy it."), 40) ].

(** A frame that is not JSON. *)
Definition not_json : exn := Exn JSONDecodeError "Expecting value".

(** A service that remembers 101 sessions, and the keys of its cache
    in the order of insertion. *)
Definition many_keys : list string :=
  map (fun n => String (ascii_of_nat n) EmptyString) (seq 33 101).

Definition crowded_service : PCBuildAgentService :=
  {| search_tool := Search.init default_settings ∅ 0;
     _memory_cache := list_to_map (map (fun k => (k, [])) many_keys);
     engine_calls := [] |}.

End Sample.

(** * Properties *)

(** ** Validation and classification of failures ([agent_service.py]) *)

Section TextFacts.
Import Text.

Lemma length_append_string (s t : string) :
  String.length (s ++ t) = (String.length s + String.length t)%nat.
Proof. induction s as [|c s IH]; simpl; [reflexivity | now rewrite IH]. Qed.

Lemma length_rev (s : string) : String.length (rev s) = String.length s.
Proof.
  induction s as [|c s IH]; simpl; [reflexivity |].
  rewrite length_append_string, IH. simpl. lia.
Qed.

Lemma length_lstrip (s : string) :
  (String.length (lstrip s) <= String.length s)%nat.
Proof.
  induction s as [|c s IH]; simpl; [lia |].
  destruct (isspace c); simpl; lia.
Qed.

(** Stripping never makes a text longer. *)
Lemma len_strip_le (s : string) : len (strip s) <= len s.
Proof.
  unfold len, strip, rstrip. apply inj_le.
  rewrite length_rev.
  etransitivity; [apply length_lstrip |].
  rewrite length_rev. apply length_lstrip.
Qed.

Lemma startswith_lower (t s : string) :
  startswith t s = true -> startswith (lower t) (lower s) = true.
Proof.
  revert s. induction t as [|a t IH]; intros [|b s]; simpl; try easy.
  intros H. apply andb_prop in H as [Hab Hts].
  apply Ascii.eqb_eq in Hab. subst b.
  rewrite Ascii.eqb_refl. simpl. now apply IH.
Qed.

(** Lower-casing keeps every occurrence of a substring in place. *)
Lemma contains_lower (t s : string) :
  contains t s = true -> contains (lower t) (lower s) = true.
Proof.
  induction s as [|b s IH]; simpl; intros H.
  - apply orb_prop in H as [H|H]; [| discriminate].
    destruct t; [reflexivity | discriminate].
  - apply orb_prop in H as [H|H].
    + apply (startswith_lower t (String b s)) in H. simpl in H.
      rewrite H. reflexivity.
    + rewrite (IH H). apply orb_true_r.
Qed.

End TextFacts.

Section AgentFacts.
Import Agent Callback.

Variable cfg : Settings.
Variable eng : engine.

(** The terms of the denylist are lower-case. *)
Lemma forbidden_terms_lower (term : string) :
  In term forbidden_terms -> Text.lower term = term.
Proof.
  unfold forbidden_terms. simpl.
  intros [<-|[<-|[<-|[<-|[]]]]]; reflexivity.
Qed.

Lemma existsb_forbidden (text : string) (term : string) :
  In term forbidden_terms -> Text.contains term text = true ->
  existsb (fun term => Text.contains term text) forbidden_terms = true.
Proof. intros Hin Hc. apply existsb_exists. eauto. Qed.

(** What [_validate_query] rejects. *)
Lemma validate_rejects (q : UserQuery) :
  Text.len (Text.strip (query q)) < 3
  \/ 1000 < Text.len (query q)
  \/ (exists term, In term forbidden_terms
                   /\ Text.contains term (Text.lower (query q)) = true) ->
  exists msg, _validate_query q = Raise (Exn ValidationError msg).
Proof.
  intros H. unfold _validate_query.
  destruct (String.eqb (query q) "" || (Text.len (Text.strip (query q)) <? 3))
    eqn:E1; [eauto |].
  apply orb_false_elim in E1 as [_ E1]. apply Z.ltb_ge in E1.
  destruct (1000 <? Text.len (query q)) eqn:E2; [eauto |].
  apply Z.ltb_ge in E2.
  destruct H as [H|[H|(term & Hin & Hc)]]; [lia | lia |].
  rewrite (existsb_forbidden _ term Hin Hc). eauto.
Qed.

(** A query that fails validation leaves [process_query] with that
    error, before anything else has happened. *)
Lemma process_query_validation (q : UserQuery) (sid : string)
  (started finished : Z) (h : WebSocketCallbackHandler)
  (a : PCBuildAgentService) (ss : sockets) (msg : string) :
  _validate_query q = Raise (Exn ValidationError msg) ->
  process_query cfg eng q sid started finished h a ss
  = (Raise (Exn ValidationError msg), (h, a, ss)).
Proof.
  intros Hv. unfold process_query, process_query_try. rewrite Hv. reflexivity.
Qed.

Lemma process_user_query_validation (q : UserQuery) (sid : string)
  (ws : ref) (t : Main.readings) (sys : Main.system) (msg : string) :
  _validate_query q = Raise (Exn ValidationError msg) ->
  Main.process_user_query cfg eng sid q ws t sys
  = (Raise (Exn ValidationError msg), sys).
Proof.
  intros Hv. unfold Main.process_user_query.
  rewrite (process_query_validation _ _ _ _ _ _ _ _ Hv).
  destruct sys as [[m ss tk] a]. reflexivity.
Qed.

(** C2.  A query whose stripped text is shorter than 3 characters, or
    whose text (stripped or not) is longer than 1000 characters, or
    whose text contains a term of the denylist (as it stands or after
    lower-casing) makes [process_query] raise [ValidationError] with
    the handler, the service and the sockets as they were: no engine
    has been created or invoked, no search counter has moved, no frame
    has been sent.  At the level of [process_user_query] the whole
    system is as it was, so the set of processing sessions is not
    touched either. *)
Theorem process_query_rejects_invalid_query (q : UserQuery) (sid : string)
  (started finished : Z) (h : WebSocketCallbackHandler)
  (a : PCBuildAgentService) (ss : sockets) :
  Text.len (Text.strip (query q)) < 3
  \/ 1000 < Text.len (query q)
  \/ 1000 < Text.len (Text.strip (query q))
  \/ (exists term, In term forbidden_terms
        /\ (Text.contains term (query q) = true
            \/ Text.contains term (Text.lower (query q)) = true)) ->
  exists msg,
    process_query cfg eng q sid started finished h a ss
    = (Raise (Exn ValidationError msg), (h, a, ss))
    /\ forall ws t sys,
         Main.process_user_query cfg eng sid q ws t sys
         = (Raise (Exn ValidationError msg), sys).
Proof.
  intros H.
  assert (Hv : exists msg, _validate_query q = Raise (Exn ValidationError msg)).
  { apply validate_rejects.
    destruct H as [H|[H|[H|(term & Hin & [Hc|Hc])]]].
    - now left.
    - right; now left.
    - right; left. pose proof (len_strip_le (query q)). lia.
    - right; right. exists term. split; [assumption |].
      rewrite <- (forbidden_terms_lower term Hin).
      now apply contains_lower.
    - right; right. eauto. }
  destruct Hv as [msg Hv]. exists msg. split.
  - now apply process_query_validation.
  - intros ws t sys. now apply process_user_query_validation.
Qed.

(** C10.  The content screen is a substring test on the lower-cased
    text: whenever a term of the denylist occurs anywhere in it,
    [process_query] raises [ValidationError] and the list of calls made
    to the engine is as before.  The texts "hackintosh" and
    "firecracker", and an upper-case "HACK", are rejected. *)
Theorem content_screen_is_substring_test (q : UserQuery) (sid : string)
  (started finished : Z) (h : WebSocketCallbackHandler)
  (a : PCBuildAgentService) (ss : sockets) :
  (exists term, In term ["hack"; "crack"; "piracy"; "illegal"]
                /\ Text.contains term (Text.lower (query q)) = true) ->
  (exists msg,
     fst (process_query cfg eng q sid started finished h a ss)
     = Raise (Exn ValidationError msg))
  /\ engine_calls
       (snd (fst (snd (process_query cfg eng q sid started finished h a ss))))
     = engine_calls a
  /\ is_ok (_validate_query (Sample.ask "a hackintosh build")) = false
  /\ is_ok (_validate_query (Sample.ask "firecracker red case")) = false
  /\ is_ok (_validate_query (Sample.ask "HACK proof router")) = false.
Proof.
  intros H.
  destruct (validate_rejects q) as [msg Hv]; [right; right; exact H |].
  rewrite (process_query_validation _ _ _ _ _ _ _ _ Hv). simpl.
  repeat split; eauto.
Qed.


Lemma isinstance_classified (e : exn) :
  isinstance e [ValidationError; AgentError; TimeoutError] = true ->
  classified e = true.
Proof.
  destruct e as [c msg]. unfold isinstance, classified. simpl.
  destruct c; simpl; intros H; try reflexivity; discriminate.
Qed.

(** Every error [process_query] raises is one of the three classes. *)
Lemma process_query_raises_classified (q : UserQuery) (sid : string)
  (started finished : Z) (h : WebSocketCallbackHandler)
  (a : PCBuildAgentService) (ss : sockets) (e : exn) (st : state) :
  process_query cfg eng q sid started finished h a ss = (Raise e, st) ->
  classified e = true.
Proof.
  unfold process_query.
  destruct (process_query_try cfg eng q sid started finished h a ss)
    as [[response|e0] st0]; [discriminate |].
  destruct (isinstance e0 [ValidationError; AgentError; TimeoutError]) eqn:Hi;
    intros [= <- _]; [now apply isinstance_classified | reflexivity].
Qed.

(** C7.  When the invocation of the engine raises [e]:
    if [e] is an [OutputParserException], [process_query] returns a
    response whose output is the fixed apology; otherwise it raises the
    [AgentError] that wraps [e].  And whatever happens, an error that
    [process_query] raises is a [ValidationError], a [TimeoutError] or
    an [AgentError]. *)
Theorem engine_failures_are_classified (q : UserQuery) (sid : string)
  (started finished : Z) (h : WebSocketCallbackHandler)
  (a : PCBuildAgentService) (ss : sockets) :
  (forall e,
     _validate_query q = Ok tt ->
     llm_error eng = None -> init_error eng = None ->
     outcome (run eng (query q)) = Raises e ->
     if isinstance e [OutputParserException]
     then exists response,
            fst (process_query cfg eng q sid started finished h a ss)
            = Ok response
            /\ output response = apology
     else fst (process_query cfg eng q sid started finished h a ss)
          = Raise (Exn AgentError ("Agent execution failed: " ++ str e)))
  /\ (forall e,
        fst (process_query cfg eng q sid started finished h a ss) = Raise e ->
        exn_cls e = ValidationError \/ exn_cls e = TimeoutError
        \/ exn_cls e = AgentError).
Proof.
  split.
  - intros e Hv Hl Hi Ho.
    unfold process_query, process_query_try, _create_agent.
    rewrite Hv, Hl, Hi.
    destruct (engine_at_work cfg (run eng (query q)) sid (query q) h
                (record_call (Created sid) (_get_or_create_memory sid a)) ss)
      as [[h2 a2] ss2].
    rewrite Ho. unfold await_engine, _execute_agent.
    destruct (isinstance e [OutputParserException]) eqn:He.
    + destruct (Search.get_stats (search_tool a2)) as [l s3].
      rewrite lookup_singleton_eq. simpl. eexists. split; reflexivity.
    + reflexivity.
  - intros e He.
    destruct (process_query cfg eng q sid started finished h a ss)
      as [r st] eqn:Hp.
    simpl in He. subst r.
    apply process_query_raises_classified in Hp.
    unfold classified in Hp.
    destruct (exn_cls e); try discriminate; tauto.
Qed.

End AgentFacts.

(** C2, at a query of two characters. *)
Lemma process_query_rejects_invalid_query_witness :
  Text.len (Text.strip (query (Sample.ask "hi"))) < 3
  /\ exists msg,
       Agent.process_query default_settings Sample.answering_engine
         (Sample.ask "hi") "s1" 2 50 Sample.handler1
         Sample.fresh_service (Sample.one_socket Sample.open_socket)
       = (Raise (Exn ValidationError msg),
          (Sample.handler1, Sample.fresh_service,
           Sample.one_socket Sample.open_socket))
       /\ forall ws t sys,
            Main.process_user_query default_settings Sample.answering_engine
              "s1" (Sample.ask "hi") ws t sys
            = (Raise (Exn ValidationError msg), sys).
Proof.
  split; [vm_compute; reflexivity |].
  apply (process_query_rejects_invalid_query default_settings
           Sample.answering_engine (Sample.ask "hi")).
  left. vm_compute. reflexivity.
Defined.

(** C10, at a query that mentions a crack in a side panel. *)
Lemma content_screen_is_substring_test_witness :
  Text.contains "crack"
    (Text.lower (query (Sample.ask "My side panel has a Crack"))) = true
  /\ (exists msg,
        fst (Agent.process_query default_settings Sample.answering_engine
               (Sample.ask "My side panel has a Crack") "s1" 2 50
               Sample.handler1 Sample.fresh_service
               (Sample.one_socket Sample.open_socket))
        = Raise (Exn ValidationError msg))
  /\ Agent.engine_calls
       (snd (fst (snd (Agent.process_query default_settings
                         Sample.answering_engine
                         (Sample.ask "My side panel has a Crack") "s1" 2 50
                         Sample.handler1 Sample.fresh_service
                         (Sample.one_socket Sample.open_socket)))))
     = Agent.engine_calls Sample.fresh_service
  /\ is_ok (Agent._validate_query (Sample.ask "a hackintosh build")) = false
  /\ is_ok (Agent._validate_query (Sample.ask "firecracker red case")) = false
  /\ is_ok (Agent._validate_query (Sample.ask "HACK proof router")) = false.
Proof.
  split; [vm_compute; reflexivity |].
  apply (content_screen_is_substring_test default_settings
           Sample.answering_engine (Sample.ask "My side panel has a Crack")).
  exists "crack". split; [simpl; tauto | vm_compute; reflexivity].
Defined.

(** C7, at an engine whose output cannot be parsed. *)
Lemma engine_failures_are_classified_witness :
  Agent._validate_query (Sample.ask "$800 gaming build") = Ok tt
  /\ Agent.outcome
       (Agent.run (Sample.failing_engine Sample.parse_failure)
          (query (Sample.ask "$800 gaming build")))
     = Agent.Raises Sample.parse_failure
  /\ exists response,
       fst (Agent.process_query default_settings
              (Sample.failing_engine Sample.parse_failure)
              (Sample.ask "$800 gaming build") "s1" 2 50 Sample.handler1
              Sample.fresh_service (Sample.one_socket Sample.open_socket))
       = Ok response
       /\ output response = Agent.apology.
Proof.
  split; [reflexivity |]. split; [reflexivity |].
  exact (proj1 (engine_failures_are_classified default_settings
                  (Sample.failing_engine Sample.parse_failure)
                  (Sample.ask "$800 gaming build") "s1" 2 50 Sample.handler1
                  Sample.fresh_service (Sample.one_socket Sample.open_socket))
           Sample.parse_failure eq_refl eq_refl eq_refl eq_refl).
Defined.

(** ** The search tool: counters and retries ([search_tool.py]) *)

Section SearchFacts.
Import Search.

Variable cfg : Settings.

Lemma allocated_init (h : heap) (now : Z) : allocated (init cfg h now).
Proof. unfold allocated, init. simpl. rewrite lookup_insert_eq. eauto. Qed.


Lemma stats_update (f : Stats -> Stats) (s : state) :
  allocated s -> stats (update_stats f s) = f (stats s).
Proof.
  intros [st Hst]. unfold stats, update_stats. simpl.
  rewrite lookup_alter_eq, Hst. reflexivity.
Qed.

Lemma allocated_update (f : Stats -> Stats) (s : state) :
  allocated s -> allocated (update_stats f s).
Proof.
  intros [st Hst]. unfold allocated, update_stats. simpl.
  rewrite lookup_alter_eq, Hst. simpl. eauto.
Qed.

(** One attempt adds one to [total_searches] and one to exactly one of
    the two other counters, according to its result. *)
Lemma search_attempt_counts (p : provider_call) (s : state) :
  allocated s ->
  allocated (snd (search_attempt cfg p s))
  /\ stats (snd (search_attempt cfg p s))
     = (if is_ok (fst (search_attempt cfg p s))
        then incr_successful else incr_failed) (incr_total (stats s)).
Proof.
  intros Ha. unfold search_attempt.
  assert (Ha1 : allocated (snd (wait_if_needed s))) by exact Ha.
  assert (Hs1 : stats (snd (wait_if_needed s)) = stats s) by reflexivity.
  destruct (wait_if_needed s) as [w s1]. simpl in Ha1, Hs1.
  pose proof (allocated_update incr_total s1 Ha1) as Ha2.
  pose proof (stats_update incr_total s1 Ha1) as Hs2.
  set (s2 := update_stats incr_total s1) in *.
  assert (Hw : forall r : result (list SearchResult),
             allocated (snd (wait_for r (took p) (search_timeout cfg) s2))
             /\ stats (snd (wait_for r (took p) (search_timeout cfg) s2))
                = stats s2).
  { intros r. unfold wait_for.
    destruct (took p <=? timedelta_seconds (search_timeout cfg)); split;
      (exact Ha2 || reflexivity). }
  specialize (Hw (_perform_search (answer p))).
  destruct (wait_for (_perform_search (answer p)) (took p)
              (search_timeout cfg) s2) as [r s3].
  simpl in Hw. destruct Hw as [Ha3 Hs3].
  destruct r as [results|e]; cbn [fst snd is_ok].
  - split; [now apply allocated_update |].
    rewrite stats_update by assumption. now rewrite Hs3, Hs2, Hs1.
  - destruct (isinstance e [AsyncioTimeoutError]); cbn [fst snd is_ok];
      (split; [now apply allocated_update |];
       rewrite stats_update by assumption; now rewrite Hs3, Hs2, Hs1).
Qed.

Lemma stats_sleep (d : Z) (s : state) : stats (sleep d s) = stats s.
Proof. reflexivity. Qed.

Lemma incr_consistent (ok : bool) (st : Stats) :
  stats_consistent st ->
  stats_consistent ((if ok then incr_successful else incr_failed) (incr_total st))
  /\ stats_le st ((if ok then incr_successful else incr_failed) (incr_total st)).
Proof.
  unfold stats_consistent, stats_le.
  destruct ok; simpl; intros (H1 & H2 & H3 & H4); repeat split; lia.
Qed.

Lemma stats_le_trans (a b c : Stats) :
  stats_le a b -> stats_le b c -> stats_le a c.
Proof. unfold stats_le. intros (?&?&?) (?&?&?). repeat split; lia. Qed.

(** The retry loop keeps the invariant, never lowers a counter, and
    counts every attempt. *)
Lemma retrying_counts (fuel : nat) (provider : Z -> provider_call) :
  forall (n : Z) (s : state),
    allocated s -> stats_consistent (stats s) ->
    let s' := snd (fst (retrying fuel cfg provider n s)) in
    let steps := snd (retrying fuel cfg provider n s) in
    allocated s' /\ stats_consistent (stats s') /\ stats_le (stats s) (stats s')
    /\ total_searches (stats s')
       = total_searches (stats s) + Z.of_nat (length (attempts steps)).
Proof.
  induction fuel as [|fuel IH]; intros n s Ha Hc; cbn [retrying];
    destruct (search_attempt_counts (provider n) s Ha) as [Ha1 Hs1];
    destruct (search_attempt cfg (provider n) s) as [r s1];
    cbn [fst snd] in Ha1, Hs1;
    destruct (incr_consistent (is_ok r) (stats s) Hc) as [Hc1 Hle1];
    rewrite <- Hs1 in Hc1, Hle1;
    assert (Ht : total_searches (stats s1) = total_searches (stats s) + 1)
      by (rewrite Hs1; destruct (is_ok r); reflexivity);
    unfold attempts.
  - destruct r as [results|e];
      [| destruct (retry_if_exception_type [SearchError; RateLimitError] e);
         [destruct (stop_after_attempt max_attempts n) |]];
      cbn [fst snd flat_map app length];
      (split; [assumption | split; [assumption | split; [assumption | lia]]]).
  - destruct r as [results|e];
      [| destruct (retry_if_exception_type [SearchError; RateLimitError] e);
         [destruct (stop_after_attempt max_attempts n) |]];
      cbn [fst snd flat_map app length];
      try (split; [assumption | split; [assumption | split; [assumption | lia]]]).
    specialize (IH (n + 1)
                  (sleep (timedelta_seconds (wait_exponential 1 4 10 n)) s1)
                  Ha1 Hc1).
    destruct (retrying fuel cfg provider (n + 1)
                (sleep (timedelta_seconds (wait_exponential 1 4 10 n)) s1))
      as [[r' s3] steps].
    unfold attempts in IH.
    cbn [fst snd flat_map app length] in IH |- *.
    destruct IH as (Ha3 & Hc3 & Hle3 & Ht3).
    rewrite stats_sleep in Hle3, Ht3.
    split; [assumption | split; [assumption | split]].
    + eapply stats_le_trans; eauto.
    + lia.
Qed.

Lemma run_searches_counts (calls : list (Z -> provider_call)) :
  forall s : state,
    allocated s -> stats_consistent (stats s) ->
    allocated (Agent.run_searches cfg calls s)
    /\ stats_consistent (stats (Agent.run_searches cfg calls s))
    /\ stats_le (stats s) (stats (Agent.run_searches cfg calls s)).
Proof.
  unfold Agent.run_searches.
  induction calls as [|p calls IH]; intros s Ha Hc; cbn [fold_left].
  - split; [assumption | split; [assumption |]].
    unfold stats_le. lia.
  - destruct (retrying_counts (Z.to_nat max_attempts) p 1 s Ha Hc)
      as (Ha1 & Hc1 & Hle1 & _).
    destruct (IH _ Ha1 Hc1) as (Ha2 & Hc2 & Hle2).
    split; [assumption | split; [assumption |]].
    eapply stats_le_trans; eauto.
Qed.

(** A decorated call adds one successful search when it returns, none
    when it raises, and makes at most [max_attempts] attempts. *)
Lemma retrying_successful (fuel : nat) (provider : Z -> provider_call) :
  forall (n : Z) (s : state),
    allocated s ->
    let out := retrying fuel cfg provider n s in
    successful_searches (stats (snd (fst out)))
    = successful_searches (stats s)
      + (if is_ok (fst (fst out)) then 1 else 0)
    /\ 1 <= Z.of_nat (length (attempts (snd out)))
       <= Z.max 1 (max_attempts - n + 1).
Proof.
  induction fuel as [|fuel IH]; intros n s Ha; cbn zeta; cbn [retrying];
    destruct (search_attempt_counts (provider n) s Ha) as [Ha1 Hs1];
    destruct (search_attempt cfg (provider n) s) as [r s1];
    cbn [fst snd] in Ha1, Hs1.
  - destruct r as [results|e];
      [| destruct (retry_if_exception_type [SearchError; RateLimitError] e);
         [destruct (stop_after_attempt max_attempts n) |]];
      cbn [fst snd is_ok attempts flat_map app length] in *;
      rewrite Hs1; cbn; lia.
  - destruct r as [results|e];
      [| destruct (retry_if_exception_type [SearchError; RateLimitError] e);
         [destruct (stop_after_attempt max_attempts n) eqn:Hstop |]];
      try (cbn [fst snd is_ok attempts flat_map app length] in *;
           rewrite Hs1; cbn; lia).
    specialize (IH (n + 1)
                  (sleep (timedelta_seconds (wait_exponential 1 4 10 n)) s1)
                  Ha1).
    cbn zeta in IH. rewrite stats_sleep in IH.
    destruct (retrying fuel cfg provider (n + 1) _) as [[r' s3] steps].
    cbn [fst snd is_ok] in *. destruct IH as [I1 I2].
    split.
    + rewrite I1, Hs1. cbn. lia.
    + unfold attempts in *. cbn [flat_map app length].
      unfold stop_after_attempt in Hstop. apply Z.leb_gt in Hstop.
      unfold max_attempts in *. lia.
Qed.



(** *** Retries *)

(** Three attempts that all fail with a transient error. *)
Lemma retrying_always_transient (provider : Z -> provider_call) (s : state) :
  (forall n s0, exists e,
      fst (search_attempt cfg (provider n) s0) = Raise e
      /\ transient e = true) ->
  exists e,
    fst (fst (search_async cfg provider s)) = Raise (Exn RetryError (str e))
    /\ transient e = true
    /\ attempts (snd (search_async cfg provider s)) = [1; 2; 3]
    /\ backoffs (snd (search_async cfg provider s)) = [4; 4].
Proof.
  intros H. unfold search_async, transient in *.
  change (Z.to_nat max_attempts) with 3%nat.
  cbn [retrying].
  destruct (H 1 s) as (e1 & He1 & Ht1).
  destruct (search_attempt cfg (provider 1) s) as [r1 s1].
  cbn [fst] in He1. subst r1. rewrite Ht1.
  change (stop_after_attempt max_attempts 1) with false. cbn iota.
  set (s1' := sleep _ s1).
  destruct (H (1 + 1) s1') as (e2 & He2 & Ht2).
  destruct (search_attempt cfg (provider (1 + 1)) s1') as [r2 s2].
  cbn [fst] in He2. subst r2. rewrite Ht2.
  change (stop_after_attempt max_attempts (1 + 1)) with false. cbn iota.
  set (s2' := sleep _ s2).
  destruct (H (1 + 1 + 1) s2') as (e3 & He3 & Ht3).
  destruct (search_attempt cfg (provider (1 + 1 + 1)) s2') as [r3 s3].
  cbn [fst] in He3. subst r3. rewrite Ht3.
  change (stop_after_attempt max_attempts (1 + 1 + 1)) with true. cbn iota.
  exists e3. repeat split; assumption || reflexivity.
Qed.

(** One attempt that fails with an error that is not transient. *)
Lemma retrying_not_transient (provider : Z -> provider_call) (s : state)
  (e : exn) :
  fst (search_attempt cfg (provider 1) s) = Raise e ->
  transient e = false ->
  fst (fst (search_async cfg provider s)) = Raise e
  /\ attempts (snd (search_async cfg provider s)) = [1].
Proof.
  intros He Ht. unfold search_async, transient in *.
  change (Z.to_nat max_attempts) with 3%nat.
  cbn [retrying].
  destruct (search_attempt cfg (provider 1) s) as [r1 s1].
  cbn [fst] in He. subst r1. rewrite Ht. split; reflexivity.
Qed.

(** An attempt that runs into the timeout of the search fails with a
    [TimeoutError], which is not transient. *)
Lemma search_attempt_timeout (p : provider_call) (s : state) :
  timedelta_seconds (search_timeout cfg) < took p ->
  fst (search_attempt cfg p s)
  = Raise (Exn TimeoutError
             ("Search timed out after " ++ pretty (search_timeout cfg)
              ++ " seconds")).
Proof.
  intros Hlate. unfold search_attempt.
  destruct (wait_if_needed s) as [w s1]. unfold wait_for.
  apply Z.leb_gt in Hlate. rewrite Hlate. reflexivity.
Qed.

(** C5, as the code has it.  A call whose every attempt fails with a
    transient error ([SearchError] or [RateLimitError]) is attempted
    exactly three times and then fails with the [RetryError] of the
    last attempt; the retry policy waits 4 seconds after the first and
    4 seconds after the second attempt, so the waits do not decrease
    but they do not increase either.  A call whose first attempt fails
    with an error that is not transient is attempted exactly once and
    fails with that error; an attempt that exceeds the timeout of the
    search is such a failure, with a [TimeoutError]. *)
Theorem search_retry_policy (provider : Z -> provider_call) (s : state) :
  ((forall n s0, exists e,
       fst (search_attempt cfg (provider n) s0) = Raise e
       /\ transient e = true) ->
   exists e,
     fst (fst (search_async cfg provider s)) = Raise (Exn RetryError (str e))
     /\ attempts (snd (search_async cfg provider s)) = [1; 2; 3]
     /\ backoffs (snd (search_async cfg provider s)) = [4; 4])
  /\ (forall e,
        fst (search_attempt cfg (provider 1) s) = Raise e ->
        transient e = false ->
        fst (fst (search_async cfg provider s)) = Raise e
        /\ attempts (snd (search_async cfg provider s)) = [1])
  /\ (timedelta_seconds (search_timeout cfg) < took (provider 1) ->
      fst (fst (search_async cfg provider s))
      = Raise (Exn TimeoutError
                 ("Search timed out after " ++ pretty (search_timeout cfg)
                  ++ " seconds"))
      /\ attempts (snd (search_async cfg provider s)) = [1]).
Proof.
  split; [| split].
  - intros H. destruct (retrying_always_transient provider s H)
      as (e & Hr & _ & Ha & Hb).
    exists e. auto.
  - intros e He Ht. now apply retrying_not_transient.
  - intros Hlate. apply retrying_not_transient.
    + now apply search_attempt_timeout.
    + reflexivity.
Qed.

End SearchFacts.


(** The provider that is down fails every attempt with a transient
    error. *)
Lemma provider_down_transient (n : Z) (s0 : Search.state) :
  exists e,
    fst (Search.search_attempt default_settings (Sample.provider_down n) s0)
    = Raise e
    /\ Search.transient e = true.
Proof. eexists. split; reflexivity. Qed.

(** C5 as stated fails: with the provider down, the call is attempted
    three times, and the time between the end of an attempt and the
    start of the next is 4 seconds both times, which is not strictly
    increasing. *)
Lemma search_retry_delays_not_increasing :
  let steps :=
    snd (Search.search_async default_settings Sample.provider_down
           (Search.init default_settings ∅ 0)) in
  (forall n s0, exists e,
      fst (Search.search_attempt default_settings (Sample.provider_down n) s0)
      = Raise e
      /\ Search.transient e = true)
  /\ Search.attempts steps = [1; 2; 3]
  /\ Search.gaps steps = [Sample.seconds 4; Sample.seconds 4]
  /\ Search.backoffs steps = [4; 4]
  /\ Search.strictly_increasing (Search.gaps steps) <> true.
Proof.
  cbn zeta. split; [exact provider_down_transient |].
  vm_compute. repeat split. discriminate.
Qed.

(** C5 (as the code has it), at the provider that is down. *)
Lemma search_retry_policy_witness :
  (forall n s0, exists e,
      fst (Search.search_attempt default_settings (Sample.provider_down n) s0)
      = Raise e
      /\ Search.transient e = true)
  /\ exists e,
       fst (fst (Search.search_async default_settings Sample.provider_down
                   (Search.init default_settings ∅ 0)))
       = Raise (Exn RetryError (str e))
       /\ Search.attempts
            (snd (Search.search_async default_settings Sample.provider_down
                    (Search.init default_settings ∅ 0))) = [1; 2; 3]
       /\ Search.backoffs
            (snd (Search.search_async default_settings Sample.provider_down
                    (Search.init default_settings ∅ 0))) = [4; 4].
Proof.
  split; [exact provider_down_transient |].
  exact (proj1 (search_retry_policy default_settings Sample.provider_down
                  (Search.init default_settings ∅ 0))
           provider_down_transient).
Defined.

(** ** The streaming protocol ([callback_handler.py]) *)

Section CallbackFacts.
Import Callback.
Local Open Scope list_scope.





End CallbackFacts.


(** ** The connection registry ([connection_manager.py]) *)

Section RegistryFacts.
Import Registry.
Local Open Scope list_scope.

Variable cfg : Settings.

Lemma disconnect_absent (sid : string) (w : world) :
  active_connections (manager w) !! sid = None ->
  disconnect sid w = (Ok tt, w).
Proof. intros H. unfold disconnect. now rewrite H. Qed.

(** Whatever happens, [disconnect] leaves exactly the other sessions
    in the connection map. *)
Lemma disconnect_active (sid : string) (w : world) :
  active_connections (manager (snd (disconnect sid w)))
  = delete sid (active_connections (manager w)).
Proof.
  unfold disconnect.
  destruct (active_connections (manager w) !! sid) as [ws|] eqn:Ha.
  - destruct (connection_info (manager w) !! sid); [| reflexivity].
    destruct (_heartbeat_task (manager w)); [| reflexivity].
    destruct (bool_decide _); reflexivity.
  - cbn. symmetry. now apply delete_id.
Qed.

(** A call for a live session with its entry in [connection_info]. *)
Lemma disconnect_effective (sid : string) (w : world) (r : positive) (i : info) :
  active_connections (manager w) !! sid = Some r ->
  connection_info (manager w) !! sid = Some i ->
  let w' := snd (disconnect sid w) in
  fst (disconnect sid w) = Ok tt
  /\ connection_info (manager w') = delete sid (connection_info (manager w))
  /\ processing_connections (manager w')
     = processing_connections (manager w) ∖ {[ sid ]}
  /\ socks w' = snd (on_socket (close 1000) r (socks w))
  /\ match _heartbeat_task (manager w) with
     | Some t =>
         if bool_decide (size (delete sid (active_connections (manager w)))
                         = 0%nat)
         then _heartbeat_task (manager w') = None
              /\ tasks w' = <[t := Cancelled]> (tasks w)
         else _heartbeat_task (manager w') = Some t /\ tasks w' = tasks w
     | None => _heartbeat_task (manager w') = None /\ tasks w' = tasks w
     end.
Proof.
  intros Ha Hi. cbn zeta. unfold disconnect. rewrite Ha, Hi.
  destruct (_heartbeat_task (manager w)) as [t|]; [| now repeat split].
  destruct (bool_decide _); now repeat split.
Qed.

(** Closing leaves the socket in the state [DISCONNECTED], whether the
    call of [close] raises or not. *)
Lemma close_disconnects (r : positive) (ss : sockets) (ws : WebSocket) :
  ss !! r = Some ws ->
  exists ws', snd (on_socket (close 1000) r ss) !! r = Some ws'
              /\ application_state ws' = DISCONNECTED.
Proof.
  intros H. unfold on_socket. rewrite H. unfold close.
  destruct (application_state ws) eqn:Hst; [destruct (peer_gone ws) | destruct (peer_gone ws) |];
    cbn; rewrite lookup_insert_eq; eauto.
Qed.

(** C8.  [disconnect] is idempotent on every state of the registry: a
    second call for the same session returns at once and leaves the
    state the first call left.  A call for a live session returns
    normally even when closing the socket raises; it leaves the socket
    closed, removes the session from [active_connections] and from
    [connection_info], takes it out of [processing_connections], and
    cancels the heartbeat task exactly when no session is left. *)
Theorem disconnect_idempotent (sid : string) (w : world) :
  disconnect sid (snd (disconnect sid w)) = (Ok tt, snd (disconnect sid w))
  /\ (forall r i,
        active_connections (manager w) !! sid = Some r ->
        connection_info (manager w) !! sid = Some i ->
        let w' := snd (disconnect sid w) in
        fst (disconnect sid w) = Ok tt
        /\ active_connections (manager w')
           = delete sid (active_connections (manager w))
        /\ connection_info (manager w')
           = delete sid (connection_info (manager w))
        /\ processing_connections (manager w')
           = processing_connections (manager w) ∖ {[ sid ]}
        /\ is_processing sid w' = false
        /\ (forall ws, socks w !! r = Some ws ->
              exists ws', socks w' !! r = Some ws'
                          /\ application_state ws' = DISCONNECTED)
        /\ (forall t, _heartbeat_task (manager w) = Some t ->
              if bool_decide (live_count w' = 0)
              then _heartbeat_task (manager w') = None
                   /\ tasks w' !! t = Some Cancelled
              else _heartbeat_task (manager w') = Some t
                   /\ tasks w' = tasks w)).
Proof.
  split.
  - apply disconnect_absent. rewrite disconnect_active.
    apply lookup_delete_eq.
  - intros r i Ha Hi. cbn zeta.
    destruct (disconnect_effective sid w r i Ha Hi)
      as (Hok & Hinfo & Hproc & Hsocks & Hbeat).
    split; [assumption |].
    split; [apply disconnect_active |].
    split; [assumption |]. split; [assumption |].
    split.
    { unfold is_processing. rewrite Hproc.
      apply bool_decide_eq_false. intros Hin.
      apply elem_of_difference in Hin as [_ Hn].
      apply Hn. now apply elem_of_singleton. }
    split.
    { intros ws Hws. rewrite Hsocks. now apply (close_disconnects r _ ws). }
    intros t Ht. rewrite Ht in Hbeat.
    unfold live_count. rewrite disconnect_active.
    destruct (bool_decide
                (size (delete sid (active_connections (manager w))) = 0%nat))
      eqn:Hz.
    + apply bool_decide_eq_true in Hz. rewrite Hz. cbn.
      destruct Hbeat as [Hb Htk]. split; [assumption |].
      rewrite Htk. apply lookup_insert_eq.
    + apply bool_decide_eq_false in Hz.
      rewrite bool_decide_eq_false_2 by lia. assumption.
Qed.

(** *** Sending *)

(** A failing send ends in the state [disconnect] leaves, and raises. *)
Lemma send_to_connection_fails (sid : string) (msg : WebSocketMessage)
  (now : Z) (w : world) (r : positive) (sock : WebSocket) :
  active_connections (manager w) !! sid = Some r ->
  socks w !! r = Some sock ->
  is_ok (fst (send_text msg sock)) = false ->
  is_ok (fst (_send_to_connection sid msg now w)) = false
  /\ snd (_send_to_connection sid msg now w)
     = snd (disconnect sid
              (with_socks (<[r := snd (send_text msg sock)]> (socks w)) w)).
Proof.
  intros Ha Hs Hf. unfold _send_to_connection, on_socket. rewrite Ha, Hs.
  destruct (send_text msg sock) as [[u|e] sock1]; [discriminate |].
  destruct (disconnect sid _) as [[u|e'] w'].
  - destruct (isinstance e [WebSocketDisconnect]); split; reflexivity.
  - split; reflexivity.
Qed.

(** A send the socket takes updates [connection_info] and nothing else
    of the registry. *)
Lemma send_to_connection_ok (sid : string) (msg : WebSocketMessage)
  (now : Z) (w : world) (r : positive) (sock : WebSocket) :
  active_connections (manager w) !! sid = Some r ->
  socks w !! r = Some sock ->
  is_ok (fst (send_text msg sock)) = true ->
  _send_to_connection sid msg now w
  = (Ok tt,
     {| manager :=
          {| active_connections := active_connections (manager w);
             connection_info :=
               alter (touch now) sid (connection_info (manager w));
             processing_connections := processing_connections (manager w);
             _heartbeat_task := _heartbeat_task (manager w) |};
        socks := <[r := snd (send_text msg sock)]> (socks w);
        tasks := tasks w |}).
Proof.
  intros Ha Hs Hok. unfold _send_to_connection, on_socket. rewrite Ha, Hs.
  destruct (send_text msg sock) as [[[]|e] sock1]; [reflexivity | discriminate].
Qed.

(** *** Admission *)







(** *** The scan for stale connections *)

Lemma disconnect_info_other (sid other : string) (w : world) :
  other <> sid ->
  connection_info (manager (snd (disconnect other w))) !! sid
  = connection_info (manager w) !! sid.
Proof.
  intros Hne. unfold disconnect.
  destruct (active_connections (manager w) !! other); [| reflexivity].
  destruct (connection_info (manager w) !! other); [| reflexivity].
  destruct (_heartbeat_task (manager w)); [destruct (bool_decide _) |];
    cbn; now apply lookup_delete_ne.
Qed.

Lemma disconnect_active_other (sid other : string) (w : world) :
  other <> sid ->
  active_connections (manager (snd (disconnect other w))) !! sid
  = active_connections (manager w) !! sid.
Proof. intros Hne. rewrite disconnect_active. now apply lookup_delete_ne. Qed.

(** A loop of [disconnect] calls leaves a session that is not in the
    list where it is. *)
Lemma disconnect_all_keeps (sid : string) (sids : list string) :
  forall w, sid ∉ sids ->
    active_connections (manager (snd (disconnect_all sids w))) !! sid
    = active_connections (manager w) !! sid.
Proof.
  induction sids as [|other rest IH]; intros w Hnot; cbn [disconnect_all].
  - reflexivity.
  - apply not_elem_of_cons in Hnot as [Hne Hrest].
    pose proof (disconnect_active_other sid other w (not_eq_sym Hne)) as Hd.
    destruct (disconnect other w) as [[u|e] w1]; cbn [snd] in Hd |- *.
    + rewrite IH by assumption. exact Hd.
    + exact Hd.
Qed.

(** A loop of [disconnect] calls over sessions that have their entry
    in [connection_info] runs to its end and removes them all. *)
Lemma disconnect_all_removes (sids : list string) :
  forall w,
    (forall sid, sid ∈ sids ->
       is_Some (connection_info (manager w) !! sid)
       \/ active_connections (manager w) !! sid = None) ->
    fst (disconnect_all sids w) = Ok tt
    /\ forall sid, sid ∈ sids ->
         active_connections (manager (snd (disconnect_all sids w))) !! sid
         = None.
Proof.
  induction sids as [|other rest IH]; intros w Hall; cbn [disconnect_all].
  - split; [reflexivity |]. intros sid Hin. now apply elem_of_nil in Hin.
  - assert (Hok : fst (disconnect other w) = Ok tt).
    { destruct (active_connections (manager w) !! other) as [r|] eqn:Ha.
      - destruct (Hall other) as [[i Hi]|Hn]; [left | | congruence].
        now apply (disconnect_effective other w r i).
      - now rewrite disconnect_absent. }
    pose proof (disconnect_active other w) as Hact.
    pose proof (fun sid => disconnect_info_other sid other w) as Hinf.
    destruct (disconnect other w) as [[[]|e] w1]; [| discriminate].
    cbn [snd] in Hact, Hinf.
    destruct (IH w1) as [Hr Hgone].
    { intros sid Hin. destruct (decide (other = sid)) as [->|Hne].
      - right. rewrite Hact. apply lookup_delete_eq.
      - destruct (Hall sid) as [Hi|Hn]; [now right | |].
        + left. now rewrite Hinf.
        + right. rewrite Hact, lookup_delete_ne by assumption. exact Hn. }
    split; [assumption |].
    intros sid Hin. apply elem_of_cons in Hin as [->|Hin].
    + destruct (decide (other ∈ rest)) as [Hor|Hor]; [now apply Hgone |].
      rewrite disconnect_all_keeps by assumption.
      rewrite Hact. apply lookup_delete_eq.
    + now apply Hgone.
Qed.

(** The sessions in the list [stale_connections]. *)
Lemma elem_of_stale_connections (sid : string) (now : Z) (w : world) :
  sid ∈ stale_connections cfg now w
  <-> exists i, connection_info (manager w) !! sid = Some i
                /\ is_stale cfg now i = true.
Proof.
  unfold stale_connections. rewrite list_elem_of_fmap. split.
  - intros ([k i] & -> & Hin). apply list_elem_of_In, filter_In in Hin.
    destruct Hin as [Hin Hst]. apply list_elem_of_In in Hin.
    apply elem_of_map_to_list in Hin. eauto.
  - intros (i & Hi & Hst). exists (sid, i). split; [reflexivity |].
    apply list_elem_of_In, filter_In. split; [| assumption].
    apply list_elem_of_In. now apply elem_of_map_to_list.
Qed.

(** The scan disconnects a live session whose last activity is older
    than the window, and no session whose last activity lies inside
    the window. *)
Lemma cleanup_exact (sid : string) (now : Z) (w : world) (i : info) :
  connection_info (manager w) !! sid = Some i ->
  let w' := snd (_cleanup_stale_connections cfg now w) in
  (is_stale cfg now i = true ->
   active_connections (manager w') !! sid = None)
  /\ (is_stale cfg now i = false ->
      active_connections (manager w') !! sid
      = active_connections (manager w) !! sid).
Proof.
  intros Hi. cbn zeta. unfold _cleanup_stale_connections. split; intros Hst.
  - apply disconnect_all_removes.
    + intros x Hx. apply elem_of_stale_connections in Hx as (j & Hj & _).
      left. eauto.
    + apply elem_of_stale_connections. eauto.
  - apply disconnect_all_keeps.
    intros Hin. apply elem_of_stale_connections in Hin as (j & Hj & Hs).
    congruence.
Qed.

(** *** The heartbeat cycle *)

Lemma untouched_refl (sid : string) (r : positive) (w : world) :
  untouched sid r w w.
Proof. unfold untouched. auto. Qed.

Lemma untouched_trans (sid : string) (r : positive) (w1 w2 w3 : world) :
  untouched sid r w1 w2 -> untouched sid r w2 w3 -> untouched sid r w1 w3.
Proof.
  unfold untouched. intros (A1 & I1 & S1 & M1) (A2 & I2 & S2 & M2).
  repeat split; try congruence. auto.
Qed.

Lemma on_socket_other (op : WebSocket -> result unit * WebSocket)
  (r r' : positive) (ss : sockets) :
  r' <> r -> snd (on_socket op r' ss) !! r = ss !! r.
Proof.
  intros Hne. unfold on_socket. destruct (ss !! r') as [sock|]; [| reflexivity].
  destruct (op sock) as [res sock']. cbn. now apply lookup_insert_ne.
Qed.

Lemma disconnect_socks (other : string) (w : world) :
  socks (snd (disconnect other w))
  = match active_connections (manager w) !! other with
    | Some r' => snd (on_socket (close 1000) r' (socks w))
    | None => socks w
    end.
Proof.
  unfold disconnect.
  destruct (active_connections (manager w) !! other); [| reflexivity].
  destruct (connection_info (manager w) !! other); [| reflexivity].
  destruct (_heartbeat_task (manager w)); [destruct (bool_decide _) |];
    reflexivity.
Qed.

(** Disconnecting another session, which uses another socket. *)
Lemma disconnect_untouched (sid other : string) (r : positive) (w : world) :
  other <> sid ->
  active_connections (manager w) !! other <> Some r ->
  untouched sid r w (snd (disconnect other w)).
Proof.
  intros Hne Hown. unfold untouched.
  split; [now apply disconnect_active_other |].
  split; [now apply disconnect_info_other |].
  split.
  - rewrite disconnect_socks.
    destruct (active_connections (manager w) !! other) as [r'|];
      [| reflexivity].
    apply on_socket_other. congruence.
  - intros x. rewrite disconnect_active. intros Hx.
    now apply lookup_delete_Some in Hx as [_ Hx].
Qed.

(** Sending to another session, which uses another socket. *)
Lemma send_untouched (sid other : string) (r : positive)
  (msg : WebSocketMessage) (now : Z) (w : world) :
  other <> sid ->
  active_connections (manager w) !! other <> Some r ->
  untouched sid r w (snd (_send_to_connection other msg now w)).
Proof.
  intros Hne Hown. unfold _send_to_connection.
  destruct (active_connections (manager w) !! other) as [r'|] eqn:Ha;
    [| apply untouched_refl].
  assert (Hr : r' <> r) by congruence.
  pose proof (on_socket_other (send_text msg) r r' (socks w) Hr) as Hss.
  destruct (on_socket (send_text msg) r' (socks w)) as [[u|e] ss1];
    cbn [snd] in Hss.
  - cbn. unfold untouched. cbn.
    split; [reflexivity |].
    split; [now apply lookup_alter_ne |].
    split; [assumption | auto].
  - assert (Hu : untouched sid r w (snd (disconnect other (with_socks ss1 w)))).
    { apply (untouched_trans sid r w (with_socks ss1 w)).
      - unfold untouched. cbn. auto.
      - apply disconnect_untouched; [assumption |]. cbn. congruence. }
    destruct (disconnect other (with_socks ss1 w)) as [[u|e'] w'];
      [destruct (isinstance e [WebSocketDisconnect]) |]; exact Hu.
Qed.

Lemma heartbeat_untouched (sid other : string) (r : positive)
  (msg : WebSocketMessage) (now : Z) (w : world) :
  other <> sid ->
  active_connections (manager w) !! other <> Some r ->
  untouched sid r w (snd (_send_heartbeat_to_connection other msg now w)).
Proof.
  intros Hne Hown. unfold _send_heartbeat_to_connection.
  pose proof (send_untouched sid other r msg now w Hne Hown) as Hu.
  destruct (_send_to_connection other msg now w) as [[u|e] w1];
    cbn [snd] in Hu; [exact Hu |].
  apply (untouched_trans sid r w w1); [exact Hu |].
  apply disconnect_untouched; [assumption |].
  intros Hx. apply Hown. now apply Hu.
Qed.

Lemma reachable_untouched (sid : string) (r : positive) (w w' : world) :
  reachable_session sid r w -> untouched sid r w w' ->
  reachable_session sid r w'.
Proof.
  unfold reachable_session, untouched.
  intros (Ha & Hi & Hs & Hown) (A & I & S & M).
  split; [congruence |]. split; [now rewrite I |].
  split; [now rewrite S |]. auto.
Qed.

(** The heartbeat of the session itself is delivered and counts as
    activity. *)
Lemma heartbeat_self (sid : string) (r : positive) (msg : WebSocketMessage)
  (now : Z) (w : world) :
  reachable_session sid r w ->
  let w' := snd (_send_heartbeat_to_connection sid msg now w) in
  reachable_session sid r w'
  /\ last_activity <$> connection_info (manager w') !! sid = Some now.
Proof.
  intros (Ha & [i Hi] & (sock & Hs & Hwr) & Hown). cbn zeta.
  unfold _send_heartbeat_to_connection.
  assert (Hst : application_state sock = CONNECTED
                /\ peer_takes sock = None).
  { unfold writable, is_connected in Hwr.
    destruct (application_state sock), (peer_takes sock); try discriminate.
    auto. }
  destruct Hst as [Hst Hpt].
  assert (Hsend : send_text msg sock = (Ok tt, deliver msg None sock))
    by (unfold send_text; now rewrite Hst, Hpt).
  rewrite (send_to_connection_ok sid msg now w r sock Ha Hs)
    by now rewrite Hsend.
  rewrite Hsend. cbn. split.
  - unfold reachable_session. cbn.
    split; [assumption |].
    split; [rewrite lookup_alter_eq, Hi; cbn; eauto |].
    split; [| assumption].
    exists (deliver msg None sock).
    split; [apply lookup_insert_eq |].
    unfold writable, is_connected. cbn. now rewrite Hst.
  - now rewrite lookup_alter_eq, Hi.
Qed.

Lemma send_heartbeats_reachable (sid : string) (r : positive) (sent_at : Z)
  (sids : list string) :
  forall w,
    reachable_session sid r w ->
    reachable_session sid r (send_heartbeats sids sent_at w)
    /\ (sid ∈ sids
        \/ last_activity <$> connection_info (manager w) !! sid = Some sent_at ->
        last_activity <$>
          connection_info (manager (send_heartbeats sids sent_at w)) !! sid
        = Some sent_at).
Proof.
  unfold send_heartbeats.
  induction sids as [|x rest IH]; intros w Hr; cbn [fold_left].
  - split; [assumption |]. intros [Hin|Hl]; [| assumption].
    now apply elem_of_nil in Hin.
  - set (msg := {| type := HEARTBEAT; content := "ping";
                   timestamp := sent_at; metadata := None |}).
    destruct (decide (x = sid)) as [->|Hne].
    + destruct (heartbeat_self sid r msg sent_at w Hr) as [Hr1 Hl1].
      destruct (IH _ Hr1) as [Hr2 Hl2]. split; [assumption |].
      intros _. apply Hl2. now right.
    + assert (Hown : active_connections (manager w) !! x <> Some r).
      { intros Hx. apply Hne. now apply Hr. }
      pose proof (heartbeat_untouched sid x r msg sent_at w Hne Hown) as Hu.
      destruct (IH _ (reachable_untouched sid r w _ Hr Hu)) as [Hr2 Hl2].
      split; [assumption |].
      intros [Hin|Hl]; apply Hl2.
      * apply elem_of_cons in Hin as [Heq|Hin]; [congruence | now left].
      * right. destruct Hu as (_ & I & _). now rewrite I.
Qed.

Lemma disconnect_all_reachable (sid : string) (r : positive)
  (sids : list string) :
  forall w, sid ∉ sids -> reachable_session sid r w ->
    reachable_session sid r (snd (disconnect_all sids w)).
Proof.
  induction sids as [|x rest IH]; intros w Hnot Hr; cbn [disconnect_all].
  - assumption.
  - apply not_elem_of_cons in Hnot as [Hne Hrest].
    assert (Hown : active_connections (manager w) !! x <> Some r).
    { intros Hx. apply Hne. symmetry. now apply Hr. }
    pose proof (disconnect_untouched sid x r w (not_eq_sym Hne) Hown) as Hu.
    pose proof (reachable_untouched sid r w _ Hr Hu) as Hr1.
    destruct (disconnect x w) as [[u|e] w1]; cbn [snd] in Hr1 |- *.
    + now apply IH.
    + assumption.
Qed.

(** A session whose heartbeat is delivered survives the cycle when the
    scan runs within the window after the heartbeat. *)
Lemma heartbeat_cycle_reachable (sid : string) (r : positive)
  (sent_at scanned_at : Z) (w : world) :
  reachable_session sid r w ->
  scanned_at - sent_at <= timedelta_seconds (CONNECTION_TIMEOUT cfg) ->
  reachable_session sid r (heartbeat_cycle cfg sent_at scanned_at w).
Proof.
  intros Hr Hwin. unfold heartbeat_cycle, _cleanup_stale_connections.
  set (sids := (map_to_list (active_connections (manager w))).*1).
  assert (Hin : sid ∈ sids).
  { apply list_elem_of_fmap. exists (sid, r). split; [reflexivity |].
    apply elem_of_map_to_list. apply Hr. }
  destruct (send_heartbeats_reachable sid r sent_at sids w Hr) as [Hr1 Hl1].
  specialize (Hl1 (or_introl Hin)).
  apply disconnect_all_reachable; [| assumption].
  intros Hst. apply elem_of_stale_connections in Hst as (i & Hi & Hs).
  rewrite Hi in Hl1. cbn in Hl1. injection Hl1 as Hl1.
  unfold is_stale in Hs. rewrite Hl1 in Hs.
  apply Z.ltb_lt in Hs. lia.
Qed.

Lemma heartbeat_loop_reachable (sid : string) (r : positive)
  (times : list (Z * Z)) :
  forall w,
    reachable_session sid r w ->
    Forall (fun t => snd t - fst t <= timedelta_seconds (CONNECTION_TIMEOUT cfg))
      times ->
    reachable_session sid r (_heartbeat_loop cfg times w).
Proof.
  induction times as [|[sent_at scanned_at] rest IH]; intros w Hr Hall;
    cbn [_heartbeat_loop].
  - assumption.
  - destruct (bool_decide _); [assumption |].
    apply Forall_cons in Hall as [Hwin Hall]. cbn in Hwin.
    apply IH; [| assumption].
    now apply heartbeat_cycle_reachable.
Qed.

(** A heartbeat that cannot be sent disconnects the session. *)
Lemma heartbeat_failure_disconnects (sid : string) (r : positive)
  (msg : WebSocketMessage) (now : Z) (w : world) (sock : WebSocket) :
  active_connections (manager w) !! sid = Some r ->
  socks w !! r = Some sock ->
  takes_next sock = false ->
  active_connections
    (manager (snd (_send_heartbeat_to_connection sid msg now w))) !! sid
  = None.
Proof.
  intros Ha Hs Hno. unfold _send_heartbeat_to_connection.
  destruct (send_to_connection_fails sid msg now w r sock Ha Hs) as [Hf Hw].
  { unfold send_text, takes_next, is_connected, peer_gone in *.
    destruct (application_state sock); try reflexivity.
    destruct (peer_takes sock) as [[|k]|]; try reflexivity; discriminate. }
  destruct (_send_to_connection sid msg now w) as [[u|e] w1];
    [discriminate |].
  cbn [snd] in Hw. rewrite disconnect_active. apply lookup_delete_eq.
Qed.

(** X22.  What the scan and a failed heartbeat do.  The scan for
    stale connections disconnects every session whose last activity is
    older than the staleness window at the time of the scan, and
    leaves the connection of every session whose last activity lies
    inside the window as it is.  A session whose socket does not take
    the heartbeat (it is closed, or its peer is gone) is disconnected
    by the failed send. *)
Theorem stale_scan_and_failed_heartbeat (sid : string) (w : world) :
  (forall now i,
     connection_info (manager w) !! sid = Some i ->
     let w' := snd (_cleanup_stale_connections cfg now w) in
     (timedelta_seconds (CONNECTION_TIMEOUT cfg) < now - last_activity i ->
      ~ live sid w')
     /\ (now - last_activity i <= timedelta_seconds (CONNECTION_TIMEOUT cfg) ->
         active_connections (manager w') !! sid
         = active_connections (manager w) !! sid))
  /\ (forall r sock msg now,
        active_connections (manager w) !! sid = Some r ->
        socks w !! r = Some sock ->
        takes_next sock = false ->
        ~ live sid (snd (_send_heartbeat_to_connection sid msg now w))).
Proof.
  split.
  - intros now i Hi. cbn zeta.
    destruct (cleanup_exact sid now w i Hi) as [Hstale Hfresh].
    split; intros H.
    + unfold live. rewrite Hstale; [intros [x Hx]; discriminate |].
      unfold is_stale. now apply Z.ltb_lt.
    + apply Hfresh. unfold is_stale. now apply Z.ltb_ge.
  - intros r sock msg now Ha Hs Hno. unfold live.
    rewrite (heartbeat_failure_disconnects sid r msg now w sock)
      by assumption.
    intros [x Hx]. discriminate.
Qed.

End RegistryFacts.

(** C8, at the registry with the single session "s1". *)
Lemma disconnect_idempotent_witness :
  Registry.active_connections
    (Registry.manager (Sample.one_session Sample.open_socket 0)) !! "s1"
  = Some 1%positive
  /\ Registry.disconnect "s1"
       (snd (Registry.disconnect "s1" (Sample.one_session Sample.open_socket 0)))
     = (Ok tt,
        snd (Registry.disconnect "s1" (Sample.one_session Sample.open_socket 0)))
  /\ Registry.is_processing "s1"
       (snd (Registry.disconnect "s1" (Sample.one_session Sample.open_socket 0)))
     = false.
Proof.
  split; [reflexivity |].
  pose proof (disconnect_idempotent "s1"
                (Sample.one_session Sample.open_socket 0)) as [Hidem Heff].
  split; [exact Hidem |].
  exact (proj1 (proj2 (proj2 (proj2 (proj2
           (Heff 1%positive
              {| Registry.connected_at := 0; Registry.last_activity := 0;
                 Registry.message_count := 1;
                 Registry.client_info := Some "10.0.0.7" |}
              eq_refl eq_refl)))))).
Defined.



Lemma one_session_reachable :
  Registry.reachable_session "s1" 1%positive
    (Sample.one_session Sample.open_socket 0).
Proof.
  unfold Registry.reachable_session. cbn.
  split; [reflexivity |].
  split; [eexists; reflexivity |].
  split; [exists Sample.open_socket; split; reflexivity |].
  intros other H. now apply lookup_singleton_Some in H as [? _].
Qed.

Lemma just_connected_reachable :
  Registry.reachable_session "s1" 1%positive Sample.just_connected.
Proof.
  assert (Ha : Registry.active_connections
                 (Registry.manager Sample.just_connected)
               = {[ "s1" := 1%positive ]})
    by (vm_compute; reflexivity).
  unfold Registry.reachable_session. rewrite Ha.
  split; [apply lookup_singleton_eq |].
  split; [eexists; vm_compute; reflexivity |].
  split.
  - exists (deliver
              {| type := CONNECTION_STATUS;
                 content := "Connected successfully. Session ID: s1";
                 timestamp := 0; metadata := None |}
              None (with_state CONNECTED Sample.new_socket)).
    split; vm_compute; reflexivity.
  - intros other H. now apply lookup_singleton_Some in H as [? _].
Qed.

(** C6, at inputs on which the code departs from it.  A client
    connects at clock reading 0 and then neither sends anything nor
    leaves.  The heartbeat cycles run 30 seconds apart; the heartbeat
    of each cycle goes through [_send_to_connection] and so sets
    [last_activity] just before the scan of the cycle reads it.  After
    any number of cycles the session is still live; after 20 cycles,
    600 seconds without client activity and twice the staleness window
    of 300 seconds, the idle time the registry holds is 0.  Likewise
    for the session "s1" that has been idle for 1000 seconds, more
    than the window, when the cycles start: its socket takes the
    heartbeats, and after any number of cycles it is still live, its
    idle time back at 0. *)
Lemma idle_session_is_never_reaped :
  let w := Sample.one_session Sample.open_socket 0 in
  fst (Registry.connect default_settings 1%positive "s1" 0
         (Sample.empty_world Sample.new_socket)) = Ok "s1"
  /\ (forall n : nat,
        Registry.live "s1"
          (Registry._heartbeat_loop default_settings (Sample.beats n)
             Sample.just_connected))
  /\ Registry.idle_time "s1" (Sample.seconds 600)
       (Registry._heartbeat_loop default_settings (Sample.beats 20)
          Sample.just_connected)
     = Some 0
  /\ Registry.idle_time "s1" (Sample.seconds 1000) w = Some (Sample.seconds 1000)
  /\ timedelta_seconds (Registry.CONNECTION_TIMEOUT default_settings)
     < Sample.seconds 1000
  /\ (forall n : nat,
        Registry.live "s1"
          (Registry._heartbeat_loop default_settings (Sample.schedule n) w))
  /\ Registry.idle_time "s1" (Sample.seconds 1060)
       (Registry._heartbeat_loop default_settings (Sample.schedule 3) w)
     = Some 0.
Proof.
  cbn zeta. split; [vm_compute; reflexivity |]. split.
  { intros n.
    destruct (heartbeat_loop_reachable default_settings "s1" 1%positive
                (Sample.beats n) _ just_connected_reachable) as [Ha _].
    + unfold Sample.beats. apply Forall_forall. intros t Hin.
      apply list_elem_of_In, in_map_iff in Hin as (k & <- & _).
      unfold timedelta_seconds, Registry.CONNECTION_TIMEOUT.
      cbn [fst snd websocket_timeout default_settings]. lia.
    + unfold Registry.live. rewrite Ha. eauto. }
  split; [vm_compute; reflexivity |].
  split; [reflexivity |]. split; [reflexivity |]. split.
  - intros n.
    destruct (heartbeat_loop_reachable default_settings "s1" 1%positive
                (Sample.schedule n) _ one_session_reachable) as [Ha _].
    + unfold Sample.schedule. apply Forall_forall. intros t Hin.
      apply list_elem_of_In, in_map_iff in Hin as (k & <- & _).
      unfold timedelta_seconds, Registry.CONNECTION_TIMEOUT.
      cbn [fst snd websocket_timeout default_settings]. lia.
    + unfold Registry.live. rewrite Ha. eauto.
  - vm_compute. reflexivity.
Qed.

(** X22, at a scan 1000 seconds after the last activity of the
    session "s1". *)
Lemma stale_scan_and_failed_heartbeat_witness :
  Registry.connection_info
    (Registry.manager (Sample.one_session Sample.open_socket 0)) !! "s1"
  = Some Sample.info1
  /\ timedelta_seconds (Registry.CONNECTION_TIMEOUT default_settings)
     < Sample.seconds 1000 - Registry.last_activity Sample.info1
  /\ ~ Registry.live "s1"
         (snd (Registry._cleanup_stale_connections default_settings
                 (Sample.seconds 1000)
                 (Sample.one_session Sample.open_socket 0))).
Proof.
  split; [reflexivity |]. split; [reflexivity |].
  exact (proj1 (proj1 (stale_scan_and_failed_heartbeat default_settings "s1"
                         (Sample.one_session Sample.open_socket 0))
                  (Sample.seconds 1000) Sample.info1 eq_refl)
           eq_refl).
Defined.

(** ** The dispatch loop ([main.py]) *)

Section MainFacts.
Import Registry Main.

Variable cfg : Settings.
Variable eng : Agent.engine.

Lemma flag_set (sid : string) (w : world) :
  is_processing sid (set_processing sid true w) = true.
Proof.
  unfold is_processing, set_processing. cbn.
  apply bool_decide_eq_true. apply elem_of_union. left.
  now apply elem_of_singleton.
Qed.

Lemma flag_cleared (sid : string) (w : world) :
  is_processing sid (set_processing sid false w) = false.
Proof.
  unfold is_processing, set_processing. cbn.
  apply bool_decide_eq_false. intros Hin.
  apply elem_of_difference in Hin as [_ Hn]. apply Hn.
  now apply elem_of_singleton.
Qed.

(** [process_user_query] works on the sockets and on the agent
    service; the registry's own state is not in its reach. *)
Lemma process_user_query_manager (sid : string) (q : UserQuery)
  (ws : positive) (t : readings) (sys : system) :
  manager (registry (snd (process_user_query cfg eng sid q ws t sys)))
  = manager (registry sys).
Proof.
  unfold process_user_query.
  destruct (Agent.process_query _ _ _ _ _ _ _ _ _) as [r [[h a] ss]].
  reflexivity.
Qed.

(** Neither [disconnect] nor a send adds a session to
    [processing_connections]. *)
Lemma disconnect_processing (sid other : string) (w : world) :
  is_processing sid w = false ->
  is_processing sid (snd (disconnect other w)) = false.
Proof.
  unfold is_processing. intros H. apply bool_decide_eq_false in H.
  apply bool_decide_eq_false. unfold disconnect.
  destruct (active_connections (manager w) !! other); [| exact H].
  destruct (connection_info (manager w) !! other); [| exact H].
  destruct (_heartbeat_task (manager w)); [destruct (bool_decide _) |];
    cbn; intros Hin; apply elem_of_difference in Hin as [Hin _]; auto.
Qed.

Lemma send_processing (sid other : string) (msg : WebSocketMessage) (now : Z)
  (w : world) :
  is_processing sid w = false ->
  is_processing sid (snd (_send_to_connection other msg now w)) = false.
Proof.
  intros H. unfold _send_to_connection.
  destruct (active_connections (manager w) !! other) as [r|]; [| exact H].
  destruct (on_socket (send_text msg) r (socks w)) as [[u|e] ss];
    [exact H |].
  pose proof (disconnect_processing sid other (with_socks ss w) H) as Hd.
  destruct (disconnect other (with_socks ss w)) as [[u|e'] w'];
    [destruct (isinstance e [WebSocketDisconnect]) |]; exact Hd.
Qed.

Lemma on_failure_flag (sid : string) (t : readings) (e : exn) (sys : system) :
  flag sid sys = false -> flag sid (snd (on_failure sid t e sys)) = false.
Proof.
  intros H. unfold on_failure.
  destruct (isinstance e [WebSocketDisconnect]); [exact H |].
  destruct (isinstance e [ConnectionError]); [exact H |].
  pose proof (send_processing sid sid
                {| type := ERROR;
                   content := "An unexpected error occurred. Please try again.";
                   timestamp := at_report t;
                   metadata := Some [("error_type", MStr "internal_error")] |}
                (at_report t) (registry sys) H) as Hs.
  unfold send_error.
  destruct (_send_to_connection _ _ _ _) as [r w]. exact Hs.
Qed.

Lemma continue_or_fail_flag (sid : string) (t : readings)
  (r : result unit * system) :
  flag sid (snd r) = false ->
  flag sid (snd (continue_or_fail sid t r)) = false.
Proof.
  destruct r as [[u|e] sys]; cbn [continue_or_fail snd]; [auto |].
  apply on_failure_flag.
Qed.

(** The [finally] clause clears the flag, whatever the processing and
    the report of its error ended with. *)
Lemma unmark_clears (sid : string) (t : readings)
  (ran : result unit * system) :
  flag sid (snd (unmark sid (report sid t ran))) = false.
Proof.
  unfold unmark. destruct (report sid t ran) as [r sys].
  apply flag_cleared.
Qed.

Lemma serve_clears (sid : string) (q : UserQuery) (ws : positive)
  (t : readings) (sys : system) :
  flag sid sys = false ->
  flag sid (snd (serve cfg eng sid q ws t sys)) = false.
Proof.
  intros H. unfold serve. unfold flag in H. rewrite H.
  apply unmark_clears.
Qed.

(** A turn of the message loop that starts with the flag down ends
    with the flag down. *)
Lemma turn_flag (sid : string) (ws : positive) (msg : inbound * readings)
  (sys : system) :
  flag sid sys = false ->
  flag sid (snd (turn cfg eng sid ws msg sys)) = false.
Proof.
  intros H. unfold turn. destruct msg as [[[q|e]|e] t].
  - apply continue_or_fail_flag. now apply serve_clears.
  - destruct (isinstance e [JSONDecodeError; PydanticValidationError]);
      [| now apply on_failure_flag].
    pose proof (send_processing sid sid
                  {| type := ERROR;
                     content := "Invalid message format: " ++ str e;
                     timestamp := at_report t;
                     metadata := Some [("error_type", MStr "validation_error")] |}
                  (at_report t) (registry sys) H) as Hs.
    unfold send_error.
    destruct (_send_to_connection _ _ _ _) as [r w].
    now apply continue_or_fail_flag.
  - now apply on_failure_flag.
Qed.

Lemma message_loop_flag (sid : string) (ws : positive)
  (msgs : list (inbound * readings)) :
  forall sys, flag sid sys = false ->
    flag sid (message_loop cfg eng sid ws msgs sys) = false.
Proof.
  induction msgs as [|msg rest IH]; intros sys H; cbn [message_loop].
  - assumption.
  - pose proof (turn_flag sid ws msg sys H) as Ht.
    destruct (turn cfg eng sid ws msg sys) as [[|] sys1]; cbn [snd] in Ht.
    + now apply IH.
    + assumption.
Qed.

(** C1.  A query of a session whose flag is down is served with the
    flag up: it is up when [process_user_query] is entered and still up
    when [process_user_query] ends, however it ends.  After the query
    has been served the flag is down again: the [finally] clause takes
    the session out of [processing_connections] whatever
    [process_user_query] returned or raised and whatever state it
    ended in, also when reporting the error to the client fails.  So
    the flag is down after every turn of the message loop and when the
    loop is left. *)
Theorem processing_flag_brackets_query (sid : string) (q : UserQuery)
  (ws : positive) (t : readings) (sys : system) :
  flag sid sys = false ->
  flag sid (marked sid sys) = true
  /\ flag sid (snd (process_user_query cfg eng sid q ws t (marked sid sys)))
     = true
  /\ serve cfg eng sid q ws t sys
     = unmark sid
         (report sid t
            (process_user_query cfg eng sid q ws t (marked sid sys)))
  /\ (forall ran, flag sid (snd (unmark sid (report sid t ran))) = false)
  /\ flag sid (snd (serve cfg eng sid q ws t sys)) = false
  /\ (forall msgs, flag sid (message_loop cfg eng sid ws msgs sys) = false).
Proof.
  intros H.
  split; [apply flag_set |].
  split.
  { unfold flag, is_processing. rewrite process_user_query_manager.
    apply flag_set. }
  split; [unfold serve; unfold flag in H; now rewrite H |].
  split; [intros ran; apply unmark_clears |].
  split; [now apply serve_clears |].
  intros msgs. now apply message_loop_flag.
Qed.

End MainFacts.

(** C1, at a query on which the engine runs into the timeout. *)
Lemma processing_flag_brackets_query_witness :
  Main.flag "s1" Sample.system1 = false
  /\ fst (Main.process_user_query default_settings Sample.hanging_engine "s1"
            (Sample.ask "quiet gaming pc") 1%positive Sample.readings1
            (Main.marked "s1" Sample.system1))
     = Raise (Exn TimeoutError "Agent processing timed out after 5 minutes")
  /\ Main.flag "s1"
       (snd (Main.process_user_query default_settings Sample.hanging_engine
               "s1" (Sample.ask "quiet gaming pc") 1%positive Sample.readings1
               (Main.marked "s1" Sample.system1)))
     = true
  /\ Main.flag "s1"
       (snd (Main.serve default_settings Sample.hanging_engine "s1"
               (Sample.ask "quiet gaming pc") 1%positive Sample.readings1
               Sample.system1))
     = false.
Proof.
  split; [reflexivity |]. split; [vm_compute; reflexivity |].
  pose proof (processing_flag_brackets_query default_settings
                Sample.hanging_engine "s1" (Sample.ask "quiet gaming pc")
                1%positive Sample.readings1 Sample.system1 eq_refl)
    as (_ & Hup & _ & _ & Hdown & _).
  split; [exact Hup | exact Hdown].
Defined.

(** ** More on the registry: invariants and the effects of a send *)

Section RegistryInvariants.
Import Registry.
Local Open Scope list_scope.

Variable cfg : Settings.

Lemma on_socket_keeps (op : WebSocket -> result unit * WebSocket)
  (r r' : positive) (ss : sockets) :
  is_Some (ss !! r) -> is_Some (snd (on_socket op r' ss) !! r).
Proof.
  intros H. unfold on_socket. destruct (ss !! r') as [sock|]; [| exact H].
  destruct (op sock) as [res sock']. cbn.
  destruct (decide (r' = r)) as [->|Hne].
  - rewrite lookup_insert_eq. eauto.
  - now rewrite lookup_insert_ne.
Qed.

Lemma well_formed_info (sid : string) (r : positive) (w : world) :
  well_formed w -> active_connections (manager w) !! sid = Some r ->
  is_Some (connection_info (manager w) !! sid).
Proof.
  intros [Hdom _] Ha. apply elem_of_dom. rewrite <- Hdom.
  apply elem_of_dom. eauto.
Qed.

(** On a well-formed registry [disconnect] returns normally. *)
Lemma well_formed_disconnect (sid : string) (w : world) :
  well_formed w ->
  fst (disconnect sid w) = Ok tt /\ well_formed (snd (disconnect sid w)).
Proof.
  intros Hwf.
  destruct (active_connections (manager w) !! sid) as [r|] eqn:Ha.
  - destruct (well_formed_info sid r w Hwf Ha) as [i Hi].
    destruct (disconnect_effective sid w r i Ha Hi)
      as (Hok & Hinfo & _ & Hsocks & _).
    split; [assumption |]. destruct Hwf as [Hdom Hss]. split.
    + rewrite disconnect_active, Hinfo, !dom_delete_L. now rewrite Hdom.
    + intros x r'. rewrite disconnect_active. intros Hx.
      apply lookup_delete_Some in Hx as [_ Hx].
      rewrite Hsocks. apply on_socket_keeps. eauto.
  - rewrite disconnect_absent by assumption. auto.
Qed.

Lemma well_formed_with_socks (w : world) (op : WebSocket -> result unit * WebSocket)
  (r : positive) :
  well_formed w -> well_formed (with_socks (snd (on_socket op r (socks w))) w).
Proof.
  intros [Hdom Hss]. split; [exact Hdom |].
  intros x r' Hx. cbn. apply on_socket_keeps. eauto.
Qed.

Lemma well_formed_send (sid : string) (msg : WebSocketMessage) (now : Z)
  (w : world) :
  well_formed w -> well_formed (snd (_send_to_connection sid msg now w)).
Proof.
  intros Hwf. unfold _send_to_connection.
  destruct (active_connections (manager w) !! sid) as [r|] eqn:Ha;
    [| exact Hwf].
  pose proof (well_formed_with_socks w (send_text msg) r Hwf) as Hwf1.
  destruct (on_socket (send_text msg) r (socks w)) as [[u|e] ss];
    cbn [snd] in Hwf1.
  - destruct Hwf1 as [Hdom Hss]. split; cbn in *.
    + now rewrite dom_alter_L.
    + exact Hss.
  - destruct (well_formed_disconnect sid _ Hwf1) as [_ Hwf2].
    destruct (disconnect sid (with_socks ss w)) as [[u|e'] w'];
      [destruct (isinstance e [WebSocketDisconnect]) |]; exact Hwf2.
Qed.

Lemma well_formed_connect (ws : positive) (new_id : string) (now : Z)
  (w : world) :
  well_formed w -> well_formed (snd (connect cfg ws new_id now w)).
Proof.
  intros Hwf. unfold connect.
  pose proof (well_formed_with_socks w accept ws Hwf) as Hwf1.
  assert (Hin : fst (on_socket accept ws (socks w)) = Ok tt ->
                is_Some (snd (on_socket accept ws (socks w)) !! ws)).
  { unfold on_socket. destruct (socks w !! ws) as [sock|]; [| discriminate].
    destruct (accept sock) as [res sock']. cbn. intros _.
    rewrite lookup_insert_eq. eauto. }
  destruct (on_socket accept ws (socks w)) as [[[]|e] ss];
    cbn [fst snd] in Hwf1, Hin; [| exact Hwf1].
  specialize (Hin eq_refl).
  destruct (MAX_CONNECTIONS cfg <=? _).
  - pose proof (well_formed_with_socks _ (close 1013) ws Hwf1) as Hwf2.
    cbn [socks with_socks] in Hwf2.
    destruct (on_socket (close 1013) ws ss) as [[u|e] ss']; exact Hwf2.
  - match goal with
    | |- context [_send_to_connection ?i ?m ?n ?w1] =>
        assert (Hwf2 : well_formed w1);
        [| pose proof (well_formed_send i m n w1 Hwf2) as Hwf3;
           destruct (_send_to_connection i m n w1) as [[u|e] w2];
           exact Hwf3 ]
    end.
    destruct Hwf1 as [Hdom Hss]. split; cbn in *.
    + rewrite !dom_insert_L. now rewrite Hdom.
    + intros x r Hx. destruct (decide (new_id = x)) as [->|Hne].
      * rewrite lookup_insert_eq in Hx. now injection Hx as <-.
      * rewrite lookup_insert_ne in Hx by assumption. eauto.
Qed.

Lemma well_formed_heartbeat (sid : string) (msg : WebSocketMessage) (now : Z)
  (w : world) :
  well_formed w ->
  well_formed (snd (_send_heartbeat_to_connection sid msg now w)).
Proof.
  intros Hwf. unfold _send_heartbeat_to_connection.
  pose proof (well_formed_send sid msg now w Hwf) as Hwf1.
  destruct (_send_to_connection sid msg now w) as [[u|e] w1];
    [exact Hwf1 |].
  now apply well_formed_disconnect.
Qed.

Lemma well_formed_disconnect_all (sids : list string) :
  forall w, well_formed w ->
    fst (disconnect_all sids w) = Ok tt
    /\ well_formed (snd (disconnect_all sids w)).
Proof.
  induction sids as [|sid rest IH]; intros w Hwf; cbn [disconnect_all].
  - auto.
  - destruct (well_formed_disconnect sid w Hwf) as [Hok Hwf1].
    destruct (disconnect sid w) as [[[]|e] w1]; [| discriminate].
    now apply IH.
Qed.

Lemma well_formed_cycle (sent_at scanned_at : Z) (w : world) :
  well_formed w -> well_formed (heartbeat_cycle cfg sent_at scanned_at w).
Proof.
  intros Hwf. unfold heartbeat_cycle, _cleanup_stale_connections.
  apply well_formed_disconnect_all.
  unfold send_heartbeats.
  generalize ((map_to_list (active_connections (manager w))).*1).
  intros sids. revert w Hwf.
  induction sids as [|sid rest IH]; intros w Hwf; cbn [fold_left].
  - assumption.
  - apply IH. now apply well_formed_heartbeat.
Qed.

(** X1.  The registry stays well-formed: from a state in which
    [active_connections] and [connection_info] have the same keys and
    every connection refers to a socket of the store, [connect],
    [disconnect], [_send_to_connection], [send_error],
    [set_processing] and a whole heartbeat cycle lead to such a state
    again; there [disconnect] and the scan for stale connections
    return normally (the [del] statements find their keys). *)
Theorem registry_stays_well_formed (w : world) :
  well_formed w ->
  (forall ws new_id now, well_formed (snd (connect cfg ws new_id now w)))
  /\ (forall sid, fst (disconnect sid w) = Ok tt
                  /\ well_formed (snd (disconnect sid w)))
  /\ (forall sid msg now,
        well_formed (snd (_send_to_connection sid msg now w)))
  /\ (forall sid text kind now,
        well_formed (snd (send_error sid text kind now w)))
  /\ (forall sid b, well_formed (set_processing sid b w))
  /\ (forall now,
        fst (_cleanup_stale_connections cfg now w) = Ok tt
        /\ well_formed (snd (_cleanup_stale_connections cfg now w)))
  /\ (forall sent_at scanned_at,
        well_formed (heartbeat_cycle cfg sent_at scanned_at w)).
Proof.
  intros Hwf.
  split; [intros; now apply well_formed_connect |].
  split; [intros; now apply well_formed_disconnect |].
  split; [intros; now apply well_formed_send |].
  split; [intros; now apply well_formed_send |].
  split; [intros sid b; exact Hwf |].
  split; [intros; now apply well_formed_disconnect_all |].
  intros. now apply well_formed_cycle.
Qed.

End RegistryInvariants.

Section RegistryCapacity.
Import Registry.
Local Open Scope list_scope.

Variable cfg : Settings.

Lemma disconnect_shrinks (sid : string) (w : world) :
  active_connections (manager (snd (disconnect sid w)))
  ⊆ active_connections (manager w).
Proof. rewrite disconnect_active. apply delete_subseteq. Qed.

Lemma send_shrinks (sid : string) (msg : WebSocketMessage) (now : Z)
  (w : world) :
  active_connections (manager (snd (_send_to_connection sid msg now w)))
  ⊆ active_connections (manager w).
Proof.
  unfold _send_to_connection.
  destruct (active_connections (manager w) !! sid) as [r|]; [| reflexivity].
  destruct (on_socket (send_text msg) r (socks w)) as [[u|e] ss];
    [reflexivity |].
  pose proof (disconnect_shrinks sid (with_socks ss w)) as Hd.
  destruct (disconnect sid (with_socks ss w)) as [[u|e'] w'];
    [destruct (isinstance e [WebSocketDisconnect]) |]; exact Hd.
Qed.

Lemma heartbeat_shrinks (sid : string) (msg : WebSocketMessage) (now : Z)
  (w : world) :
  active_connections
    (manager (snd (_send_heartbeat_to_connection sid msg now w)))
  ⊆ active_connections (manager w).
Proof.
  unfold _send_heartbeat_to_connection.
  pose proof (send_shrinks sid msg now w) as Hs.
  destruct (_send_to_connection sid msg now w) as [[u|e] w1];
    [exact Hs |].
  etransitivity; [apply disconnect_shrinks | exact Hs].
Qed.

Lemma disconnect_all_shrinks (sids : list string) :
  forall w,
    active_connections (manager (snd (disconnect_all sids w)))
    ⊆ active_connections (manager w).
Proof.
  induction sids as [|sid rest IH]; intros w; cbn [disconnect_all].
  - reflexivity.
  - pose proof (disconnect_shrinks sid w) as Hd.
    destruct (disconnect sid w) as [[u|e] w1]; cbn [snd] in Hd |- *.
    + etransitivity; [apply IH | exact Hd].
    + exact Hd.
Qed.

Lemma cycle_shrinks (sent_at scanned_at : Z) (w : world) :
  active_connections (manager (heartbeat_cycle cfg sent_at scanned_at w))
  ⊆ active_connections (manager w).
Proof.
  unfold heartbeat_cycle, _cleanup_stale_connections.
  etransitivity; [apply disconnect_all_shrinks |].
  unfold send_heartbeats.
  generalize ((map_to_list (active_connections (manager w))).*1).
  intros sids. revert w.
  induction sids as [|sid rest IH]; intros w; cbn [fold_left].
  - reflexivity.
  - etransitivity; [apply IH | apply heartbeat_shrinks].
Qed.

Lemma live_count_mono (w w' : world) :
  active_connections (manager w') ⊆ active_connections (manager w) ->
  live_count w' <= live_count w.
Proof.
  intros H. unfold live_count. apply inj_le. now apply map_subseteq_size.
Qed.

(** [connect] adds at most one session, and none at capacity. *)
Lemma connect_live_count (ws : positive) (new_id : string) (now : Z)
  (w : world) :
  live_count (snd (connect cfg ws new_id now w))
  <= (if MAX_CONNECTIONS cfg <=? live_count w
      then live_count w else live_count w + 1).
Proof.
  unfold connect.
  destruct (on_socket accept ws (socks w)) as [[[]|e] ss].
  2: { cbn [snd]. change (live_count (with_socks ss w)) with (live_count w).
       destruct (_ <=? _); lia. }
  fold (live_count w).
  destruct (MAX_CONNECTIONS cfg <=? live_count w).
  - destruct (on_socket (close 1013) ws ss) as [[u|e] ss']; cbn [snd];
      change (live_count (with_socks ss' w)) with (live_count w); lia.
  - match goal with
    | |- context [_send_to_connection ?i ?m ?n ?w1] =>
        pose proof (live_count_mono w1 _ (send_shrinks i m n w1)) as Hle;
        destruct (_send_to_connection i m n w1) as [[u|e] w2]
    end; cbn [snd] in Hle |- *;
      (etransitivity; [exact Hle |]);
      unfold live_count; cbn; rewrite map_size_insert;
      destruct (active_connections (manager w) !! new_id); cbn; lia.
Qed.

(** X2.  The number of live sessions never exceeds the capacity: if
    it is at most [MAX_CONNECTIONS] before [connect], it is so after
    it; and [disconnect], [_send_to_connection] and a heartbeat cycle
    never raise it. *)
Theorem live_sessions_within_capacity (w : world) :
  live_count w <= MAX_CONNECTIONS cfg ->
  (forall ws new_id now,
     live_count (snd (connect cfg ws new_id now w)) <= MAX_CONNECTIONS cfg)
  /\ (forall sid, live_count (snd (disconnect sid w)) <= live_count w)
  /\ (forall sid msg now,
        live_count (snd (_send_to_connection sid msg now w)) <= live_count w)
  /\ (forall sent_at scanned_at,
        live_count (heartbeat_cycle cfg sent_at scanned_at w) <= live_count w).
Proof.
  intros Hcap.
  split.
  { intros ws new_id now.
    pose proof (connect_live_count ws new_id now w) as H.
    destruct (MAX_CONNECTIONS cfg <=? live_count w) eqn:E; [lia |].
    apply Z.leb_gt in E. lia. }
  split; [intros; apply live_count_mono, disconnect_shrinks |].
  split; [intros; apply live_count_mono, send_shrinks |].
  intros. apply live_count_mono, cycle_shrinks.
Qed.

End RegistryCapacity.

Section RegistrySends.
Import Registry.
Local Open Scope list_scope.

Variable cfg : Settings.

(** X3.  A send to a live session whose socket takes the frame
    returns normally, delivers exactly that frame as the next frame on
    that socket, sets the session's [last_activity] to the clock
    reading and raises its [message_count] by one; the entries of the
    other sessions, the set of connections, the processing set and the
    other sockets are as before. *)
Theorem send_to_connection_delivers (sid : string) (msg : WebSocketMessage)
  (now : Z) (w : world) (r : positive) (sock : WebSocket) (i : info) :
  active_connections (manager w) !! sid = Some r ->
  socks w !! r = Some sock ->
  connection_info (manager w) !! sid = Some i ->
  takes_next sock = true ->
  let w' := snd (_send_to_connection sid msg now w) in
  fst (_send_to_connection sid msg now w) = Ok tt
  /\ delivered r (socks w') = sent sock ++ [msg]
  /\ connection_info (manager w') !! sid
     = Some {| connected_at := connected_at i; last_activity := now;
               message_count := message_count i + 1;
               client_info := client_info i |}
  /\ (forall other, other <> sid ->
        connection_info (manager w') !! other
        = connection_info (manager w) !! other)
  /\ active_connections (manager w') = active_connections (manager w)
  /\ processing_connections (manager w') = processing_connections (manager w)
  /\ (forall r', r' <> r -> socks w' !! r' = socks w !! r').
Proof.
  intros Ha Hs Hi Ht. cbn zeta.
  assert (Hsend : exists left, send_text msg sock
                               = (Ok tt, deliver msg left sock)).
  { unfold takes_next, is_connected, peer_gone in Ht. unfold send_text.
    destruct (application_state sock); try discriminate.
    destruct (peer_takes sock) as [[|k]|]; try discriminate; eauto. }
  destruct Hsend as [left Hsend].
  rewrite (send_to_connection_ok sid msg now w r sock Ha Hs)
    by now rewrite Hsend.
  rewrite Hsend. cbn.
  split; [reflexivity |].
  split; [unfold delivered; now rewrite lookup_insert_eq |].
  split; [now rewrite lookup_alter_eq, Hi |].
  split; [intros other Hne; now apply lookup_alter_ne |].
  split; [reflexivity |]. split; [reflexivity |].
  intros r' Hne. now apply lookup_insert_ne.
Qed.

(** Closing keeps what was delivered and leaves the socket
    [DISCONNECTED]. *)
Lemma close_keeps_sent (code : Z) (r : positive) (ss : gmap positive WebSocket)
  (ws : WebSocket) :
  ss !! r = Some ws ->
  exists ws', snd (on_socket (close code) r ss) !! r = Some ws'
              /\ application_state ws' = DISCONNECTED
              /\ sent ws' = sent ws.
Proof.
  intros H. unfold on_socket. rewrite H. unfold close.
  destruct (application_state ws) eqn:Hst; [| destruct (peer_gone ws) |];
    cbn; rewrite lookup_insert_eq; eexists;
    (split; [reflexivity |]); split; (reflexivity || exact Hst).
Qed.

(** A send on a socket that does not take the frame: it raises
    [WebSocketDisconnect] when the socket is connected (its peer is
    gone), [RuntimeError] otherwise, and delivers nothing. *)
Lemma failed_send_text (msg : WebSocketMessage) (sock : WebSocket) :
  takes_next sock = false ->
  exists e sock1,
    send_text msg sock = (Raise e, sock1)
    /\ isinstance e [WebSocketDisconnect] = is_connected sock
    /\ exn_cls e = (if is_connected sock then WebSocketDisconnect
                    else RuntimeError)
    /\ sent sock1 = sent sock.
Proof.
  unfold takes_next, is_connected, peer_gone, send_text.
  destruct (application_state sock); cbn; intros Hno;
    try (do 2 eexists; repeat split; reflexivity).
  destruct (peer_takes sock) as [[|k]|]; try discriminate.
  do 2 eexists; repeat split; reflexivity.
Qed.

(** X4.  Sends that fail.  A send to a session that is not connected
    raises the [ConnectionError] that names it and changes nothing.
    On a well-formed registry, a send to a live session whose socket
    does not take the frame raises ([WebSocketDisconnect] when the peer
    of a connected socket is gone, [ConnectionError] otherwise) and
    leaves the session disconnected: it is no longer live, its entry
    in [connection_info] is gone, its processing flag is down, and its
    socket is closed with no frame delivered. *)
Theorem failed_send_disconnects (sid : string) (msg : WebSocketMessage)
  (now : Z) (w : world) :
  well_formed w ->
  (active_connections (manager w) !! sid = None ->
   _send_to_connection sid msg now w
   = (Raise (Exn ConnectionError ("Connection " ++ sid ++ " not found")%string),
      w))
  /\ (forall r sock,
        active_connections (manager w) !! sid = Some r ->
        socks w !! r = Some sock ->
        takes_next sock = false ->
        let w' := snd (_send_to_connection sid msg now w) in
        (exists e,
           fst (_send_to_connection sid msg now w) = Raise e
           /\ exn_cls e = (if is_connected sock then WebSocketDisconnect
                           else ConnectionError))
        /\ ~ live sid w'
        /\ get_connection_info sid w' = None
        /\ is_processing sid w' = false
        /\ exists sock',
             socks w' !! r = Some sock'
             /\ application_state sock' = DISCONNECTED
             /\ sent sock' = sent sock).
Proof.
  intros Hwf. split.
  - intros Ha. unfold _send_to_connection. now rewrite Ha.
  - intros r sock Ha Hs Hno. cbn zeta.
    destruct (well_formed_info sid r w Hwf Ha) as [i Hi].
    destruct (failed_send_text msg sock Hno)
      as (e & sock1 & Hsend & Hinst & Hcls & Hsent1).
    unfold _send_to_connection, on_socket. rewrite Ha, Hs, Hsend.
    set (w1 := with_socks (<[r := sock1]> (socks w)) w).
    destruct (disconnect_effective sid w1 r i Ha Hi)
      as (Hok & Hinfo & Hproc & Hsocks & _).
    pose proof (disconnect_active sid w1) as Hact.
    destruct (disconnect sid w1) as [[[]|e'] w']; [| discriminate].
    cbn [snd fst] in *. rewrite Hinst.
    assert (Hrest : ~ live sid w'
                    /\ get_connection_info sid w' = None
                    /\ is_processing sid w' = false
                    /\ exists sock',
                         socks w' !! r = Some sock'
                         /\ application_state sock' = DISCONNECTED
                         /\ sent sock' = sent sock).
    { split.
      { unfold live. rewrite Hact, lookup_delete_eq. intros [x Hx].
        discriminate. }
      split; [unfold get_connection_info; rewrite Hinfo;
              apply lookup_delete_eq |].
      split.
      { unfold is_processing. rewrite Hproc. apply bool_decide_eq_false.
        intros Hin. apply elem_of_difference in Hin as [_ Hn]. apply Hn.
        now apply elem_of_singleton. }
      rewrite Hsocks.
      destruct (close_keeps_sent 1000 r (socks w1) sock1) as (sock' & H1 & H2 & H3);
        [unfold w1; cbn; apply lookup_insert_eq |].
      exists sock'. split; [exact H1 | split; [exact H2 |]].
      now rewrite H3. }
    destruct (is_connected sock) eqn:Hc; cbn [fst snd].
    + split; [| exact Hrest]. exists e. split; [reflexivity | exact Hcls].
    + split; [| exact Hrest]. eexists. split; reflexivity.
Qed.

(** *** The heartbeat task *)

Lemma size_pos_of_lookup (m : gmap string positive) (sid : string)
  (r : positive) :
  m !! sid = Some r -> (0 < size m)%nat.
Proof.
  intros Ha. destruct (size m) eqn:Hz; [| lia].
  apply map_size_empty_iff in Hz. rewrite Hz in Ha. discriminate.
Qed.

Lemma live_nonempty (sid : string) (r : positive) (w : world) :
  active_connections (manager w) !! sid = Some r -> 0 < live_count w.
Proof.
  intros Ha. unfold live_count.
  pose proof (size_pos_of_lookup _ sid r Ha). lia.
Qed.

Lemma heartbeat_disconnect (sid : string) (w : world) :
  well_formed w -> heartbeat_consistent w ->
  heartbeat_consistent (snd (disconnect sid w)).
Proof.
  intros Hwf Hb.
  destruct (active_connections (manager w) !! sid) as [r|] eqn:Ha;
    [| now rewrite disconnect_absent].
  destruct (well_formed_info sid r w Hwf Ha) as [i Hi].
  destruct (disconnect_effective sid w r i Ha Hi) as (_ & _ & _ & _ & Hbeat).
  pose proof (disconnect_active sid w) as Hact.
  pose proof (live_nonempty sid r w Ha) as Hpos.
  unfold heartbeat_consistent in *.
  destruct (_heartbeat_task (manager w)) as [t|]; [| lia].
  destruct Hb as [Hsched _].
  destruct (bool_decide _) eqn:Hz; destruct Hbeat as [Hf Htk]; rewrite Hf.
  - apply bool_decide_eq_true in Hz. unfold live_count. rewrite Hact, Hz.
    reflexivity.
  - apply bool_decide_eq_false in Hz. rewrite Htk. split; [assumption |].
    unfold live_count. rewrite Hact. lia.
Qed.

Lemma heartbeat_send (sid : string) (msg : WebSocketMessage) (now : Z)
  (w : world) :
  well_formed w -> heartbeat_consistent w ->
  heartbeat_consistent (snd (_send_to_connection sid msg now w)).
Proof.
  intros Hwf Hb. unfold _send_to_connection.
  destruct (active_connections (manager w) !! sid) as [r|] eqn:Ha;
    [| exact Hb].
  pose proof (well_formed_with_socks w (send_text msg) r Hwf) as Hwf1.
  destruct (on_socket (send_text msg) r (socks w)) as [[u|e] ss];
    cbn [snd] in Hwf1; [exact Hb |].
  pose proof (heartbeat_disconnect sid (with_socks ss w) Hwf1 Hb) as Hb1.
  destruct (disconnect sid (with_socks ss w)) as [[u|e'] w'];
    [destruct (isinstance e [WebSocketDisconnect]) |]; exact Hb1.
Qed.

Lemma heartbeat_connect (ws : positive) (new_id : string) (now : Z)
  (w : world) :
  well_formed w -> heartbeat_consistent w ->
  heartbeat_consistent (snd (connect cfg ws new_id now w)).
Proof.
  intros Hwf Hb. unfold connect.
  pose proof (well_formed_with_socks w accept ws Hwf) as Hwf1.
  assert (Hin : fst (on_socket accept ws (socks w)) = Ok tt ->
                is_Some (snd (on_socket accept ws (socks w)) !! ws)).
  { unfold on_socket. destruct (socks w !! ws) as [sock|]; [| discriminate].
    destruct (accept sock) as [res sock']. cbn. intros _.
    rewrite lookup_insert_eq. eauto. }
  destruct (on_socket accept ws (socks w)) as [[[]|e] ss];
    cbn [fst snd] in Hwf1, Hin; [| exact Hb].
  specialize (Hin eq_refl).
  destruct (MAX_CONNECTIONS cfg <=? _).
  - destruct (on_socket (close 1013) ws ss) as [[u|e] ss']; exact Hb.
  - match goal with
    | |- context [_send_to_connection ?i ?m ?n ?w1] =>
        assert (Hwf2 : well_formed w1 /\ heartbeat_consistent w1);
        [| destruct Hwf2 as [Hwf2 Hb2];
           pose proof (heartbeat_send i m n w1 Hwf2 Hb2) as Hb3;
           destruct (_send_to_connection i m n w1) as [[u|e] w2];
           exact Hb3 ]
    end.
    split.
    + destruct Hwf1 as [Hdom Hss]. split; cbn in *.
      * rewrite !dom_insert_L. now rewrite Hdom.
      * intros x r Hx. destruct (decide (new_id = x)) as [->|Hne].
        -- rewrite lookup_insert_eq in Hx. now injection Hx as <-.
        -- rewrite lookup_insert_ne in Hx by assumption. eauto.
    + assert (Hpos : 0 < Z.of_nat (size (<[new_id := ws]>
                                           (active_connections (manager w))))).
      { pose proof (size_pos_of_lookup
                      (<[new_id := ws]> (active_connections (manager w)))
                      new_id ws (lookup_insert_eq _ _ _)). lia. }
      unfold heartbeat_consistent, live_count in *. cbn.
      destruct (bool_decide _) eqn:Hfirst.
      * split; [apply lookup_insert_eq | exact Hpos].
      * apply bool_decide_eq_false in Hfirst.
        destruct (_heartbeat_task (manager w)) as [t|].
        -- destruct Hb as [Hsched _]. split; [assumption | exact Hpos].
        -- exfalso. apply Hfirst.
           assert (Hz : size (active_connections (manager w)) = 0%nat) by lia.
           apply map_size_empty_iff in Hz. rewrite Hz.
           rewrite map_size_insert, lookup_empty. cbn.
           now rewrite map_size_empty.
Qed.

(** X5.  The heartbeat task follows the sessions: on a well-formed
    registry that holds a scheduled heartbeat task exactly while a
    session is live, this is so again after [connect], [disconnect]
    and [_send_to_connection]; the registry as [__init__] creates it
    is such a state. *)
Theorem heartbeat_task_follows_sessions (w : world) :
  well_formed w -> heartbeat_consistent w ->
  (forall ws new_id now,
     heartbeat_consistent (snd (connect cfg ws new_id now w)))
  /\ (forall sid, heartbeat_consistent (snd (disconnect sid w)))
  /\ (forall sid msg now,
        heartbeat_consistent (snd (_send_to_connection sid msg now w)))
  /\ (forall ss tk,
        heartbeat_consistent
          {| manager := empty_manager; socks := ss; tasks := tk |}).
Proof.
  intros Hwf Hb.
  split; [intros; now apply heartbeat_connect |].
  split; [intros; now apply heartbeat_disconnect |].
  split; [intros; now apply heartbeat_send |].
  intros ss tk. unfold heartbeat_consistent, live_count. cbn.
  now rewrite map_size_empty.
Qed.

End RegistrySends.

(** ** More on the callback handler: counting and partial delivery *)

Section CallbackCounting.
Import Callback.
Local Open Scope list_scope.

(** The callbacks that do not send leave the handler and the sockets
    as they are; [on_llm_end] raises when the response has no
    [llm_output]. *)
Lemma dispatch_silent (ev : event) (now : Z) (h : WebSocketCallbackHandler)
  (ss : sockets) :
  sends ev = false ->
  dispatch ev now h ss
  = (if crashes ev then Raise none_has_no_get else Ok tt, h, ss).
Proof.
  destruct ev as [| |[u|]| | | | | | | | |]; cbn; intros H;
    try discriminate; reflexivity.
Qed.

Lemma sends_not_crashes (ev : event) : sends ev = true -> crashes ev = false.
Proof. destruct ev as [| |[u|]| | | | | | | | |]; cbn; congruence. Qed.

(** The others make one call of [_send_message]. *)
Lemma dispatch_sends (ev : event) :
  sends ev = true ->
  forall now h, exists k text md,
    forall ss, dispatch ev now h ss = _send_message k text md now h ss.
Proof.
  destruct ev; cbn; intros H now h; try discriminate;
    do 3 eexists; intros ss; reflexivity.
Qed.

(** One call of [_send_message]: the frame is delivered and counted,
    or nothing is delivered, nothing is counted and the call raises a
    [ConnectionError]; when the peer of a connected socket is gone the
    socket is [DISCONNECTED] afterwards. *)
Lemma send_message_cases (k : MessageType) (text : string)
  (md : option (list (string * meta))) (now : Z)
  (h : WebSocketCallbackHandler) (ss : sockets) (w : WebSocket) :
  ss !! websocket h = Some w ->
  let msg := {| type := k; content := text; timestamp := now;
                metadata := Some (default [] md) |} in
  exists w',
    snd (_send_message k text md now h ss) = <[websocket h := w']> ss
    /\ offered w' = offered w ++ [msg]
    /\ ((takes_next w = true
         /\ fst (_send_message k text md now h ss) = (Ok tt, count_message h)
         /\ sent w' = sent w ++ [msg]
         /\ peer_takes w' = pred <$> peer_takes w
         /\ application_state w' = application_state w)
        \/ (takes_next w = false
            /\ (exists e, fst (_send_message k text md now h ss) = (Raise e, h)
                          /\ exn_cls e = ConnectionError
                          /\ (application_state w = CONNECTED ->
                              e = connection_lost_error
                              /\ application_state w' = DISCONNECTED)
                          /\ (application_state w = DISCONNECTED ->
                              e = send_after_close_error
                              /\ application_state w' = DISCONNECTED))
            /\ sent w' = sent w
            /\ peer_takes w' = peer_takes w)).
Proof.
  intros Hw. cbn zeta. unfold _send_message, on_socket. rewrite Hw.
  unfold send_text, takes_next, is_connected, peer_gone.
  destruct (application_state w) eqn:Hst;
    [| destruct (peer_takes w) as [[|n]|] eqn:Hp |];
    cbn; eexists; (split; [reflexivity |]); cbn;
    rewrite ?Hst, ?Hp; (split; [reflexivity |]).
  - right. split; [reflexivity |]. split; [| split; reflexivity].
    eexists. split; [reflexivity |]. split; [reflexivity |].
    split; discriminate.
  - right. split; [reflexivity |]. split; [| split; reflexivity].
    eexists. split; [reflexivity |]. split; [reflexivity |].
    split; [intros _; split; reflexivity | discriminate].
  - left. repeat split; reflexivity.
  - left. repeat split; reflexivity.
  - right. split; [reflexivity |]. split; [| split; reflexivity].
    eexists. split; [reflexivity |]. split; [reflexivity |].
    split; [discriminate | intros _; split; reflexivity].
Qed.

(** X6.  The handler counts what it delivers.  For every run of
    events on the socket of the handler: the frames delivered are
    appended to the frames delivered before, and [message_count] grows
    by exactly their number.  Every callback returns normally, or
    raises a [ConnectionError] (a send that failed), or is [on_llm_end]
    on a response without [llm_output] and raises its
    [AttributeError]: each event whose callback sends accounts for
    exactly one delivered frame or one [ConnectionError], and each
    such [on_llm_end] for one [AttributeError]. *)
Theorem message_count_counts_delivered (evs : list (event * Z)) :
  forall (h : WebSocketCallbackHandler) (ss : sockets),
    is_Some (ss !! websocket h) ->
    let results := fst (fst (emit evs h ss)) in
    let h' := snd (fst (emit evs h ss)) in
    let ss' := snd (emit evs h ss) in
    websocket h' = websocket h
    /\ start_time h' = start_time h
    /\ length results = length evs
    /\ Forall (fun r => r = Ok tt \/ connection_lost r = true
                        \/ r = Raise none_has_no_get) results
    /\ length (List.filter attribute_error results)
       = length (List.filter (fun x => crashes (fst x)) evs)
    /\ exists new,
         delivered (websocket h) ss' = delivered (websocket h) ss ++ new
         /\ message_count h' = message_count h + Z.of_nat (length new)
         /\ (length new + length (List.filter connection_lost results)
             = length (List.filter (fun x => sends (fst x)) evs))%nat.
Proof.
  induction evs as [|[ev now] evs IH]; intros h ss [w Hw]; cbn [emit].
  - cbn. repeat split; auto. exists []. rewrite app_nil_r. cbn.
    repeat split; lia.
  - destruct (sends ev) eqn:Hs.
    + destruct (dispatch_sends ev Hs now h) as (k & text & md & Hd).
      rewrite Hd.
      destruct (send_message_cases k text md now h ss w Hw)
        as (w1 & Hss1 & _ & Hcase).
      destruct (_send_message k text md now h ss) as [[r h1] ss1].
      cbn [fst snd] in Hss1, Hcase.
      assert (Hh1 : websocket h1 = websocket h /\ start_time h1 = start_time h).
      { destruct Hcase as [(_ & [= _ ->] & _)|(_ & (e & [= _ ->] & _) & _)];
          split; reflexivity. }
      destruct Hh1 as [Hws1 Hst1].
      assert (Hw1 : is_Some (ss1 !! websocket h1)).
      { rewrite Hws1, Hss1, lookup_insert_eq. eauto. }
      specialize (IH h1 ss1 Hw1). cbn zeta in IH.
      destruct (emit evs h1 ss1) as [[rs h2] ss2].
      cbn [fst snd] in IH |- *.
      destruct IH
        as (Hws2 & Hst2 & Hlen & Hall & Hattr & new & Hdel & Hcnt & Hsum).
      split; [congruence |]. split; [congruence |].
      split; [cbn; now rewrite Hlen |].
      cbn [List.filter fst]. rewrite Hs, (sends_not_crashes ev Hs).
      rewrite Hws1 in Hdel. unfold delivered in Hdel |- *.
      rewrite Hss1, lookup_insert_eq in Hdel. rewrite Hw.
      destruct Hcase as [(_ & [= -> ->] & Hsent & _)
                        |(_ & (e & [= -> ->] & Hcls & _) & Hsent & _)].
      * split; [constructor; [now left | assumption] |].
        split; [exact Hattr |].
        exists ({| type := k; content := text; timestamp := now;
                   metadata := Some (default [] md) |} :: new).
        split; [rewrite Hdel, Hsent, <- app_assoc; reflexivity |].
        split; [rewrite Hcnt; cbn [length count_message message_count]; lia |].
        cbn [connection_lost length]. lia.
      * assert (Hlost : connection_lost (Raise e) = true)
          by (cbn; now rewrite Hcls).
        assert (Hna : attribute_error (Raise e) = false)
          by (cbn; now rewrite Hcls).
        split; [constructor; [right; now left | assumption] |].
        split; [rewrite Hna; exact Hattr |].
        exists new.
        split; [rewrite Hdel, Hsent; reflexivity |].
        split; [assumption |].
        cbn [List.filter]. rewrite Hlost. cbn [length]. lia.
    + rewrite (dispatch_silent ev now h ss Hs).
      specialize (IH h ss (ex_intro _ w Hw)). cbn zeta in IH.
      destruct (emit evs h ss) as [[rs h2] ss2].
      cbn [fst snd] in IH |- *.
      destruct IH
        as (Hws2 & Hst2 & Hlen & Hall & Hattr & new & Hdel & Hcnt & Hsum).
      split; [assumption |]. split; [assumption |].
      split; [cbn; now rewrite Hlen |].
      cbn [List.filter fst]. rewrite Hs.
      destruct (crashes ev).
      * split; [constructor; [right; now right | assumption] |].
        split; [cbn; now rewrite Hattr |].
        exists new. split; [assumption |]. split; assumption.
      * split; [constructor; [now left | assumption] |].
        split; [exact Hattr |].
        exists new. split; [assumption |]. split; assumption.
Qed.

(** A run on a socket that accepts every write: every event that
    sends is delivered and counted. *)
Lemma emit_writable (evs : list (event * Z)) :
  forall (h : WebSocketCallbackHandler) (ss : sockets) (w : WebSocket),
    ss !! websocket h = Some w -> writable w = true ->
    let h' := snd (fst (emit evs h ss)) in
    let ss' := snd (emit evs h ss) in
    websocket h' = websocket h
    /\ start_time h' = start_time h
    /\ message_count h'
       = message_count h
         + Z.of_nat (length (List.filter (fun x => sends (fst x)) evs))
    /\ exists w' new,
         ss' !! websocket h = Some w' /\ writable w' = true
         /\ sent w' = sent w ++ new
         /\ length new = length (List.filter (fun x => sends (fst x)) evs).
Proof.
  induction evs as [|[ev now] evs IH]; intros h ss w Hw Hwr; cbn [emit].
  - cbn. repeat split; [lia |]. exists w, []. now rewrite app_nil_r.
  - cbn [List.filter fst]. destruct (sends ev) eqn:Hs.
    + destruct (dispatch_sends ev Hs now h) as (k & text & md & Hd).
      rewrite Hd.
      destruct (send_message_cases k text md now h ss w Hw)
        as (w1 & Hss1 & _ & Hcase).
      assert (Htn : takes_next w = true /\ peer_takes w = None).
      { unfold writable, takes_next, peer_gone in *.
        destruct (is_connected w); [| discriminate].
        destruct (peer_takes w); [discriminate | auto]. }
      destruct Htn as [Htn Hpt].
      destruct Hcase as [(_ & Hr & Hsent & Hpt1 & Hst1)|(Hno & _)];
        [| congruence].
      destruct (_send_message k text md now h ss) as [[r h1] ss1].
      cbn [fst snd] in Hss1, Hr. injection Hr as -> ->.
      assert (Hwr1 : writable w1 = true).
      { unfold writable, is_connected in *. rewrite Hst1, Hpt1, Hpt.
        cbn. destruct (application_state w); try discriminate. reflexivity. }
      assert (Hw1 : ss1 !! websocket (count_message h) = Some w1)
        by (rewrite Hss1; apply lookup_insert_eq).
      specialize (IH (count_message h) ss1 w1 Hw1 Hwr1). cbn zeta in IH.
      destruct (emit evs (count_message h) ss1) as [[rs h2] ss2].
      cbn [fst snd] in IH |- *.
      destruct IH
        as (Hws2 & Hst2 & Hcnt & w2 & new & Hw2 & Hwr2 & Hsent2 & Hlen2).
      split; [assumption |]. split; [assumption |].
      split; [rewrite Hcnt; cbn [length count_message message_count]; lia |].
      exists w2, ({| type := k; content := text; timestamp := now;
                     metadata := Some (default [] md) |} :: new).
      split; [assumption |]. split; [assumption |].
      split; [rewrite Hsent2, Hsent, <- app_assoc; reflexivity |].
      cbn [length]. now rewrite Hlen2.
    + rewrite (dispatch_silent ev now h ss Hs).
      specialize (IH h ss w Hw Hwr). cbn zeta in IH.
      destruct (emit evs h ss) as [[rs h2] ss2]. exact IH.
Qed.

(** A run on a socket in the state [DISCONNECTED]: every callback
    that sends passes its frame to the socket and raises the
    [ConnectionError] of a send after the close; nothing is delivered
    or counted. *)
Lemma emit_closed (evs : list (event * Z)) :
  forall (h : WebSocketCallbackHandler) (ss : sockets) (w : WebSocket),
    ss !! websocket h = Some w ->
    application_state w = DISCONNECTED ->
    forallb (fun x => sends (fst x)) evs = true ->
    exists all w',
      length all = length evs
      /\ snd (emit evs h ss) !! websocket h = Some w'
      /\ application_state w' = DISCONNECTED
      /\ offered w' = offered w ++ all
      /\ sent w' = sent w
      /\ fst (emit evs h ss)
         = (replicate (length evs) (Raise send_after_close_error), h).
Proof.
  induction evs as [|[ev now] evs IH]; intros h ss w Hw Hst Hall;
    cbn [emit].
  - exists [], w. cbn. rewrite app_nil_r. repeat split; assumption.
  - cbn [forallb fst] in Hall. apply andb_prop in Hall as [Hs Hall].
    destruct (dispatch_sends ev Hs now h) as (kind & text & md & Hd).
    rewrite Hd.
    destruct (send_message_cases kind text md now h ss w Hw)
      as (w1 & Hss1 & Hoff1 & Hcase).
    destruct (_send_message kind text md now h ss) as [[r h1] ss1].
    cbn [fst snd] in Hss1, Hcase.
    destruct Hcase as [(Htn & _)
                      |(_ & (e & [= -> ->] & _ & _ & He) & Hsent1 & _)].
    { unfold takes_next, is_connected in Htn. rewrite Hst in Htn.
      discriminate. }
    destruct (He Hst) as [-> Hst1].
    assert (Hw1 : ss1 !! websocket h = Some w1)
      by (rewrite Hss1; apply lookup_insert_eq).
    destruct (IH h ss1 w1 Hw1 Hst1 Hall)
      as (all & w2 & Hlen & Hw2 & Hst2 & Hoff2 & Hsent2 & Hres).
    destruct (emit evs h ss1) as [[rs h2] ss2]. cbn [fst snd] in *.
    injection Hres as -> ->.
    exists ({| type := kind; content := text; timestamp := now;
               metadata := Some (default [] md) |} :: all), w2.
    split; [cbn; now rewrite Hlen |]. split; [assumption |].
    split; [assumption |].
    split; [rewrite Hoff2, Hoff1, <- app_assoc; reflexivity |].
    split; [congruence | reflexivity].
Qed.

Lemma emit_app (evs1 evs2 : list (event * Z)) :
  forall (h : WebSocketCallbackHandler) (ss : sockets),
    emit (evs1 ++ evs2) h ss
    = (fst (fst (emit evs1 h ss))
       ++ fst (fst (emit evs2 (snd (fst (emit evs1 h ss)))
                      (snd (emit evs1 h ss)))),
       snd (fst (emit evs2 (snd (fst (emit evs1 h ss)))
                   (snd (emit evs1 h ss)))),
       snd (emit evs2 (snd (fst (emit evs1 h ss))) (snd (emit evs1 h ss)))).
Proof.
  induction evs1 as [|[ev now] evs1 IH]; intros h ss; cbn [emit app].
  - cbn. now destruct (emit evs2 h ss) as [[rs h2] ss2].
  - destruct (dispatch ev now h ss) as [[r h1] ss1].
    rewrite IH. destruct (emit evs1 h1 ss1) as [[rs1 h2] ss2]. cbn [fst snd].
    destruct (emit evs2 h2 ss2) as [[rs2 h3] ss3]. reflexivity.
Qed.

(** X7.  The final answer reports how the run went.  On a socket that
    accepts every write, a run that ends with the finish of the engine
    delivers as its last frame the [FINAL_OUTPUT] frame that carries
    the answer (or "No output generated" when there is none), the time
    since the handler was created, and as [messages_sent] the number
    of frames the handler had delivered before: its count at the start
    plus one for every earlier event whose callback sends. *)
Theorem final_frame_reports_run (evs : list (event * Z)) (out : option string)
  (now : Z) (h : WebSocketCallbackHandler) (ss : sockets) :
  writable_at (websocket h) ss = true ->
  last (delivered (websocket h)
          (snd (emit (evs ++ [(AgentFinish out, now)]) h ss)))
  = Some {| type := FINAL_OUTPUT;
            content := default "No output generated"%string out;
            timestamp := now;
            metadata :=
              Some [("event"%string, MStr "agent_finish");
                    ("processing_time"%string, MSeconds (now - start_time h));
                    ("messages_sent"%string,
                     MInt (message_count h
                           + Z.of_nat
                               (length (List.filter
                                          (fun x => sends (fst x)) evs))))] |}.
Proof.
  unfold writable_at. destruct (ss !! websocket h) as [w|] eqn:Hw;
    [| discriminate].
  intros Hwr. rewrite emit_app.
  destruct (emit_writable evs h ss w Hw Hwr)
    as (Hws & Hst & Hcnt & w1 & new & Hw1 & Hwr1 & _ & _).
  destruct (emit evs h ss) as [[rs h1] ss1]. cbn [fst snd] in *.
  cbn [emit dispatch]. unfold on_agent_finish.
  rewrite <- Hws in Hw1.
  destruct (send_message_cases FINAL_OUTPUT
              (default "No output generated"%string out)
              (Some [("event"%string, MStr "agent_finish");
                     ("processing_time"%string,
                      MSeconds (now - start_time h1));
                     ("messages_sent"%string, MInt (message_count h1))])
              now h1 ss1 w1 Hw1) as (w2 & Hss2 & _ & Hcase).
  assert (Htn : takes_next w1 = true).
  { unfold writable, takes_next, peer_gone in *.
    destruct (is_connected w1); [| discriminate].
    destruct (peer_takes w1); [discriminate | auto]. }
  destruct Hcase as [(_ & _ & Hsent & _)|(Hno & _)]; [| congruence].
  destruct (_send_message _ _ _ now h1 ss1) as [[r h2] ss2].
  cbn [fst snd] in *. unfold delivered.
  rewrite <- Hws, Hss2, lookup_insert_eq, Hsent, last_snoc.
  cbn. now rewrite Hst, Hcnt.
Qed.

(** X8.  Partial delivery is a prefix.  When the peer of a connected
    socket goes away after [k] more frames, a run of [N] events whose
    callbacks send passes [N] frames to the socket and delivers the
    first [k] of them (all, if [N <= k]).  These callbacks return
    normally; the next one raises the [ConnectionError] of the lost
    connection and leaves the socket [DISCONNECTED]; every later one
    raises the [ConnectionError] of a send after the close.  Nothing
    delivered is taken back, and [message_count] counts the delivered
    frames only. *)
Theorem partial_delivery_is_prefix (evs : list (event * Z)) :
  forall (k : nat) (h : WebSocketCallbackHandler) (ss : sockets)
         (w : WebSocket),
    ss !! websocket h = Some w ->
    is_connected w = true -> peer_takes w = Some k ->
    forallb (fun x => sends (fst x)) evs = true ->
    let results := fst (fst (emit evs h ss)) in
    let h' := snd (fst (emit evs h ss)) in
    let ss' := snd (emit evs h ss) in
    exists all,
      length all = length evs
      /\ produced (websocket h) ss' = offered w ++ all
      /\ delivered (websocket h) ss' = sent w ++ take k all
      /\ results
         = replicate (Nat.min k (length evs)) (Ok tt)
           ++ match (length evs - k)%nat with
              | O => []
              | S later =>
                  Raise connection_lost_error
                  :: replicate later (Raise send_after_close_error)
              end
      /\ message_count h'
         = message_count h + Z.of_nat (Nat.min k (length evs))
      /\ ((k < length evs)%nat ->
          exists w', ss' !! websocket h = Some w'
                     /\ application_state w' = DISCONNECTED).
Proof.
  induction evs as [|[ev now] evs IH]; intros k h ss w Hw Hc Hp Hall;
    cbn [emit].
  - cbn. exists []. unfold produced, delivered. rewrite Hw.
    rewrite take_nil, !app_nil_r, Nat.min_0_r. cbn.
    repeat split; try lia.
  - cbn [forallb fst] in Hall. apply andb_prop in Hall as [Hs Hall].
    destruct (dispatch_sends ev Hs now h) as (kind & text & md & Hd).
    rewrite Hd.
    destruct (send_message_cases kind text md now h ss w Hw)
      as (w1 & Hss1 & Hoff1 & Hcase).
    assert (Hst : application_state w = CONNECTED)
      by (unfold is_connected in Hc; destruct (application_state w);
          congruence).
    destruct (_send_message kind text md now h ss) as [[r h1] ss1].
    cbn [fst snd] in Hss1, Hcase.
    set (msg := {| type := kind; content := text; timestamp := now;
                   metadata := Some (default [] md) |}) in *.
    destruct Hcase as [(Htn & [= -> ->] & Hsent1 & Hpt1 & Hst1)
                      |(Hno & (e & [= -> ->] & _ & He & _) & Hsent1 & Hpt1)].
    + destruct k as [|k'].
      { unfold takes_next, peer_gone in Htn. rewrite Hc, Hp in Htn.
        discriminate. }
      rewrite Hp in Hpt1. cbn in Hpt1.
      assert (Hc1 : is_connected w1 = true)
        by (unfold is_connected in *; now rewrite Hst1).
      assert (Hw1 : ss1 !! websocket (count_message h) = Some w1)
        by (rewrite Hss1; apply lookup_insert_eq).
      specialize (IH k' (count_message h) ss1 w1 Hw1 Hc1 Hpt1 Hall).
      cbn zeta in IH.
      destruct (emit evs (count_message h) ss1) as [[rs h2] ss2].
      cbn [fst snd] in IH |- *.
      destruct IH as (all & Hlen & Hprod & Hdel & Hres & Hcnt & Hend).
      exists (msg :: all). cbn [websocket count_message] in *.
      split; [cbn; now rewrite Hlen |].
      split; [rewrite Hprod, Hoff1, <- app_assoc; reflexivity |].
      split; [rewrite Hdel, Hsent1, <- app_assoc; reflexivity |].
      split; [rewrite Hres; reflexivity |].
      split.
      * rewrite Hcnt. unfold count_message. cbn [length message_count]. lia.
      * intros Hlt. apply Hend. cbn [length] in Hlt. lia.
    + destruct k as [|k'].
      2: { unfold takes_next, peer_gone in Hno. rewrite Hc, Hp in Hno.
           discriminate. }
      destruct (He Hst) as [-> Hst1].
      assert (Hw1 : ss1 !! websocket h = Some w1)
        by (rewrite Hss1; apply lookup_insert_eq).
      destruct (emit_closed evs h ss1 w1 Hw1 Hst1 Hall)
        as (all & w2 & Hlen & Hw2 & Hst2 & Hoff2 & Hsent2 & Hres).
      destruct (emit evs h ss1) as [[rs h2] ss2]. cbn [fst snd] in *.
      injection Hres as -> ->.
      exists (msg :: all). unfold produced, delivered. rewrite Hw2.
      split; [cbn; now rewrite Hlen |].
      split; [rewrite Hoff2, Hoff1, <- app_assoc; reflexivity |].
      split; [rewrite Hsent2, Hsent1; cbn; now rewrite app_nil_r |].
      split; [reflexivity |].
      split; [cbn; lia |].
      intros _. exists w2. split; [reflexivity | assumption].
Qed.

End CallbackCounting.

(** ** More on the dispatch loop: what reaches the client, what is
    left behind *)

Section MainMore.
Import Registry Main.
Local Open Scope list_scope.

Variable cfg : Settings.
Variable eng : Agent.engine.

(** A send to [sid] leaves the connections of the other sessions. *)
Lemma send_active_other (sid other : string) (msg : WebSocketMessage)
  (now : Z) (w : world) :
  other <> sid ->
  active_connections (manager (snd (_send_to_connection sid msg now w)))
    !! other
  = active_connections (manager w) !! other.
Proof.
  intros Hne. unfold _send_to_connection.
  destruct (active_connections (manager w) !! sid) as [r|]; [| reflexivity].
  destruct (on_socket (send_text msg) r (socks w)) as [[u|e] ss];
    [reflexivity |].
  pose proof (disconnect_active_other other sid (with_socks ss w)
                (not_eq_sym Hne)) as Hd.
  destruct (disconnect sid (with_socks ss w)) as [[u|e'] w'];
    [destruct (isinstance e [WebSocketDisconnect]) |]; exact Hd.
Qed.

(** A send to [sid] that raises leaves [sid] without connection. *)
Lemma send_raise_not_live (sid : string) (msg : WebSocketMessage) (now : Z)
  (w : world) :
  is_ok (fst (_send_to_connection sid msg now w)) = false ->
  active_connections (manager (snd (_send_to_connection sid msg now w)))
    !! sid = None.
Proof.
  unfold _send_to_connection.
  destruct (active_connections (manager w) !! sid) as [r|] eqn:Ha;
    [| intros _; exact Ha].
  destruct (on_socket (send_text msg) r (socks w)) as [[u|e] ss];
    [discriminate |].
  intros _.
  pose proof (disconnect_active sid (with_socks ss w)) as Hd.
  destruct (disconnect sid (with_socks ss w)) as [[u|e'] w'];
    [destruct (isinstance e [WebSocketDisconnect]) |];
    cbn [snd] in *; rewrite Hd; apply lookup_delete_eq.
Qed.

Lemma connect_active_other (ws : positive) (new_id other : string) (now : Z)
  (w : world) :
  other <> new_id ->
  active_connections (manager (snd (connect cfg ws new_id now w))) !! other
  = active_connections (manager w) !! other.
Proof.
  intros Hne. unfold connect.
  destruct (on_socket accept ws (socks w)) as [[[]|e] ss]; [| reflexivity].
  destruct (MAX_CONNECTIONS cfg <=? _).
  - destruct (on_socket (close 1013) ws ss) as [[u|e] ss']; reflexivity.
  - match goal with
    | |- context [_send_to_connection ?i ?m ?n ?w1] =>
        pose proof (send_active_other i other m n w1 Hne) as Hs;
        destruct (_send_to_connection i m n w1) as [[u|e] w2]
    end; cbn [snd] in Hs |- *; rewrite Hs; cbn;
      now apply lookup_insert_ne.
Qed.

(** When [connect] raises, the identifier it drew is not connected. *)
Lemma connect_raise_not_live (ws : positive) (new_id : string) (now : Z)
  (w : world) :
  active_connections (manager w) !! new_id = None ->
  is_ok (fst (connect cfg ws new_id now w)) = false ->
  active_connections (manager (snd (connect cfg ws new_id now w))) !! new_id
  = None.
Proof.
  intros Hfresh. unfold connect.
  destruct (on_socket accept ws (socks w)) as [[[]|e] ss];
    [| intros _; exact Hfresh].
  destruct (MAX_CONNECTIONS cfg <=? _).
  - destruct (on_socket (close 1013) ws ss) as [[u|e] ss'];
      intros _; exact Hfresh.
  - match goal with
    | |- context [_send_to_connection ?i ?m ?n ?w1] =>
        pose proof (send_raise_not_live i m n w1) as Hs;
        destruct (_send_to_connection i m n w1) as [[u|e] w2]
    end; cbn [fst snd is_ok] in *; [discriminate |].
    intros _. now apply Hs.
Qed.

Lemma connect_processing (sid : string) (ws : positive) (new_id : string)
  (now : Z) (w : world) :
  is_processing sid w = false ->
  is_processing sid (snd (connect cfg ws new_id now w)) = false.
Proof.
  intros H. unfold connect.
  destruct (on_socket accept ws (socks w)) as [[[]|e] ss]; [| exact H].
  destruct (MAX_CONNECTIONS cfg <=? _).
  - destruct (on_socket (close 1013) ws ss) as [[u|e] ss']; exact H.
  - match goal with
    | |- context [_send_to_connection ?i ?m ?n ?w1] =>
        pose proof (send_processing sid i m n w1 H) as Hs;
        destruct (_send_to_connection i m n w1) as [[u|e] w2]
    end; exact Hs.
Qed.

Lemma send_error_active_other (sid other text kind : string) (now : Z)
  (sys : system) :
  other <> sid ->
  active_connections
    (manager (snd (send_error sid text kind now (registry sys)))) !! other
  = active_connections (manager (registry sys)) !! other.
Proof. intros Hne. now apply send_active_other. Qed.

Lemma on_failure_active_other (sid other : string) (t : readings) (e : exn)
  (sys : system) :
  other <> sid ->
  active_connections (manager (registry (snd (on_failure sid t e sys))))
    !! other
  = active_connections (manager (registry sys)) !! other.
Proof.
  intros Hne. unfold on_failure.
  destruct (isinstance e [WebSocketDisconnect]); [reflexivity |].
  destruct (isinstance e [ConnectionError]); [reflexivity |].
  pose proof (send_error_active_other sid other
                "An unexpected error occurred. Please try again."
                "internal_error" (at_report t) sys Hne) as Hs.
  destruct (send_error _ _ _ _ _) as [r w]. exact Hs.
Qed.

Lemma continue_or_fail_active_other (sid other : string) (t : readings)
  (r : result unit * system) :
  other <> sid ->
  active_connections
    (manager (registry (snd (continue_or_fail sid t r)))) !! other
  = active_connections (manager (registry (snd r))) !! other.
Proof.
  intros Hne. destruct r as [[u|e] sys]; cbn [continue_or_fail snd];
    [reflexivity |].
  now apply on_failure_active_other.
Qed.

Lemma serve_active_other (sid other : string) (q : UserQuery) (ws : positive)
  (t : readings) (sys : system) :
  other <> sid ->
  active_connections
    (manager (registry (snd (serve cfg eng sid q ws t sys)))) !! other
  = active_connections (manager (registry sys)) !! other.
Proof.
  intros Hne. unfold serve.
  destruct (is_processing sid (registry sys)).
  - pose proof (send_error_active_other sid other
                  "Already processing a request. Please wait for completion."
                  "rate_limit_error" (at_report t) sys Hne) as Hs.
    destruct (send_error _ _ _ _ _) as [r w]. exact Hs.
  - unfold unmark, report.
    pose proof (process_user_query_manager cfg eng sid q ws t (marked sid sys))
      as Hm.
    destruct (process_user_query cfg eng sid q ws t (marked sid sys))
      as [[u|e] sys1]; cbn [snd] in Hm.
    + cbn. now rewrite Hm.
    + pose proof (send_error_active_other sid other
                    (_format_error_message e) (class_name e) (at_report t)
                    sys1 Hne) as Hs.
      destruct (send_error _ _ _ _ _) as [r w]. cbn in *.
      now rewrite Hs, Hm.
Qed.

Lemma turn_active_other (sid other : string) (ws : positive)
  (msg : inbound * readings) (sys : system) :
  other <> sid ->
  active_connections
    (manager (registry (snd (turn cfg eng sid ws msg sys)))) !! other
  = active_connections (manager (registry sys)) !! other.
Proof.
  intros Hne. unfold turn. destruct msg as [[[q|e]|e] t].
  - rewrite continue_or_fail_active_other by assumption.
    now apply serve_active_other.
  - destruct (isinstance e [JSONDecodeError; PydanticValidationError]);
      [| now apply on_failure_active_other].
    pose proof (send_error_active_other sid other
                  ("Invalid message format: " ++ str e)%string
                  "validation_error" (at_report t) sys Hne) as Hs.
    destruct (send_error _ _ _ _ _) as [r w].
    rewrite continue_or_fail_active_other by assumption. exact Hs.
  - now apply on_failure_active_other.
Qed.

Lemma message_loop_active_other (sid other : string) (ws : positive)
  (msgs : list (inbound * readings)) :
  other <> sid ->
  forall sys,
    active_connections
      (manager (registry (message_loop cfg eng sid ws msgs sys))) !! other
    = active_connections (manager (registry sys)) !! other.
Proof.
  intros Hne.
  induction msgs as [|msg rest IH]; intros sys; cbn [message_loop].
  - reflexivity.
  - pose proof (turn_active_other sid other ws msg sys Hne) as Ht.
    destruct (turn cfg eng sid ws msg sys) as [[|] sys1]; cbn [snd] in Ht.
    + now rewrite IH.
    + exact Ht.
Qed.

(** X9.  [websocket_endpoint] leaves no session behind.  For a newly
    drawn identifier, whatever the client sends and however the
    endpoint ends (the connection refused, the loop left by a
    disconnect or by an error, or the frames used up), afterwards the
    session is not live, [active_connections] is what it was before the
    endpoint ran, and the processing flag of the session is down. *)
Theorem websocket_endpoint_leaves_no_session (ws : positive)
  (new_id : string) (now : Z) (msgs : list (inbound * readings))
  (sys : system) :
  active_connections (manager (registry sys)) !! new_id = None ->
  flag new_id sys = false ->
  let sys' := websocket_endpoint cfg eng ws new_id now msgs sys in
  ~ live new_id (registry sys')
  /\ active_connections (manager (registry sys'))
     = active_connections (manager (registry sys))
  /\ flag new_id sys' = false.
Proof.
  intros Hfresh Hflag. cbn zeta.
  assert (Hact : active_connections
                   (manager (registry
                      (websocket_endpoint cfg eng ws new_id now msgs sys)))
                 = active_connections (manager (registry sys))
                 /\ flag new_id
                      (websocket_endpoint cfg eng ws new_id now msgs sys)
                    = false).
  { unfold websocket_endpoint.
    assert (Hother : forall other, other <> new_id ->
              active_connections
                (manager (snd (connect cfg ws new_id now (registry sys))))
                !! other
              = active_connections (manager (registry sys)) !! other)
      by (intros other Hne; now apply connect_active_other).
    pose proof (connect_raise_not_live ws new_id now (registry sys) Hfresh)
      as Hraise.
    pose proof (connect_processing new_id ws new_id now (registry sys) Hflag)
      as Hproc.
    assert (Hid : forall sid, fst (connect cfg ws new_id now (registry sys))
                              = Ok sid -> sid = new_id).
    { unfold connect.
      destruct (on_socket accept ws (socks (registry sys))) as [[[]|e] ss];
        [| discriminate].
      destruct (MAX_CONNECTIONS cfg <=? _).
      - destruct (on_socket (close 1013) ws ss) as [[u|e] ss']; discriminate.
      - destruct (_send_to_connection _ _ _ _) as [[u|e] w2];
          [| discriminate].
        intros sid [= <-]. reflexivity. }
    destruct (connect cfg ws new_id now (registry sys)) as [[sid|e] w].
    - rewrite (Hid sid eq_refl) in *. cbn [snd fst] in *. split.
      + apply map_eq. intros other. cbn. rewrite disconnect_active.
        destruct (decide (other = new_id)) as [->|Hne].
        * now rewrite lookup_delete_eq, Hfresh.
        * rewrite lookup_delete_ne by congruence.
          rewrite message_loop_active_other by assumption. cbn.
          now apply Hother.
      + unfold flag. cbn. apply disconnect_processing.
        apply (message_loop_flag cfg eng new_id ws msgs
                 (with_registry w sys)). exact Hproc.
    - cbn [snd fst is_ok] in *. split.
      + apply map_eq. intros other. cbn.
        destruct (decide (other = new_id)) as [->|Hne].
        * rewrite Hraise by reflexivity. now rewrite Hfresh.
        * now apply Hother.
      + exact Hproc. }
  destruct Hact as [Hact Hfl].
  split; [| split; assumption].
  unfold live. rewrite Hact, Hfresh. intros [x Hx]. discriminate.
Qed.

(** *** Failed queries *)

(** The errors the [try] block of [process_query] raises. *)
Lemma process_query_try_raises (q : UserQuery) (sid : string)
  (started finished : Z) (h : Callback.WebSocketCallbackHandler)
  (a : Agent.PCBuildAgentService) (ss : gmap positive WebSocket) (e : exn) :
  fst (Agent.process_query_try cfg eng q sid started finished h a ss)
  = Raise e ->
  (exn_cls e = ValidationError
   /\ In (exn_msg e) ["Query must be at least 3 characters long";
                      "Query cannot exceed 1000 characters";
                      "Query contains inappropriate content"])
  \/ exn_cls e = AgentError \/ exn_cls e = TimeoutError
  \/ exn_cls e = PydanticValidationError.
Proof.
  unfold Agent.process_query_try.
  destruct (Agent._validate_query q) as [[]|e0] eqn:Hv.
  - unfold Agent._create_agent.
    destruct (Agent.llm_error eng) as [e1|].
    { cbn. intros [= <-]. cbn. tauto. }
    destruct (Agent.init_error eng) as [e1|].
    { cbn. intros [= <-]. cbn. tauto. }
    destruct (Agent.engine_at_work _ _ _ _ _ _ _) as [[h2 a2] ss2].
    destruct (Agent.outcome (Agent.run eng (query q))) as [d|e1|];
      cbn [Agent.await_engine Agent._execute_agent].
    + destruct (Search.get_stats _) as [l s3]. unfold Agent.make_response.
      destruct (default _ _); cbn; intros [= <-]; cbn; tauto.
    + destruct (isinstance e1 [OutputParserException]).
      * destruct (Search.get_stats _) as [l s3]. unfold Agent.make_response.
        destruct (default _ _); cbn; intros [= <-]; cbn; tauto.
      * cbn. intros [= <-]. cbn. tauto.
    + cbn. intros [= <-]. cbn. tauto.
  - cbn. intros [= <-]. left. revert Hv. unfold Agent._validate_query.
    repeat match goal with
           | |- context [if ?b then _ else _] => destruct b
           end; intros [= <-]; cbn; tauto.
Qed.

(** X10.  The text of the failure report.  Whatever makes
    [process_user_query] raise (a rejected query, a defect of the
    engine, an over-long run, a malformed answer), the text that
    [_format_error_message] makes of the raised error, which the
    dispatch loop sends as its ERROR frame, is one of five fixed
    sentences.  (The frames the callbacks send during the run are
    another matter: [on_llm_error], [on_tool_error] and
    [on_chain_error] put the text of their error into their frame.) *)
Theorem failed_query_text_is_fixed (sid : string) (q : UserQuery)
  (ws : positive) (t : readings) (sys sys1 : system) (e : exn) :
  process_user_query cfg eng sid q ws t sys = (Raise e, sys1) ->
  In (_format_error_message e)
    ["Input validation error: Query must be at least 3 characters long";
     "Input validation error: Query cannot exceed 1000 characters";
     "Input validation error: Query contains inappropriate content";
     "Request timed out. Please try again with a more specific query.";
     "I encountered an issue processing your request. Please try rephrasing your question."]%string.
Proof.
  unfold process_user_query, Agent.process_query.
  pose proof (process_query_try_raises q sid (at_start t) (at_end t)
                (Callback.new ws (Some sid) (at_handler t)) (service sys)
                (socks (registry sys))) as Htry.
  destruct (Agent.process_query_try _ _ _ _ _ _ _ _ _)
    as [[resp|e0] [[h a] ss]]; cbn [fst] in Htry.
  - discriminate.
  - specialize (Htry e0 eq_refl).
    destruct e0 as [c m]. cbn [exn_cls exn_msg] in Htry.
    destruct Htry as [[-> Hm] | [-> | [-> | ->]]].
    + cbn. intros [= <- _]. cbn in Hm |- *.
      destruct Hm as [<- | [<- | [<- | []]]]; cbn; tauto.
    + cbn. intros [= <- _]. cbn. tauto.
    + cbn. intros [= <- _]. cbn. tauto.
    + cbn. intros [= <- _]. cbn. tauto.
Qed.

(** The [except] clause of [process_query] changes the error only. *)
Lemma process_query_state (q : UserQuery) (sid : string)
  (started finished : Z) (h : Callback.WebSocketCallbackHandler)
  (a : Agent.PCBuildAgentService) (ss : gmap positive WebSocket) :
  snd (Agent.process_query cfg eng q sid started finished h a ss)
  = snd (Agent.process_query_try cfg eng q sid started finished h a ss)
  /\ is_ok (fst (Agent.process_query cfg eng q sid started finished h a ss))
     = is_ok (fst (Agent.process_query_try cfg eng q sid started finished
                     h a ss)).
Proof.
  unfold Agent.process_query.
  destruct (Agent.process_query_try _ _ _ _ _ _ _ _ _) as [[resp|e] st].
  - split; reflexivity.
  - destruct (isinstance e _); split; reflexivity.
Qed.

(** What [process_query] does to the socket of its handler when the
    peer stays: the socket stays writable, frames are only added, and
    a run that returns has delivered one frame for each event that
    sends. *)
Lemma process_query_sockets (q : UserQuery) (sid : string)
  (started finished : Z) (h : Callback.WebSocketCallbackHandler)
  (a : Agent.PCBuildAgentService) (ss : gmap positive WebSocket)
  (w : WebSocket) :
  ss !! Callback.websocket h = Some w -> writable w = true ->
  let out := Agent.process_query cfg eng q sid started finished h a ss in
  exists w' new,
    snd (snd out) !! Callback.websocket h = Some w'
    /\ writable w' = true
    /\ sent w' = sent w ++ new
    /\ (is_ok (fst out) = true ->
        length new
        = length (List.filter (fun x => Callback.sends (fst x))
                    (Agent.events (Agent.run eng (query q))))).
Proof.
  intros Hw Hwr. cbn zeta.
  destruct (process_query_state q sid started finished h a ss) as [-> ->].
  assert (Hsame : exists w' new,
             ss !! Callback.websocket h = Some w' /\ writable w' = true
             /\ sent w' = sent w ++ new
             /\ (false = true ->
                 length new
                 = length (List.filter (fun x => Callback.sends (fst x))
                             (Agent.events (Agent.run eng (query q)))))).
  { exists w, []. rewrite app_nil_r. repeat split; auto. discriminate. }
  unfold Agent.process_query_try.
  destruct (Agent._validate_query q) as [[]|e0]; [| exact Hsame].
  destruct (Agent._create_agent eng sid a) as [[[]|e1] a1];
    [| exact Hsame].
  unfold Agent.engine_at_work.
  pose proof (emit_writable (Agent.events (Agent.run eng (query q))) h ss w
                Hw Hwr) as He. cbn zeta in He.
  destruct (Callback.emit _ h ss) as [[rs h1] ss1]. cbn [fst snd] in He.
  destruct He as (_ & _ & _ & w2 & new2 & G1 & G2 & G3 & G4).
  destruct (Agent.await_engine _) as [d|e2].
  - destruct (Search.get_stats _) as [l s3].
    destruct (Agent.make_response _ _ _) as [resp|e3];
      exists w2, new2; auto.
  - destruct (isinstance e2 [AsyncioTimeoutError]);
      exists w2, new2; auto.
Qed.

(** The same for [process_user_query]. *)
Lemma process_user_query_sockets (sid : string) (q : UserQuery)
  (ws : positive) (t : readings) (sys : system) (sock : WebSocket) :
  socks (registry sys) !! ws = Some sock -> writable sock = true ->
  let out := process_user_query cfg eng sid q ws t sys in
  exists sock' new,
    socks (registry (snd out)) !! ws = Some sock'
    /\ writable sock' = true
    /\ sent sock' = sent sock ++ new
    /\ (is_ok (fst out) = true ->
        length new
        = length (List.filter (fun x => Callback.sends (fst x))
                    (Agent.events (Agent.run eng (query q))))).
Proof.
  intros Hs Hwr. cbn zeta. unfold process_user_query.
  pose proof (process_query_sockets q sid (at_start t) (at_end t)
                (Callback.new ws (Some sid) (at_handler t)) (service sys)
                (socks (registry sys)) sock Hs Hwr) as H.
  cbn zeta in H.
  destruct (Agent.process_query _ _ _ _ _ _ _ _ _) as [r [[h a] ss]].
  cbn [fst snd] in H |- *.
  destruct H as (w' & new & H1 & H2 & H3 & H4).
  exists w', new. repeat split; auto.
  intros Hok. apply H4. now destruct r.
Qed.

Lemma writable_send (msg : WebSocketMessage) (sock : WebSocket) :
  writable sock = true ->
  send_text msg sock = (Ok tt, deliver msg None sock).
Proof.
  unfold writable, is_connected, send_text.
  destruct (application_state sock); try discriminate.
  destruct (peer_takes sock); [discriminate | reflexivity].
Qed.


(** X12.  The registry does not see what a query streams.
    [process_user_query] leaves the connection manager as it is, so
    neither [message_count] nor [last_activity] of the session records
    the frames of the run, although, over a socket whose peer stays, a
    run that returns has delivered one frame for each of its events
    that sends. *)
Theorem streamed_frames_bypass_registry (sid : string) (q : UserQuery)
  (ws : positive) (t : readings) (sys : system) (sock : WebSocket) :
  socks (registry sys) !! ws = Some sock ->
  writable sock = true ->
  let out := process_user_query cfg eng sid q ws t sys in
  get_connection_info sid (registry (snd out))
  = get_connection_info sid (registry sys)
  /\ manager (registry (snd out)) = manager (registry sys)
  /\ exists new,
       delivered ws (socks (registry (snd out))) = sent sock ++ new
       /\ (is_ok (fst out) = true ->
           length new
           = length (List.filter (fun x => Callback.sends (fst x))
                       (Agent.events (Agent.run eng (query q))))).
Proof.
  intros Hs Hwr. cbn zeta.
  pose proof (process_user_query_manager cfg eng sid q ws t sys) as Hm.
  pose proof (process_user_query_sockets sid q ws t sys sock Hs Hwr) as Hsock.
  cbn zeta in Hsock.
  destruct Hsock as (sock' & new & Hs' & _ & Hsent & Hlen).
  split; [| split].
  - unfold get_connection_info. now rewrite Hm.
  - exact Hm.
  - exists new. unfold delivered. rewrite Hs'. auto.
Qed.

(** X13.  Malformed frames neither reach the agent nor end the
    session.  A run of frames that fail to decode (as JSON, or as a
    [UserQuery]) leaves the agent service as it is; over a socket
    whose peer stays the loop answers each with one ERROR frame
    ["Invalid message format: ..."] of [error_type] validation_error,
    in order, and the session is still connected at the end. *)
Theorem malformed_frames_keep_session (sid : string) (ws : positive)
  (bad : list (exn * readings)) :
  Forall (fun m => isinstance (fst m)
                     [JSONDecodeError; PydanticValidationError] = true) bad ->
  forall (sys : system) (sock : WebSocket),
    active_connections (manager (registry sys)) !! sid = Some ws ->
    socks (registry sys) !! ws = Some sock ->
    writable sock = true ->
    let sys' :=
      message_loop cfg eng sid ws
        (map (fun m => (Received (Raise (fst m)), snd m)) bad) sys in
    service sys' = service sys
    /\ active_connections (manager (registry sys')) !! sid = Some ws
    /\ delivered ws (socks (registry sys'))
       = sent sock
         ++ map (fun m =>
                   {| type := ERROR;
                      content := ("Invalid message format: "
                                  ++ str (fst m))%string;
                      timestamp := at_report (snd m);
                      metadata :=
                        Some [("error_type", MStr "validation_error")] |})
              bad.
Proof.
  induction 1 as [|[e t] bad He _ IH]; intros sys sock Ha Hs Hwr; cbn zeta.
  - cbn. rewrite app_nil_r. unfold delivered. rewrite Hs. auto.
  - cbn [map message_loop turn fst snd] in *. rewrite He.
    unfold send_error.
    rewrite (send_to_connection_ok sid _ (at_report t) (registry sys) ws sock
               Ha Hs)
      by (rewrite writable_send by assumption; reflexivity).
    rewrite writable_send by assumption.
    cbn [continue_or_fail fst snd].
    match goal with
    | |- context [message_loop _ _ _ _ _ ?s1] =>
        specialize (IH s1 (deliver
          {| type := ERROR;
             content := ("Invalid message format: " ++ str e)%string;
             timestamp := at_report t;
             metadata := Some [("error_type", MStr "validation_error")] |}
          None sock))
    end.
    cbn zeta in IH.
    destruct IH as (I1 & I2 & I3);
      [exact Ha | cbn; apply lookup_insert_eq
      | revert Hwr; unfold writable, is_connected; cbn;
        destruct (peer_takes sock); [now rewrite andb_false_r | auto] |].
    split; [exact I1 |]. split; [exact I2 |].
    rewrite I3. cbn. now rewrite <- app_assoc.
Qed.

End MainMore.

(** ** More on the search tool: the rate limiter and [search_sync] *)

Section SearchMore.
Import Search.
Local Open Scope list_scope.

Variable cfg : Settings.

Lemma wait_if_needed_tool (s : state) :
  let s1 := snd (wait_if_needed s) in
  delay (rate_limiter (tool s1)) = delay (rate_limiter (tool s))
  /\ last_request (rate_limiter (tool s1)) = Some (clock s1)
  /\ spaced (delay (rate_limiter (tool s))) (since_last s [clock s1]).
Proof.
  cbn. repeat split. unfold since_last.
  destruct (last_request (rate_limiter (tool s))) as [t0|]; cbn; [| exact I].
  split; [| exact I].
  destruct (clock s - t0 <? delay (rate_limiter (tool s))) eqn:Hlt.
  - apply Z.ltb_lt in Hlt. lia.
  - apply Z.ltb_ge in Hlt. lia.
Qed.

(** An attempt leaves in the rate limiter the reading at which its
    search started. *)
Lemma search_attempt_tool (p : provider_call) (s : state) :
  tool (snd (search_attempt cfg p s)) = tool (snd (wait_if_needed s)).
Proof.
  unfold search_attempt.
  destruct (wait_if_needed s) as [slept s1]. cbn [snd].
  unfold wait_for.
  destruct (took p <=? timedelta_seconds (search_timeout cfg)).
  - destruct (_perform_search (answer p)) as [rs|e];
      [| destruct (isinstance e [AsyncioTimeoutError])]; reflexivity.
  - reflexivity.
Qed.

Lemma spaced_cons (d a : Z) (l : list Z) :
  spaced d (a :: l) <-> match l with
                        | [] => True
                        | b :: _ => a + d <= b /\ spaced d l
                        end.
Proof. destruct l; reflexivity. Qed.

Lemma spaced_app (d t : Z) (l1 l2 : list Z) :
  spaced d l1 -> last l1 = Some t -> spaced d (t :: l2) ->
  spaced d (l1 ++ l2).
Proof.
  revert t. induction l1 as [|a l1 IH]; intros t H1 Hl H2; [discriminate |].
  destruct l1 as [|b l1].
  - cbn in Hl. injection Hl as ->. exact H2.
  - cbn [app]. destruct H1 as [Hab H1]. split; [exact Hab |].
    apply (IH t); [exact H1 | | exact H2].
    now rewrite last_cons_cons in Hl.
Qed.

(** The attempts of a decorated call: each starts its search at least
    [delay] after the one before, and the rate limiter keeps the
    reading of the last one. *)
Lemma retrying_spaced (fuel : nat) (provider : Z -> provider_call) :
  forall (n : Z) (s : state),
    let out := retrying fuel cfg provider n s in
    spaced (delay (rate_limiter (tool s))) (since_last s (starts (snd out)))
    /\ delay (rate_limiter (tool (snd (fst out))))
       = delay (rate_limiter (tool s))
    /\ is_Some (last (starts (snd out)))
    /\ last_request (rate_limiter (tool (snd (fst out))))
       = last (starts (snd out)).
Proof.
  induction fuel as [|fuel IH]; intros n s; cbn zeta; cbn [retrying];
    pose proof (search_attempt_tool (provider n) s) as Htool;
    destruct (wait_if_needed_tool s) as (Hd & Hl & Hsp); cbn zeta in *;
    destruct (search_attempt cfg (provider n) s) as [r s1];
    cbn [snd] in Htool.
  - destruct r as [results|e];
      [| destruct (retry_if_exception_type [SearchError; RateLimitError] e);
         [destruct (stop_after_attempt max_attempts n) |]];
      cbn [fst snd starts flat_map app last]; rewrite Htool;
      (split; [exact Hsp | split; [exact Hd | split; [eauto | exact Hl]]]).
  - destruct r as [results|e];
      [| destruct (retry_if_exception_type [SearchError; RateLimitError] e);
         [destruct (stop_after_attempt max_attempts n) |]];
      try (cbn [fst snd starts flat_map app last]; rewrite Htool;
           (split; [exact Hsp | split; [exact Hd | split; [eauto | exact Hl]]])).
    specialize (IH (n + 1)
                  (sleep (timedelta_seconds (wait_exponential 1 4 10 n)) s1)).
    cbn zeta in IH.
    destruct (retrying fuel cfg provider (n + 1) _) as [[r' s3] steps].
    cbn [fst snd] in IH |- *.
    unfold since_last in IH.
    change (tool (sleep (timedelta_seconds (wait_exponential 1 4 10 n)) s1))
      with (tool s1) in IH.
    rewrite Htool in IH. rewrite Hd, Hl in IH.
    destruct IH as (I1 & I2 & I3 & I4).
    change (starts (Attempt n (clock (snd (wait_if_needed s))) (clock s1)
                      :: Backoff (wait_exponential 1 4 10 n) :: steps))
      with (clock (snd (wait_if_needed s)) :: starts steps).
    split; [| split; [exact I2 | split]].
    + unfold since_last in Hsp |- *.
      destruct (last_request (rate_limiter (tool s))) as [t0|].
      * cbn in Hsp. cbn [spaced]. split; [tauto | exact I1].
      * exact I1.
    + destruct I3 as [x Hx]. rewrite last_cons, Hx. eauto.
    + destruct I3 as [x Hx]. rewrite last_cons, Hx. now rewrite I4.
Qed.

(** X14.  The rate limiter spaces the searches.  Over two decorated
    calls of [search_async], with any idle time between them, every
    attempt (first attempts and retries alike) starts its search at
    least [delay] after the attempt before it, and the first at least
    [delay] after the search the rate limiter remembers, if any. *)
Theorem rate_limiter_spaces_searches (p1 p2 : Z -> provider_call)
  (idle : Z) (s : state) :
  let first := search_async cfg p1 s in
  let second := search_async cfg p2 (sleep idle (snd (fst first))) in
  spaced (delay (rate_limiter (tool s)))
    (since_last s (starts (snd first) ++ starts (snd second))).
Proof.
  cbn zeta. unfold search_async.
  destruct (retrying_spaced (Z.to_nat max_attempts) p1 1 s)
    as (H1 & Hd1 & [t Ht] & Hl1).
  destruct (retrying_spaced (Z.to_nat max_attempts) p2 1
              (sleep idle
                 (snd (fst (retrying (Z.to_nat max_attempts) cfg p1 1 s)))))
    as (H2 & _).
  cbn zeta in *.
  unfold since_last in H2.
  change (tool (sleep idle
                  (snd (fst (retrying (Z.to_nat max_attempts) cfg p1 1 s)))))
    with (tool (snd (fst (retrying (Z.to_nat max_attempts) cfg p1 1 s))))
    in H2.
  rewrite Hd1, Hl1, Ht in H2.
  unfold since_last in H1 |- *.
  destruct (last_request (rate_limiter (tool s))) as [t0|].
  - change (t0 :: starts (snd (retrying (Z.to_nat max_attempts) cfg p1 1 s))
              ++ starts (snd (retrying (Z.to_nat max_attempts) cfg p2 1
                   (sleep idle
                      (snd (fst (retrying (Z.to_nat max_attempts) cfg p1 1
                                   s)))))))
      with ((t0 :: starts (snd (retrying (Z.to_nat max_attempts) cfg p1 1 s)))
              ++ starts (snd (retrying (Z.to_nat max_attempts) cfg p2 1
                   (sleep idle
                      (snd (fst (retrying (Z.to_nat max_attempts) cfg p1 1
                                   s))))))).
    apply (spaced_app _ t); [exact H1 | | exact H2].
    rewrite last_cons. now rewrite Ht.
  - apply (spaced_app _ t); [exact H1 | exact Ht | exact H2].
Qed.

(** *** [search_sync] *)

Lemma startswith_app (p rest : string) :
  Text.startswith p (p ++ rest)%string = true.
Proof.
  induction p as [|a p IH]; [reflexivity |].
  change (Ascii.eqb a a && Text.startswith p (p ++ rest)%string = true).
  now rewrite Ascii.eqb_refl, IH.
Qed.

(** X15.  [search_sync] and the statistics.  A call of [search_sync]
    on a tool whose counters are consistent leaves them consistent and
    makes one to three attempts; a text that does not start with
    "Search failed: " stands for exactly one more successful search. *)
Theorem search_sync_accounting (provider : Z -> provider_call)
  (loop_is_running : bool) (s : state) :
  allocated s -> stats_consistent (stats s) ->
  let out := search_sync cfg provider loop_is_running s in
  stats_consistent (stats (snd out))
  /\ total_searches (stats s) + 1 <= total_searches (stats (snd out))
     <= total_searches (stats s) + 3
  /\ (Text.startswith "Search failed: " (fst out) = false ->
      successful_searches (stats (snd out))
      = successful_searches (stats s) + 1).
Proof.
  intros Ha Hc. cbn zeta. unfold search_sync, search_async.
  destruct (retrying_counts cfg (Z.to_nat max_attempts) provider 1 s Ha Hc)
    as (_ & Hc' & _ & Ht).
  destruct (retrying_successful cfg (Z.to_nat max_attempts) provider 1 s Ha)
    as (Hsucc & Hlen).
  cbn zeta in *.
  destruct (retrying (Z.to_nat max_attempts) cfg provider 1 s)
    as [[r s'] steps].
  cbn [fst snd] in *.
  assert (Hstate : forall text : string,
             stats_consistent (stats (snd (text, s')))
             /\ total_searches (stats s) + 1
                <= total_searches (stats (snd (text, s')))
                <= total_searches (stats s) + 3).
  { intros text. cbn [snd]. split; [exact Hc' |].
    unfold max_attempts in Hlen. lia. }
  destruct (loop_is_running && _).
  - cbn [str exn_msg]. destruct (Hstate ("Search failed: " ++ "")%string)
      as [H1 H2].
    split; [exact H1 | split; [exact H2 |]].
    cbn. discriminate.
  - destruct r as [[|x results]|e].
    + destruct (Hstate "No search results found."%string) as [H1 H2].
      split; [exact H1 | split; [exact H2 |]].
      intros _. cbn [snd]. rewrite Hsucc. reflexivity.
    + split; [exact Hc' | split; [unfold max_attempts in Hlen; cbn; lia |]].
      intros _. cbn [snd]. rewrite Hsucc. reflexivity.
    + split; [exact Hc' | split; [unfold max_attempts in Hlen; cbn; lia |]].
      cbn [fst]. rewrite startswith_app. discriminate.
Qed.

End SearchMore.

(** ** More on the agent service: the conversation memory and the
    response *)

Section AgentMemory.
Import Agent.
Local Open Scope list_scope.

Lemma fold_delete_lookup {A} (l : list string) :
  forall (m : gmap string A) (sid : string),
    fold_left (fun m sid => delete sid m) l m !! sid
    = if bool_decide (sid ∈ l) then None else m !! sid.
Proof.
  induction l as [|a l IH]; intros m sid; cbn [fold_left].
  - rewrite bool_decide_eq_false_2; [reflexivity | apply not_elem_of_nil].
  - rewrite IH. destruct (decide (sid ∈ l)) as [Hin|Hnin].
    + rewrite !bool_decide_eq_true_2; [reflexivity | | assumption].
      now apply elem_of_cons; right.
    + rewrite (bool_decide_eq_false_2 _ Hnin).
      destruct (decide (sid = a)) as [->|Hne].
      * rewrite lookup_delete_eq.
        rewrite bool_decide_eq_true_2; [reflexivity |].
        apply elem_of_cons; now left.
      * rewrite lookup_delete_ne by congruence.
        rewrite bool_decide_eq_false_2; [reflexivity |].
        intros [?|?]%elem_of_cons; contradiction.
Qed.

Lemma fold_delete_size {A} (l : list string) :
  forall m : gmap string A,
    NoDup l -> (forall sid, sid ∈ l -> is_Some (m !! sid)) ->
    (size (fold_left (fun m sid => delete sid m) l m) + length l = size m)%nat.
Proof.
  induction l as [|a l IH]; intros m Hnd Hin; cbn [fold_left length].
  - lia.
  - apply NoDup_cons in Hnd as [Ha Hnd].
    rewrite Nat.add_succ_r, IH.
    + rewrite map_size_delete_Some
        by (apply Hin, elem_of_cons; now left).
      assert (size m <> 0%nat).
      { intros H0. apply map_size_empty_iff in H0. subst m.
        destruct (Hin a) as [x Hx]; [apply elem_of_cons; now left |].
        now rewrite lookup_empty in Hx. }
      lia.
    + exact Hnd.
    + intros sid Hs. rewrite lookup_delete_ne by (intros ->; contradiction).
      apply Hin, elem_of_cons. now right.
Qed.

Lemma lists_keys_length (keys : list string) (a : PCBuildAgentService) :
  lists_keys keys a -> length keys = size (_memory_cache a).
Proof.
  intros [Hnd Hin].
  rewrite <- length_map_to_list, <- (length_fmap fst).
  apply Permutation_length, NoDup_Permutation.
  - exact Hnd.
  - apply NoDup_fst_map_to_list.
  - intros sid. rewrite Hin. split.
    + intros [x Hx]. apply list_elem_of_fmap. exists (sid, x).
      split; [reflexivity | now apply elem_of_map_to_list].
    + intros [[k x] [-> Hx]]%list_elem_of_fmap.
      apply elem_of_map_to_list in Hx. cbn. eauto.
Qed.

(** X16.  [cleanup_old_sessions] is a size cap, not an age limit.
    With at most 100 sessions nothing is removed.  With more, exactly
    the 50 first keys of the dictionary go, whatever their age, and
    the other sessions stay as they are; so more than 100 sessions can
    remain. *)
Theorem cleanup_old_sessions_removes_fifty (keys : list string)
  (a : PCBuildAgentService) :
  lists_keys keys a ->
  let a' := cleanup_old_sessions keys a in
  ((size (_memory_cache a) <= 100)%nat -> a' = a)
  /\ ((100 < size (_memory_cache a))%nat ->
      (size (_memory_cache a') = size (_memory_cache a) - 50)%nat
      /\ forall sid,
           _memory_cache a' !! sid
           = if bool_decide (sid ∈ take 50 keys) then None
             else _memory_cache a !! sid)
  /\ search_tool a' = search_tool a
  /\ engine_calls a' = engine_calls a.
Proof.
  intros Hk. pose proof (lists_keys_length keys a Hk) as Hlen.
  destruct Hk as [Hnd Hin]. cbn zeta. unfold cleanup_old_sessions.
  destruct (100 <? Z.of_nat (size (_memory_cache a))) eqn:Hbig.
  - apply Z.ltb_lt in Hbig. split; [lia |]. split; [| split; reflexivity].
    intros _. cbn [_memory_cache with_memory]. split.
    + pose proof (fold_delete_size (take 50 keys) (_memory_cache a)) as Hs.
      rewrite length_take_le in Hs by lia.
      rewrite <- Hs; [lia | |].
      * apply (sublist_NoDup _ keys); [exact Hnd | apply sublist_take].
      * intros sid Hs'. apply Hin.
        apply elem_of_take in Hs' as (i & Hi & _).
        now apply list_elem_of_lookup_2 in Hi.
    + intros sid. apply fold_delete_lookup.
  - apply Z.ltb_ge in Hbig. split; [reflexivity |].
    split; [lia | split; reflexivity].
Qed.

(** X17.  [clear_memory] and [get_memory_stats].  Clearing a session
    that has a memory takes one from ["active_sessions"] and the
    number of its messages from ["total_messages"]; clearing a
    session without memory changes nothing; the memory of every other
    session stays as it is. *)
Theorem clear_memory_updates_stats (sid : string) (a : PCBuildAgentService) :
  let a' := clear_memory sid a in
  _memory_cache a' !! sid = None
  /\ (forall other, other <> sid ->
        _memory_cache a' !! other = _memory_cache a !! other)
  /\ match _memory_cache a !! sid with
     | Some turns =>
         fst (get_memory_stats a') = fst (get_memory_stats a) - 1
         /\ snd (get_memory_stats a')
            = snd (get_memory_stats a) - Z.of_nat (length turns)
     | None => a' = a
     end.
Proof.
  cbn zeta. unfold clear_memory.
  destruct (_memory_cache a !! sid) as [turns|] eqn:Hs.
  - cbn [_memory_cache with_memory]. split; [apply lookup_delete_eq |].
    split; [intros other Hne; now apply lookup_delete_ne |].
    unfold get_memory_stats. cbn [fst snd _memory_cache with_memory].
    pose proof (map_to_list_delete (_memory_cache a) sid turns Hs) as Hp.
    split.
    + rewrite map_size_delete_Some by eauto.
      assert (size (_memory_cache a) <> 0%nat).
      { intros H0. apply map_size_empty_iff in H0. rewrite H0 in Hs.
        now rewrite lookup_empty in Hs. }
      lia.
    + rewrite <- (sum_list_with_Permutation_proper _ _ _ Hp). cbn. lia.
  - split; [exact Hs | split; reflexivity].
Qed.

Variable cfg : Settings.
Variable eng : engine.

(** [_get_or_create_memory] adds an empty memory for a session
    without one, and nothing else. *)
Lemma get_or_create_memory_lookup (sid : string) (a : PCBuildAgentService) :
  (forall other, other <> sid ->
     _memory_cache (_get_or_create_memory sid a) !! other
     = _memory_cache a !! other)
  /\ _memory_cache (_get_or_create_memory sid a) !! sid
     = Some (default [] (_memory_cache a !! sid)).
Proof.
  unfold _get_or_create_memory.
  destruct (_memory_cache a !! sid) as [turns|] eqn:Hs; cbn.
  - split; [reflexivity | exact Hs].
  - split; [intros other Hne; now apply lookup_insert_ne
           | apply lookup_insert_eq].
Qed.

(** The conversation memory after [process_query]: it is untouched (the
    query was rejected, or the language model could not be built), or
    the session has got its memory (the agent could not be built), or
    the turns of the run have been added to the memory of the session;
    a response is returned in the last case only. *)
Lemma process_query_cache (q : UserQuery) (sid : string)
  (started finished : Z) (h : Callback.WebSocketCallbackHandler)
  (a : PCBuildAgentService) (ss : gmap positive WebSocket) :
  let out := process_query cfg eng q sid started finished h a ss in
  let m' := _memory_cache (snd (fst (snd out))) in
  (m' = _memory_cache a /\ is_ok (fst out) = false)
  \/ (m' = _memory_cache (_get_or_create_memory sid a)
      /\ is_ok (fst out) = false)
  \/ m' = alter (fun turns => turns ++ remembered (run eng (query q))) sid
            (_memory_cache (_get_or_create_memory sid a)).
Proof.
  cbn zeta.
  destruct (process_query_state cfg eng q sid started finished h a ss)
    as [-> ->].
  unfold process_query_try.
  destruct (_validate_query q) as [[]|e0]; [| left; split; reflexivity].
  unfold _create_agent.
  destruct (llm_error eng) as [e1|]; [left; split; reflexivity |].
  destruct (init_error eng) as [e1|]; [right; left; split; reflexivity |].
  unfold engine_at_work.
  destruct (Callback.emit _ h ss) as [[rs h1] ss1].
  right; right.
  destruct (await_engine _) as [d|e2].
  - destruct (Search.get_stats _) as [l s3].
    destruct (make_response _ _ _) as [resp|e3]; reflexivity.
  - destruct (isinstance e2 [AsyncioTimeoutError]); reflexivity.
Qed.

(** X18.  The sessions' memories are kept apart.  A query of session
    [sid], however it ends, leaves the memory of every other session
    as it is and never removes the memory of [sid]; when it returns a
    response, the memory of [sid] is what it was (empty for a new
    session) followed by the turns of this run. *)
Theorem query_touches_own_memory_only (q : UserQuery) (sid : string)
  (started finished : Z) (h : Callback.WebSocketCallbackHandler)
  (a : PCBuildAgentService) (ss : gmap positive WebSocket) :
  let out := process_query cfg eng q sid started finished h a ss in
  let a' := snd (fst (snd out)) in
  (forall other, other <> sid ->
     _memory_cache a' !! other = _memory_cache a !! other)
  /\ (is_Some (_memory_cache a !! sid) -> is_Some (_memory_cache a' !! sid))
  /\ (is_ok (fst out) = true ->
      _memory_cache a' !! sid
      = Some (default [] (_memory_cache a !! sid)
              ++ remembered (run eng (query q)))).
Proof.
  cbn zeta.
  destruct (get_or_create_memory_lookup sid a) as [Hother Hsid].
  destruct (process_query_cache q sid started finished h a ss)
    as [[-> Hko] | [[-> Hko] | ->]].
  - rewrite Hko. split; [auto | split; [auto | discriminate]].
  - rewrite Hko. split; [exact Hother | split; [| discriminate]].
    intros _. rewrite Hsid. eauto.
  - split; [| split].
    + intros other Hne. rewrite lookup_alter_ne by congruence.
      now apply Hother.
    + intros _. rewrite lookup_alter_eq, Hsid. cbn. eauto.
    + intros _. rewrite lookup_alter_eq, Hsid. reflexivity.
Qed.

End AgentMemory.

(** ** The agent service behind the endpoint *)

Section ServiceMore.
Import Registry Main.
Local Open Scope list_scope.

Variable cfg : Settings.
Variable eng : Agent.engine.

Lemma process_user_query_memory (sid : string) (q : UserQuery)
  (ws : positive) (t : readings) (sys : system) :
  dom (Agent._memory_cache (service sys))
  ⊆ dom (Agent._memory_cache
           (service (snd (process_user_query cfg eng sid q ws t sys)))).
Proof.
  unfold process_user_query.
  pose proof (process_query_cache cfg eng q sid (at_start t) (at_end t)
                (Callback.new ws (Some sid) (at_handler t)) (service sys)
                (socks (registry sys))) as H.
  cbn zeta in H.
  destruct (Agent.process_query _ _ _ _ _ _ _ _ _) as [r [[h a] ss]].
  cbn [fst snd service] in *.
  assert (Hget : dom (Agent._memory_cache (service sys))
                 ⊆ dom (Agent._memory_cache
                          (Agent._get_or_create_memory sid (service sys)))).
  { unfold Agent._get_or_create_memory.
    destruct (Agent._memory_cache (service sys) !! sid); [reflexivity |].
    cbn. rewrite dom_insert_L. apply union_subseteq_r. }
  destruct H as [[-> _] | [[-> _] | ->]].
  - reflexivity.
  - exact Hget.
  - now rewrite dom_alter_L.
Qed.

Lemma on_failure_service (sid : string) (t : readings) (e : exn)
  (sys : system) :
  service (snd (on_failure sid t e sys)) = service sys.
Proof.
  unfold on_failure.
  destruct (isinstance e [WebSocketDisconnect]); [reflexivity |].
  destruct (isinstance e [ConnectionError]); [reflexivity |].
  destruct (send_error _ _ _ _ _) as [r w]. reflexivity.
Qed.

Lemma continue_or_fail_service (sid : string) (t : readings)
  (r : result unit * system) :
  service (snd (continue_or_fail sid t r)) = service (snd r).
Proof.
  destruct r as [[u|e] sys]; cbn [continue_or_fail snd];
    [reflexivity | apply on_failure_service].
Qed.

Lemma serve_memory (sid : string) (q : UserQuery) (ws : positive)
  (t : readings) (sys : system) :
  dom (Agent._memory_cache (service sys))
  ⊆ dom (Agent._memory_cache (service (snd (serve cfg eng sid q ws t sys)))).
Proof.
  unfold serve. destruct (is_processing sid (registry sys)).
  - destruct (send_error _ _ _ _ _) as [r w]. reflexivity.
  - pose proof (process_user_query_memory sid q ws t (marked sid sys)) as H.
    unfold unmark, report.
    destruct (process_user_query cfg eng sid q ws t (marked sid sys))
      as [[u|e] sys1]; cbn [snd] in H.
    + exact H.
    + destruct (send_error _ _ _ _ _) as [r w]. exact H.
Qed.

Lemma turn_memory (sid : string) (ws : positive) (msg : inbound * readings)
  (sys : system) :
  dom (Agent._memory_cache (service sys))
  ⊆ dom (Agent._memory_cache (service (snd (turn cfg eng sid ws msg sys)))).
Proof.
  unfold turn. destruct msg as [[[q|e]|e] t].
  - rewrite continue_or_fail_service. apply serve_memory.
  - destruct (isinstance e [JSONDecodeError; PydanticValidationError]).
    + destruct (send_error _ _ _ _ _) as [r w].
      rewrite continue_or_fail_service. reflexivity.
    + now rewrite on_failure_service.
  - now rewrite on_failure_service.
Qed.

Lemma message_loop_memory (sid : string) (ws : positive)
  (msgs : list (inbound * readings)) :
  forall sys,
    dom (Agent._memory_cache (service sys))
    ⊆ dom (Agent._memory_cache
             (service (message_loop cfg eng sid ws msgs sys))).
Proof.
  induction msgs as [|msg rest IH]; intros sys; cbn [message_loop].
  - reflexivity.
  - pose proof (turn_memory sid ws msg sys) as Ht.
    destruct (turn cfg eng sid ws msg sys) as [[|] sys1]; cbn [snd] in Ht.
    + etransitivity; [exact Ht | apply IH].
    + exact Ht.
Qed.

(** X19.  The endpoint never frees conversation memory.  Over the whole
    life of a connection (admission, any frames, the disconnect at the
    end) every session that had a memory still has one: the memory of
    a session outlives its connection. *)
Theorem endpoint_keeps_every_memory (ws : positive) (new_id : string)
  (now : Z) (msgs : list (inbound * readings)) (sys : system) :
  dom (Agent._memory_cache (service sys))
  ⊆ dom (Agent._memory_cache
           (service (websocket_endpoint cfg eng ws new_id now msgs sys))).
Proof.
  unfold websocket_endpoint.
  destruct (connect cfg ws new_id now (registry sys)) as [[sid|e] w].
  - cbn [service with_registry].
    apply (message_loop_memory sid ws msgs (with_registry w sys)).
  - reflexivity.
Qed.

Lemma stats_get_stats (s : Search.state) :
  Search.allocated s ->
  Search.stats (snd (Search.get_stats s)) = Search.stats s.
Proof.
  intros Ha. unfold Search.get_stats, Search.stats.
  cbn [fst snd Search.objects Search.tool].
  rewrite lookup_insert_ne; [reflexivity |].
  intros Heq. apply (is_fresh (dom (Search.objects s))).
  rewrite Heq. now apply elem_of_dom.
Qed.

Lemma process_query_ok (q : UserQuery) (sid : string)
  (started finished : Z) (h : Callback.WebSocketCallbackHandler)
  (a : Agent.PCBuildAgentService) (ss : gmap positive WebSocket)
  (resp : AgentResponse) :
  fst (Agent.process_query cfg eng q sid started finished h a ss) = Ok resp ->
  fst (Agent.process_query_try cfg eng q sid started finished h a ss)
  = Ok resp.
Proof.
  unfold Agent.process_query.
  destruct (Agent.process_query_try _ _ _ _ _ _ _ _ _) as [[r|e] st].
  - intros H. exact H.
  - destruct (isinstance e _); discriminate.
Qed.

(** X20.  What a response reports.  When [process_query] returns a
    response, its [processing_time] is the difference of the two clock
    readings, [tokens_used] is not set, and [search_results_count] is
    the number of successful searches the tool has counted since it
    was created (so at least the count before the query), not the
    number of results of this query. *)
Theorem response_reports_cumulative_searches (q : UserQuery) (sid : string)
  (started finished : Z) (h : Callback.WebSocketCallbackHandler)
  (a : Agent.PCBuildAgentService) (ss : gmap positive WebSocket)
  (resp : AgentResponse) :
  Search.allocated (Agent.search_tool a) ->
  Search.stats_consistent (Search.stats (Agent.search_tool a)) ->
  let out := Agent.process_query cfg eng q sid started finished h a ss in
  fst out = Ok resp ->
  processing_time resp = Some (finished - started)
  /\ tokens_used resp = None
  /\ search_results_count resp
     = Some (Search.successful_searches
               (Search.stats
                  (Agent.run_searches cfg
                     (Agent.searches (Agent.run eng (query q)))
                     (Agent.search_tool a))))
  /\ search_results_count resp
     = Some (Search.successful_searches
               (Search.stats (Agent.search_tool (snd (fst (snd out))))))
  /\ Search.successful_searches (Search.stats (Agent.search_tool a))
     <= Search.successful_searches
          (Search.stats (Agent.search_tool (snd (fst (snd out))))).
Proof.
  intros Ha Hc. cbn zeta.
  destruct (run_searches_counts cfg
              (Agent.searches (Agent.run eng (query q)))
              (Agent.search_tool a) Ha Hc) as (Ha2 & _ & (_ & Hle & _)).
  pose proof (stats_get_stats _ Ha2) as Hcopy.
  destruct (process_query_state cfg eng q sid started finished h a ss)
    as [-> _].
  intros Hok. apply process_query_ok in Hok. revert Hok.
  unfold Agent.process_query_try.
  destruct (Agent._validate_query q) as [[]|e0]; [| discriminate].
  unfold Agent._create_agent.
  destruct (Agent.llm_error eng) as [e1|]; [discriminate |].
  destruct (Agent.init_error eng) as [e1|]; [discriminate |].
  unfold Agent.engine_at_work.
  destruct (Callback.emit _ h ss) as [[rs h1] ss1].
  destruct (Agent.await_engine _) as [d|e2].
  - cbn [Agent.search_tool Agent.record_call Agent.with_memory
         Agent.with_search] in *.
    replace (Agent.search_tool (Agent._get_or_create_memory sid a))
      with (Agent.search_tool a)
      by (unfold Agent._get_or_create_memory;
          destruct (Agent._memory_cache a !! sid); reflexivity).
    destruct (Search.get_stats _) as [l s3]. cbn [snd] in Hcopy.
    unfold Agent.make_response.
    destruct (default _ _) as [text|n|]; cbn [fst snd]; try discriminate.
    intros [= <-].
    cbn [processing_time tokens_used search_results_count
         Agent.search_tool Agent.with_search].
    rewrite Hcopy. repeat split; lia.
  - destruct (isinstance e2 [AsyncioTimeoutError]); discriminate.
Qed.

(** X21.  What [UserQuery] lets through.  A query that is accepted
    holds the stripped text, of 1 to 1000 characters, and the session
    identifier as given; so the check of [_validate_query] for more
    than 1000 characters never fires on a decoded query. *)
Theorem accepted_query_is_stripped_and_bounded (raw : string)
  (sid : option string) (q : UserQuery) :
  new_UserQuery raw sid = Ok q ->
  query q = Text.strip raw
  /\ uq_session_id q = sid
  /\ 1 <= Text.len (query q) <= 1000
  /\ Agent._validate_query q
     <> Raise (Exn ValidationError "Query cannot exceed 1000 characters").
Proof.
  unfold new_UserQuery, validate_query.
  destruct (Text.len raw <? 1) eqn:H1; [discriminate |].
  destruct (1000 <? Text.len raw) eqn:H2; [discriminate |].
  destruct (String.eqb raw "" || String.eqb (Text.strip raw) "") eqn:H3;
    [discriminate |].
  intros [= <-]. cbn [query uq_session_id].
  apply Z.ltb_ge in H2. apply orb_false_elim in H3 as [_ H3].
  pose proof (len_strip_le raw) as Hle.
  assert (Hpos : 1 <= Text.len (Text.strip raw)).
  { unfold Text.len. destruct (Text.strip raw); [discriminate | cbn; lia]. }
  split; [reflexivity | split; [reflexivity | split; [lia |]]].
  unfold Agent._validate_query. cbn [query].
  destruct (_ || _); [discriminate |].
  destruct (1000 <? Text.len (Text.strip raw)) eqn:H4;
    [apply Z.ltb_lt in H4; lia |].
  destruct (existsb _ _); discriminate.
Qed.

End ServiceMore.

(** ** The theorems above at concrete inputs *)

Lemma one_session_well_formed (ws : WebSocket) (last : Z) :
  Registry.well_formed (Sample.one_session ws last).
Proof.
  split.
  - cbn. now rewrite !dom_singleton_L.
  - intros sid r H. cbn in H |- *.
    apply lookup_singleton_Some in H as [_ <-].
    unfold Sample.one_socket. rewrite lookup_singleton_eq. eauto.
Qed.

Lemma second_arrives_well_formed (ws : WebSocket) (last : Z) :
  Registry.well_formed (Sample.second_arrives ws last).
Proof.
  split.
  - cbn. now rewrite !dom_singleton_L.
  - intros sid r H. cbn in H |- *.
    apply lookup_singleton_Some in H as [_ <-].
    rewrite lookup_insert_ne by discriminate.
    unfold Sample.one_socket. rewrite lookup_singleton_eq. eauto.
Qed.

(** A second client is admitted, and the first session is
    disconnected, on a well-formed registry. *)
Lemma registry_stays_well_formed_witness :
  Registry.well_formed (Sample.second_arrives Sample.open_socket 0)
  /\ fst (Registry.connect default_settings 2%positive "s2" 5
            (Sample.second_arrives Sample.open_socket 0))
     = Ok "s2"
  /\ Registry.well_formed
       (snd (Registry.connect default_settings 2%positive "s2" 5
               (Sample.second_arrives Sample.open_socket 0)))
  /\ fst (Registry.disconnect "s1"
            (Sample.second_arrives Sample.open_socket 0))
     = Ok tt
  /\ Registry.well_formed
       (snd (Registry.disconnect "s1"
               (Sample.second_arrives Sample.open_socket 0))).
Proof.
  pose proof (second_arrives_well_formed Sample.open_socket 0) as Hwf.
  split; [exact Hwf |]. split; [vm_compute; reflexivity |].
  pose proof (registry_stays_well_formed default_settings
                (Sample.second_arrives Sample.open_socket 0) Hwf)
    as (Hc & Hd & _).
  split; [exact (Hc 2%positive "s2" 5) | exact (Hd "s1")].
Defined.

(** The second client is admitted: two sessions are live, within the
    capacity of 100. *)
Lemma live_sessions_within_capacity_witness :
  Registry.live_count (Sample.second_arrives Sample.open_socket 0)
  <= Registry.MAX_CONNECTIONS default_settings
  /\ fst (Registry.connect default_settings 2%positive "s2" 5
            (Sample.second_arrives Sample.open_socket 0))
     = Ok "s2"
  /\ Registry.live_count
       (snd (Registry.connect default_settings 2%positive "s2" 5
               (Sample.second_arrives Sample.open_socket 0)))
     = 2
  /\ Registry.live_count
       (snd (Registry.connect default_settings 2%positive "s2" 5
               (Sample.second_arrives Sample.open_socket 0)))
     <= Registry.MAX_CONNECTIONS default_settings.
Proof.
  assert (H : Registry.live_count
                (Sample.second_arrives Sample.open_socket 0)
              <= Registry.MAX_CONNECTIONS default_settings)
    by (vm_compute; discriminate).
  split; [exact H |]. split; [vm_compute; reflexivity |].
  split; [vm_compute; reflexivity |].
  exact (proj1 (live_sessions_within_capacity default_settings
                  (Sample.second_arrives Sample.open_socket 0) H)
           2%positive "s2" 5).
Defined.

Lemma send_to_connection_delivers_witness :
  Registry.active_connections
    (Registry.manager (Sample.one_session Sample.open_socket 0)) !! "s1"
  = Some 1%positive
  /\ Registry.socks (Sample.one_session Sample.open_socket 0) !! 1%positive
     = Some Sample.open_socket
  /\ Registry.connection_info
       (Registry.manager (Sample.one_session Sample.open_socket 0)) !! "s1"
     = Some Sample.info1
  /\ takes_next Sample.open_socket = true
  /\ delivered 1%positive
       (Registry.socks
          (snd (Registry._send_to_connection "s1"
                  {| type := LOG; content := "hello"; timestamp := 7;
                     metadata := None |}
                  7 (Sample.one_session Sample.open_socket 0))))
     = (sent Sample.open_socket
        ++ [{| type := LOG; content := "hello"; timestamp := 7;
               metadata := None |}])%list.
Proof.
  do 4 (split; [reflexivity |]).
  exact (proj1 (proj2 (send_to_connection_delivers "s1"
                         {| type := LOG; content := "hello"; timestamp := 7;
                            metadata := None |}
                         7 (Sample.one_session Sample.open_socket 0)
                         1%positive Sample.open_socket Sample.info1
                         eq_refl eq_refl eq_refl eq_refl))).
Defined.

Lemma failed_send_disconnects_witness :
  Registry.well_formed (Sample.one_session Sample.dead_socket 0)
  /\ Registry.active_connections
       (Registry.manager (Sample.one_session Sample.dead_socket 0)) !! "s1"
     = Some 1%positive
  /\ Registry.socks (Sample.one_session Sample.dead_socket 0) !! 1%positive
     = Some Sample.dead_socket
  /\ takes_next Sample.dead_socket = false
  /\ ~ Registry.live "s1"
         (snd (Registry._send_to_connection "s1"
                 {| type := LOG; content := "hello"; timestamp := 7;
                    metadata := None |}
                 7 (Sample.one_session Sample.dead_socket 0))).
Proof.
  pose proof (one_session_well_formed Sample.dead_socket 0) as Hwf.
  split; [exact Hwf |]. do 3 (split; [reflexivity |]).
  exact (proj1 (proj2 (proj2 (failed_send_disconnects "s1"
                                {| type := LOG; content := "hello";
                                   timestamp := 7; metadata := None |}
                                7 (Sample.one_session Sample.dead_socket 0)
                                Hwf)
                         1%positive Sample.dead_socket
                         eq_refl eq_refl eq_refl))).
Defined.

Lemma heartbeat_task_follows_sessions_witness :
  Registry.well_formed (Sample.one_session Sample.open_socket 0)
  /\ Registry.heartbeat_consistent (Sample.one_session Sample.open_socket 0)
  /\ Registry.heartbeat_consistent
       (snd (Registry.disconnect "s1"
               (Sample.one_session Sample.open_socket 0))).
Proof.
  pose proof (one_session_well_formed Sample.open_socket 0) as Hwf.
  assert (Hh : Registry.heartbeat_consistent
                 (Sample.one_session Sample.open_socket 0))
    by (split; [reflexivity | vm_compute; reflexivity]).
  split; [exact Hwf | split; [exact Hh |]].
  exact (proj1 (proj2 (heartbeat_task_follows_sessions default_settings
                         (Sample.one_session Sample.open_socket 0) Hwf Hh))
           "s1").
Defined.

(** A run in which [on_llm_end] raises once: three frames are
    delivered and counted all the same. *)
Lemma message_count_counts_delivered_witness :
  is_Some (Sample.one_socket Sample.open_socket
             !! Callback.websocket Sample.handler1)
  /\ length (List.filter Callback.attribute_error
               (fst (fst (Callback.emit Sample.run_without_usage
                            Sample.handler1
                            (Sample.one_socket Sample.open_socket)))))
     = length (List.filter (fun x => Callback.crashes (fst x))
                 Sample.run_without_usage)
  /\ Callback.message_count
       (snd (fst (Callback.emit Sample.run_without_usage Sample.handler1
                    (Sample.one_socket Sample.open_socket))))
     = 3.
Proof.
  assert (H : is_Some (Sample.one_socket Sample.open_socket
                         !! Callback.websocket Sample.handler1))
    by (eexists; reflexivity).
  split; [exact H |].
  split; [| vm_compute; reflexivity].
  exact (proj1 (proj2 (proj2 (proj2 (proj2
           (message_count_counts_delivered Sample.run_without_usage
              Sample.handler1 (Sample.one_socket Sample.open_socket) H)))))).
Defined.

Lemma final_frame_reports_run_witness :
  writable_at (Callback.websocket Sample.handler1)
    (Sample.one_socket Sample.open_socket) = true
  /\ last (delivered (Callback.websocket Sample.handler1)
             (snd (Callback.emit
                     ([(Callback.LLMStart, 10); (Callback.LLMEnd None, 20)]
                      ++ [(Callback.AgentFinish (Some "Buy it."), 40)])%list
                     Sample.handler1 (Sample.one_socket Sample.open_socket))))
     = Some {| type := FINAL_OUTPUT;
               content := default "No output generated" (Some "Buy it.");
               timestamp := 40;
               metadata :=
                 Some [("event", MStr "agent_finish");
                       ("processing_time",
                        MSeconds (40 - Callback.start_time Sample.handler1));
                       ("messages_sent",
                        MInt (Callback.message_count Sample.handler1
                              + Z.of_nat
                                  (length
                                     (List.filter
                                        (fun x => Callback.sends (fst x))
                                        [(Callback.LLMStart, 10);
                                         (Callback.LLMEnd None, 20)]))))] |}.
Proof.
  split; [reflexivity |].
  exact (final_frame_reports_run
           [(Callback.LLMStart, 10); (Callback.LLMEnd None, 20)]
           (Some "Buy it.") 40 Sample.handler1
           (Sample.one_socket Sample.open_socket) eq_refl).
Defined.

(** A run of four sending events on a socket whose peer takes two
    frames: two callbacks return, the third finds the peer gone, the
    fourth finds the socket closed. *)
Lemma partial_delivery_is_prefix_witness :
  Sample.one_socket (Sample.budget_socket 2)
    !! Callback.websocket Sample.handler1
  = Some (Sample.budget_socket 2)
  /\ is_connected (Sample.budget_socket 2) = true
  /\ peer_takes (Sample.budget_socket 2) = Some 2%nat
  /\ forallb (fun x => Callback.sends (fst x))
       (Agent.events Sample.answering_run) = true
  /\ fst (fst (Callback.emit (Agent.events Sample.answering_run)
                 Sample.handler1
                 (Sample.one_socket (Sample.budget_socket 2))))
     = [Ok tt; Ok tt; Raise Callback.connection_lost_error;
        Raise Callback.send_after_close_error]
  /\ exists all,
       length all = length (Agent.events Sample.answering_run)
       /\ delivered (Callback.websocket Sample.handler1)
            (snd (Callback.emit (Agent.events Sample.answering_run)
                    Sample.handler1
                    (Sample.one_socket (Sample.budget_socket 2))))
          = (sent (Sample.budget_socket 2) ++ take 2 all)%list.
Proof.
  do 4 (split; [reflexivity |]).
  destruct (partial_delivery_is_prefix (Agent.events Sample.answering_run)
              2%nat Sample.handler1
              (Sample.one_socket (Sample.budget_socket 2))
              (Sample.budget_socket 2) eq_refl eq_refl eq_refl eq_refl)
    as (all & Hlen & _ & Hd & Hres & _).
  split; [exact Hres |].
  exists all. split; [exact Hlen | exact Hd].
Defined.

Lemma websocket_endpoint_leaves_no_session_witness :
  Registry.active_connections
    (Registry.manager (Main.registry Sample.system0)) !! "s1" = None
  /\ Main.flag "s1" Sample.system0 = false
  /\ ~ Registry.live "s1"
         (Main.registry
            (Main.websocket_endpoint default_settings Sample.answering_engine
               1%positive "s1" 0
               [(Main.Received (Ok (Sample.ask "quiet gaming pc")),
                 Sample.readings1)]
               Sample.system0)).
Proof.
  do 2 (split; [reflexivity |]).
  exact (proj1 (websocket_endpoint_leaves_no_session default_settings
                  Sample.answering_engine 1%positive "s1" 0
                  [(Main.Received (Ok (Sample.ask "quiet gaming pc")),
                    Sample.readings1)]
                  Sample.system0 eq_refl eq_refl)).
Defined.

Lemma failed_query_text_is_fixed_witness :
  Main.process_user_query default_settings Sample.hanging_engine "s1"
    (Sample.ask "quiet gaming pc") 1%positive Sample.readings1 Sample.system1
  = (Raise (Exn TimeoutError "Agent processing timed out after 5 minutes"),
     snd (Main.process_user_query default_settings Sample.hanging_engine "s1"
            (Sample.ask "quiet gaming pc") 1%positive Sample.readings1
            Sample.system1))
  /\ In (Main._format_error_message
           (Exn TimeoutError "Agent processing timed out after 5 minutes"))
       ["Input validation error: Query must be at least 3 characters long";
        "Input validation error: Query cannot exceed 1000 characters";
        "Input validation error: Query contains inappropriate content";
        "Request timed out. Please try again with a more specific query.";
        "I encountered an issue processing your request. Please try rephrasing your question."].
Proof.
  assert (H : Main.process_user_query default_settings Sample.hanging_engine
                "s1" (Sample.ask "quiet gaming pc") 1%positive
                Sample.readings1 Sample.system1
              = (Raise (Exn TimeoutError
                          "Agent processing timed out after 5 minutes"),
                 snd (Main.process_user_query default_settings
                        Sample.hanging_engine "s1"
                        (Sample.ask "quiet gaming pc") 1%positive
                        Sample.readings1 Sample.system1)))
    by (vm_compute; reflexivity).
  split; [exact H |].
  exact (failed_query_text_is_fixed default_settings Sample.hanging_engine
           "s1" (Sample.ask "quiet gaming pc") 1%positive Sample.readings1
           Sample.system1 _ _ H).
Defined.


Lemma streamed_frames_bypass_registry_witness :
  Registry.socks (Main.registry Sample.system1) !! 1%positive
  = Some Sample.open_socket
  /\ writable Sample.open_socket = true
  /\ Registry.manager
       (Main.registry
          (snd (Main.process_user_query default_settings
                  Sample.answering_engine "s1"
                  (Sample.ask "quiet gaming pc") 1%positive Sample.readings1
                  Sample.system1)))
     = Registry.manager (Main.registry Sample.system1).
Proof.
  do 2 (split; [reflexivity |]).
  exact (proj1 (proj2 (streamed_frames_bypass_registry default_settings
                         Sample.answering_engine "s1"
                         (Sample.ask "quiet gaming pc") 1%positive
                         Sample.readings1 Sample.system1 Sample.open_socket
                         eq_refl eq_refl))).
Defined.

Lemma malformed_frames_keep_session_witness :
  Forall (fun m => isinstance (fst m)
                     [JSONDecodeError; PydanticValidationError] = true)
    [(Sample.not_json, Sample.readings1); (Sample.not_json, Sample.readings1)]
  /\ Registry.active_connections
       (Registry.manager (Main.registry Sample.system1)) !! "s1"
     = Some 1%positive
  /\ Registry.socks (Main.registry Sample.system1) !! 1%positive
     = Some Sample.open_socket
  /\ writable Sample.open_socket = true
  /\ Main.service
       (Main.message_loop default_settings Sample.answering_engine "s1"
          1%positive
          (map (fun m => (Main.Received (Raise (fst m)), snd m))
             [(Sample.not_json, Sample.readings1);
              (Sample.not_json, Sample.readings1)])
          Sample.system1)
     = Main.service Sample.system1.
Proof.
  assert (H : Forall (fun m => isinstance (fst m)
                                 [JSONDecodeError; PydanticValidationError]
                               = true)
                [(Sample.not_json, Sample.readings1);
                 (Sample.not_json, Sample.readings1)])
    by (repeat constructor).
  split; [exact H |]. do 3 (split; [reflexivity |]).
  exact (proj1 (malformed_frames_keep_session default_settings
                  Sample.answering_engine "s1" 1%positive _ H Sample.system1
                  Sample.open_socket eq_refl eq_refl eq_refl)).
Defined.

Lemma search_sync_accounting_witness :
  Search.allocated (Search.init default_settings ∅ 0)
  /\ Search.stats_consistent (Search.stats (Search.init default_settings ∅ 0))
  /\ Search.stats_consistent
       (Search.stats
          (snd (Search.search_sync default_settings Sample.provider_up false
                  (Search.init default_settings ∅ 0)))).
Proof.
  assert (Ha : Search.allocated (Search.init default_settings ∅ 0))
    by apply allocated_init.
  assert (Hc : Search.stats_consistent
                 (Search.stats (Search.init default_settings ∅ 0)))
    by (vm_compute; repeat split; discriminate).
  split; [exact Ha | split; [exact Hc |]].
  exact (proj1 (search_sync_accounting default_settings Sample.provider_up
                  false (Search.init default_settings ∅ 0) Ha Hc)).
Defined.

Lemma lists_keys_of_list (keys : list string)
  (a : Agent.PCBuildAgentService) :
  NoDup keys ->
  Agent._memory_cache a = list_to_map (map (fun k => (k, [])) keys) ->
  Agent.lists_keys keys a.
Proof.
  intros Hnd Hm. split; [exact Hnd |].
  intros sid. rewrite Hm, <- elem_of_dom, dom_list_to_map_L.
  rewrite elem_of_list_to_set.
  replace ((map (fun k : string => (k, @nil (string * string))) keys).*1)
    with keys; [reflexivity |].
  clear. induction keys as [|k keys IH]; [reflexivity |].
  cbn. now rewrite <- IH.
Qed.

Lemma many_keys_NoDup : NoDup Sample.many_keys.
Proof.
  apply (bool_decide_unpack (NoDup Sample.many_keys)).
  vm_compute. exact I.
Qed.

Lemma cleanup_old_sessions_removes_fifty_witness :
  Agent.lists_keys Sample.many_keys Sample.crowded_service
  /\ (100 < size (Agent._memory_cache Sample.crowded_service))%nat
  /\ (size (Agent._memory_cache
              (Agent.cleanup_old_sessions Sample.many_keys
                 Sample.crowded_service))
      = size (Agent._memory_cache Sample.crowded_service) - 50)%nat.
Proof.
  pose proof (lists_keys_of_list Sample.many_keys Sample.crowded_service
                many_keys_NoDup eq_refl) as Hk.
  assert (Hbig : (100 < size (Agent._memory_cache Sample.crowded_service))%nat)
    by (rewrite <- (lists_keys_length _ _ Hk); vm_compute; lia).
  split; [exact Hk | split; [exact Hbig |]].
  exact (proj1 (proj1 (proj2 (cleanup_old_sessions_removes_fifty
                                Sample.many_keys Sample.crowded_service Hk))
                  Hbig)).
Defined.

Lemma response_reports_cumulative_searches_witness :
  Search.allocated (Agent.search_tool Sample.fresh_service)
  /\ Search.stats_consistent
       (Search.stats (Agent.search_tool Sample.fresh_service))
  /\ fst (Agent.process_query default_settings Sample.answering_engine
            (Sample.ask "quiet gaming pc") "s1" 2 50 Sample.handler1
            Sample.fresh_service (Sample.one_socket Sample.open_socket))
     = Ok {| output := "Buy it."; tokens_used := None;
             processing_time := Some 48; search_results_count := Some 1 |}
  /\ processing_time
       {| output := "Buy it."; tokens_used := None;
          processing_time := Some 48; search_results_count := Some 1 |}
     = Some (50 - 2).
Proof.
  assert (Ha : Search.allocated (Agent.search_tool Sample.fresh_service))
    by apply allocated_init.
  assert (Hc : Search.stats_consistent
                 (Search.stats (Agent.search_tool Sample.fresh_service)))
    by (vm_compute; repeat split; discriminate).
  assert (Hr : fst (Agent.process_query default_settings
                      Sample.answering_engine (Sample.ask "quiet gaming pc")
                      "s1" 2 50 Sample.handler1 Sample.fresh_service
                      (Sample.one_socket Sample.open_socket))
               = Ok {| output := "Buy it."; tokens_used := None;
                       processing_time := Some 48;
                       search_results_count := Some 1 |})
    by (vm_compute; reflexivity).
  split; [exact Ha | split; [exact Hc | split; [exact Hr |]]].
  exact (proj1 (response_reports_cumulative_searches default_settings
                  Sample.answering_engine (Sample.ask "quiet gaming pc") "s1"
                  2 50 Sample.handler1 Sample.fresh_service
                  (Sample.one_socket Sample.open_socket) _ Ha Hc Hr)).
Defined.

Lemma accepted_query_is_stripped_and_bounded_witness :
  new_UserQuery "  quiet gaming pc " (Some "s1")
  = Ok {| query := "quiet gaming pc"; uq_session_id := Some "s1" |}
  /\ 1 <= Text.len (query {| query := "quiet gaming pc";
                             uq_session_id := Some "s1" |}) <= 1000.
Proof.
  split; [reflexivity |].
  exact (proj1 (proj2 (proj2 (accepted_query_is_stripped_and_bounded
                                "  quiet gaming pc " (Some "s1") _
                                eq_refl)))).
Defined.
